(** * RupeeOne: the data-access layer and the report aggregations

    A shallow embedding of [rupeeone_v0.7.py]: the [DatabaseManager]
    methods over a model of the SQLite store they drive, and the pure
    aggregation loops of [ExpenseTrackerApp] that turn fetched rows into
    chart series. *)

From Stdlib Require Import List String Ascii ZArith Bool Arith Lia.
From Stdlib Require Import Sorted Permutation RelationClasses DecimalString Floats.
Import ListNotations.

Local Open Scope string_scope.
Local Open Scope list_scope.
Local Open Scope nat_scope.

(** ** Amounts

    The [amount] and [budget_amount] columns are REAL and reach Python as
    [float].  The store never computes with them; only the report loops
    add them up.  The development is therefore parametric in the carrier:
    [amt_zero] stands for the literal [0.0], [amt_add] for [+], and
    [amt_is_nan] tells the one value SQLite cannot keep in a NOT NULL
    column (a NaN is bound as NULL). *)

Class Amount (A : Type) : Type := {
  amt_zero : A;
  amt_add : A -> A -> A;
  amt_is_nan : A -> bool
}.

(** Exact arithmetic: addition is a commutative monoid.  Needed only where
    a report regroups a sum. *)
Class ExactAmount (A : Type) `{Amount A} : Prop := {
  amt_add_assoc : forall x y z : A, amt_add x (amt_add y z) = amt_add (amt_add x y) z;
  amt_add_comm : forall x y : A, amt_add x y = amt_add y x;
  amt_add_zero_l : forall x : A, amt_add amt_zero x = x
}.

#[export] Instance Z_Amount : Amount Z :=
  {| amt_zero := 0%Z; amt_add := Z.add; amt_is_nan := fun _ => false |}.


(** ** Calendar dates as text *)

Module Calendar.

Record ymd : Type := { year : Z; month : Z; day : Z }.

Definition is_digit (c : ascii) : bool :=
  (48 <=? nat_of_ascii c) && (nat_of_ascii c <=? 57).

Definition digit (c : ascii) : Z := Z.of_nat (nat_of_ascii c) - 48.

Definition is_leap (y : Z) : bool :=
  ((y mod 4 =? 0) && (negb (y mod 100 =? 0) || (y mod 400 =? 0)))%Z.

Definition days_in_month (y m : Z) : Z :=
  if (m =? 2)%Z then (if is_leap y then 29 else 28)%Z
  else if ((m =? 4) || (m =? 6) || (m =? 9) || (m =? 11))%Z then 30%Z
  else 31%Z.

(** The text form [YYYY-MM-DD], every field zero-padded. *)
Definition read (s : string) : option ymd :=
  match list_ascii_of_string s with
  | [y1; y2; y3; y4; h1; m1; m2; h2; d1; d2] =>
      if forallb is_digit [y1; y2; y3; y4; m1; m2; d1; d2]
         && (h1 =? "-")%char && (h2 =? "-")%char
      then Some {| year := 1000 * digit y1 + 100 * digit y2 + 10 * digit y3 + digit y4;
                   month := 10 * digit m1 + digit m2;
                   day := 10 * digit d1 + digit d2 |}
      else None
  | _ => None
  end.

(** A day that exists in its month. *)
Definition real_day (d : ymd) : bool :=
  ((1 <=? month d) && (month d <=? 12)
   && (1 <=? day d) && (day d <=? days_in_month (year d) (month d)))%Z.

End Calendar.

(** ** Python values *)

Module Py.

(** Truth value of an optional [str] argument: [None] and [""] are falsy. *)
Definition truthy (o : option string) : bool :=
  match o with
  | None => false
  | Some s => negb (s =? "")%string
  end.

Definition is_upper (c : ascii) : bool :=
  (65 <=? nat_of_ascii c) && (nat_of_ascii c <=? 90).

Definition is_lower (c : ascii) : bool :=
  (97 <=? nat_of_ascii c) && (nat_of_ascii c <=? 122).

Definition to_lower (c : ascii) : ascii :=
  if is_upper c then ascii_of_nat (nat_of_ascii c + 32) else c.

Definition to_upper (c : ascii) : ascii :=
  if is_lower c then ascii_of_nat (nat_of_ascii c - 32) else c.

Fixpoint lower (s : string) : string :=
  match s with
  | EmptyString => EmptyString
  | String c s' => String (to_lower c) (lower s')
  end.

(** [str.capitalize()]: first character upper-cased, the rest
    lower-cased.  A [string] here is a sequence of bytes, and only the
    ASCII letters change case: this is [str.capitalize()] on ASCII text
    ([ascii_text] below).  On other text Python also changes the case of
    letters beyond ASCII, which this function leaves as they are, so the
    statements about it are made for ASCII text. *)
Definition capitalize (s : string) : string :=
  match s with
  | EmptyString => EmptyString
  | String c s' => String (to_upper c) (lower s')
  end.

(** [str(n)] for an [int]. *)
Definition str (n : Z) : string := NilZero.string_of_int (Z.to_int n).

(** [f"{n:02d}"] and the four-digit analogue used by [%Y] (non-negative
    [n]). *)
Definition pad2 (n : Z) : string :=
  if (n <? 10)%Z then ("0" ++ str n)%string else str n.

Definition pad4 (n : Z) : string :=
  if (n <? 10)%Z then ("000" ++ str n)%string
  else if (n <? 100)%Z then ("00" ++ str n)%string
  else if (n <? 1000)%Z then ("0" ++ str n)%string
  else str n.

(** A [datetime], as far as the reports look at it. *)
Definition datetime : Type := Calendar.ymd.

(** [datetime.strptime(s, "%Y-%m-%d")], with [None] for [ValueError]
    ([MINYEAR] is 1).  Modelled on zero-padded input, which is what the
    forms write ([get_date().strftime("%Y-%m-%d")]); the library also
    reads one-digit months and days, which the application never stores. *)
Definition strptime (s : string) : option datetime :=
  match Calendar.read s with
  | Some dt => if (1 <=? Calendar.year dt)%Z && Calendar.real_day dt then Some dt else None
  | None => None
  end.

(** [dt.strftime("%Y-%m")] (years below 1000 print unpadded on some
    platforms; the application's dates are not that old). *)
Definition strftime_Ym (dt : datetime) : string :=
  (pad4 (Calendar.year dt) ++ "-" ++ pad2 (Calendar.month dt))%string.

End Py.

(** A stored date as the application writes it: [YYYY-MM-DD], a real
    calendar day, four-digit year not starting with zero. *)
Definition iso_date (s : string) : bool :=
  match Calendar.read s with
  | Some dt => Calendar.real_day dt && (1000 <=? Calendar.year dt)%Z
  | None => false
  end.

(** ** SQLite scalar functions and operators *)

Module Sql.

(** The date a TEXT value denotes.  Modelled on calendar dates in the
    form [YYYY-MM-DD] (the form stored by the application): on such a
    text ([calendar_date] below) the result is SQLite's.  SQLite also
    understands other time strings (a date followed by a time, a Julian
    day number, ...) and takes a day up to 31 in any month (rolling over
    into the next month); on those this function answers NULL where
    SQLite answers a date, so the statements that depend on it are made
    for calendar dates.  A text SQLite does not understand at all, such
    as ["15/01/2025"], is NULL in both. *)
Definition date_of (d : string) : option Calendar.ymd :=
  match Calendar.read d with
  | Some dt => if Calendar.real_day dt then Some dt else None
  | None => None
  end.

(** [STRFTIME('%Y', d)] and [STRFTIME('%Y-%m', d)]; [None] is NULL.  On
    a date in the form above the result is a prefix of the text. *)
Definition strftime_Y (d : string) : option string :=
  match date_of d with
  | Some _ => Some (substring 0 4 d)
  | None => None
  end.

Definition strftime_Ym (d : string) : option string :=
  match date_of d with
  | Some _ => Some (substring 0 7 d)
  | None => None
  end.

(** [x = ?] against a possibly-NULL left operand. *)
Definition eq_null (x : option string) (p : string) : bool :=
  match x with
  | Some v => (v =? p)%string
  | None => false
  end.

(** [text LIKE pattern] with the default settings: [%] matches any run
    of characters, [_] exactly one, every other character itself,
    ASCII letters without regard to case; no escape character.  The
    match runs over the bytes of the text; SQLite's runs over its UTF-8
    characters, which is the same on ASCII text ([ascii_text] below) and
    differs beyond it ([_] would match one byte of a longer character),
    so the statements about which rows match are made for ASCII text. *)
Fixpoint like_chars (pat : list ascii) (txt : list ascii) {struct pat} : bool :=
  match pat with
  | [] => match txt with [] => true | _ :: _ => false end
  | c :: pat' =>
      if (c =? "%")%char then
        (fix any_suffix (u : list ascii) : bool :=
           like_chars pat' u
           || match u with
              | [] => false
              | _ :: u' => any_suffix u'
              end) txt
      else
        match txt with
        | [] => false
        | d :: txt' =>
            ((c =? "_")%char || (Py.to_lower c =? Py.to_lower d)%char)
            && like_chars pat' txt'
        end
  end.

Definition like (txt pat : string) : bool :=
  like_chars (list_ascii_of_string pat) (list_ascii_of_string txt).

(** LIKE against a nullable column: NULL never matches. *)
Definition like_null (txt : option string) (pat : string) : bool :=
  match txt with
  | Some t => like t pat
  | None => false
  end.

End Sql.

(** The pattern built by [f"%{keyword}%"]. *)
Definition contains_pattern (keyword : string) : string :=
  ("%" ++ keyword ++ "%")%string.

(** ** Rows and tables

    A row is the tuple [cursor.fetchall()] hands to Python: [exp[1]] is
    the date, [exp[2]] the category, [exp[3]] the amount. *)

Record expense (A : Type) : Type := {
  exp_id : Z;
  exp_date : string;
  exp_category : string;
  exp_amount : A;
  exp_description : option string
}.
Arguments Build_expense {A} _ _ _ _ _.
Arguments exp_id {A} _.
Arguments exp_date {A} _.
Arguments exp_category {A} _.
Arguments exp_amount {A} _.
Arguments exp_description {A} _.

Record income_row (A : Type) : Type := {
  inc_id : Z;
  inc_date : string;
  inc_source : string;
  inc_amount : A;
  inc_description : option string
}.
Arguments Build_income_row {A} _ _ _ _ _.
Arguments inc_id {A} _.
Arguments inc_date {A} _.
Arguments inc_source {A} _.
Arguments inc_amount {A} _.
Arguments inc_description {A} _.

Record budget (A : Type) : Type := {
  bud_id : Z;
  month_year : string;
  budget_amount : A
}.
Arguments Build_budget {A} _ _ _.
Arguments bud_id {A} _.
Arguments month_year {A} _.
Arguments budget_amount {A} _.

Record category : Type := {
  cat_id : Z;
  cat_name : string
}.

(** The four tables, each in rowid order, and the AUTOINCREMENT counter
    of [expenses] (the largest rowid ever handed out). *)
Record tables (A : Type) : Type := {
  expenses : list (expense A);
  expenses_seq : Z;
  income : list (income_row A);
  budgets : list (budget A);
  categories : list category
}.
Arguments Build_tables {A} _ _ _ _ _.
Arguments expenses {A} _.
Arguments expenses_seq {A} _.
Arguments income {A} _.
Arguments budgets {A} _.
Arguments categories {A} _.

(** The schema's UNIQUE constraints. *)
Definition unique_names {A} (t : tables A) : Prop :=
  NoDup (map cat_name (categories t)).

Definition unique_months {A} (t : tables A) : Prop :=
  NoDup (map month_year (budgets t)).

(** ** The connection

    [sqlite3.Error] as the handlers tell it apart: [IntegrityError] has
    its own [except] clause, everything else is caught as the base class. *)
Inductive sqlite_error : Type :=
| IntegrityError
| OperationalError.

(** What a handler puts on screen ([messagebox.showwarning] /
    [messagebox.showerror], by window title). *)
Inductive messagebox : Type :=
| showwarning (title : string)
| showerror (title : string).

(** [self.cursor] is either a live cursor or [None]; [disk] is the
    committed database, [txn] the working copy of an open transaction
    (the connection sees its own uncommitted writes).  [faults] is the
    environment: one entry per statement still to be run, [true] when the
    engine will fail it (I/O error, locked file, full disk). *)
Record DatabaseManager (A : Type) : Type := {
  cursor : bool;
  disk : tables A;
  txn : option (tables A);
  faults : list bool
}.
Arguments Build_DatabaseManager {A} _ _ _ _.
Arguments cursor {A} _.
Arguments disk {A} _.
Arguments txn {A} _.
Arguments faults {A} _.

(** What a method hands back: its return value, the message box it
    raised if any, and the manager afterwards. *)
Record reply (A X : Type) : Type := {
  returned : X;
  shown : option messagebox;
  self_after : DatabaseManager A
}.
Arguments Build_reply {A X} _ _ _.
Arguments returned {A X} _.
Arguments shown {A X} _.
Arguments self_after {A X} _.

Section Connection.
Context {A : Type}.

(** A freshly opened manager over a database: live cursor, nothing
    pending. *)
Definition connect (t : tables A) (env : list bool) : DatabaseManager A :=
  {| cursor := true; disk := t; txn := None; faults := env |}.

(** The tables as this connection reads them. *)
Definition visible (db : DatabaseManager A) : tables A :=
  match txn db with
  | Some t => t
  | None => disk db
  end.

(** Statements run in a state-and-error monad over the manager. *)
Definition stmt (X : Type) : Type :=
  DatabaseManager A -> (sqlite_error + X) * DatabaseManager A.

Definition bind {X Y} (m : stmt X) (k : X -> stmt Y) : stmt Y :=
  fun db =>
    match m db with
    | (inr x, db') => k x db'
    | (inl e, db') => (inl e, db')
    end.

(** The engine's verdict on the next statement. *)
Definition engine_step : stmt unit :=
  fun db =>
    match faults db with
    | [] => (inr tt, db)
    | boom :: rest =>
        let db' := {| cursor := cursor db; disk := disk db; txn := txn db; faults := rest |} in
        if boom then (inl OperationalError, db') else (inr tt, db')
    end.

(** The sqlite3 module opens a transaction before the first INSERT,
    UPDATE or DELETE when none is open. *)
Definition implicit_begin : stmt unit :=
  fun db =>
    match txn db with
    | Some _ => (inr tt, db)
    | None => (inr tt, {| cursor := cursor db; disk := disk db;
                          txn := Some (disk db); faults := faults db |})
    end.

Definition apply_write (w : tables A -> sqlite_error + tables A) : stmt unit :=
  fun db =>
    match w (visible db) with
    | inr t' => (inr tt, {| cursor := cursor db; disk := disk db;
                            txn := Some t'; faults := faults db |})
    | inl e => (inl e, db)
    end.

(** [cursor.execute] of a data-changing statement.  A statement that
    fails leaves the tables as they were and the transaction open. *)
Definition execute_write (w : tables A -> sqlite_error + tables A) : stmt unit :=
  bind implicit_begin (fun _ => bind engine_step (fun _ => apply_write w)).

(** [cursor.execute] of a SELECT followed by the fetch. *)
Definition execute_read {X} (q : tables A -> X) : stmt X :=
  bind engine_step (fun _ => fun db => (inr (q (visible db)), db)).

(** [conn.execute("BEGIN TRANSACTION")]: refused inside a transaction. *)
Definition begin_transaction : stmt unit :=
  bind engine_step (fun _ => fun db =>
    match txn db with
    | Some _ => (inl OperationalError, db)
    | None => (inr tt, {| cursor := cursor db; disk := disk db;
                          txn := Some (disk db); faults := faults db |})
    end).

(** [conn.commit()]. *)
Definition commit : stmt unit :=
  bind engine_step (fun _ => fun db =>
    (inr tt, {| cursor := cursor db; disk := visible db;
                txn := None; faults := faults db |})).

(** [conn.rollback()] in a handler. *)
Definition rollback (db : DatabaseManager A) : DatabaseManager A :=
  {| cursor := cursor db; disk := disk db; txn := None; faults := faults db |}.

End Connection.

Declare Scope stmt_scope.
Delimit Scope stmt_scope with stmt.
Notation "m ;;; k" := (bind m (fun _ => k))
  (at level 61, right associativity) : stmt_scope.

(** ** SQL statements *)

Section Statements.
Context {A : Type} `{Amount A}.

(** [ORDER BY <key> DESC] on a TEXT key (byte-wise comparison).  Rows
    with equal keys keep their scan order. *)
Fixpoint insert_desc {R : Type} (key : R -> string) (r : R) (l : list R) : list R :=
  match l with
  | [] => [r]
  | x :: l' =>
      if String.leb (key x) (key r) then r :: x :: l'
      else x :: insert_desc key r l'
  end.

Definition order_by_desc {R : Type} (key : R -> string) (rows : list R) : list R :=
  fold_right (insert_desc key) [] rows.

(** [SELECT * FROM <table> WHERE 1=1 AND c1 AND ... ORDER BY date DESC]. *)
Definition select_where {R : Type} (date : R -> string)
    (conds : list (R -> bool)) (rows : list R) : list R :=
  order_by_desc date (filter (fun r => forallb (fun c => c r) conds) rows).

(** [INSERT INTO expenses (date, category, amount, description)
    VALUES (?, ?, ?, ?)]: the rowid is one past the largest ever used;
    [amount REAL NOT NULL] refuses a NaN. *)
Definition next_expense_id (t : tables A) : Z :=
  Z.max (fold_right Z.max 0%Z (map exp_id (expenses t))) (expenses_seq t) + 1.

Definition insert_expense (date category : string) (amount : A)
    (description : option string) (t : tables A) : sqlite_error + tables A :=
  if amt_is_nan amount then inl IntegrityError
  else
    let i := next_expense_id t in
    inr {| expenses := expenses t ++ [Build_expense i date category amount description];
           expenses_seq := i;
           income := income t;
           budgets := budgets t;
           categories := categories t |}.

Definition with_expenses (t : tables A) (es : list (expense A)) : tables A :=
  {| expenses := es;
     expenses_seq := expenses_seq t;
     income := income t;
     budgets := budgets t;
     categories := categories t |}.

Definition with_categories (t : tables A) (cs : list category) : tables A :=
  {| expenses := expenses t;
     expenses_seq := expenses_seq t;
     income := income t;
     budgets := budgets t;
     categories := cs |}.

(** [UPDATE expenses SET date=?, category=?, amount=?, description=?
    WHERE id=?]; the NOT NULL check runs on the rows it rewrites. *)
Definition update_expense_row (expense_id : Z) (date category : string)
    (amount : A) (description : option string) (t : tables A)
    : sqlite_error + tables A :=
  if amt_is_nan amount && existsb (fun r => (exp_id r =? expense_id)%Z) (expenses t)
  then inl IntegrityError
  else
    inr (with_expenses t
           (map (fun r => if (exp_id r =? expense_id)%Z
                          then Build_expense (exp_id r) date category amount description
                          else r)
                (expenses t))).

(** [UPDATE expenses SET category = ? WHERE category = ?]. *)
Definition set_expense_category (new_name old_name : string) (t : tables A)
    : sqlite_error + tables A :=
  inr (with_expenses t
         (map (fun r => if (exp_category r =? old_name)%string
                        then Build_expense (exp_id r) (exp_date r) new_name
                               (exp_amount r) (exp_description r)
                        else r)
              (expenses t))).

(** [UPDATE categories SET name = ? WHERE name = ?] under
    [name TEXT UNIQUE]: writing a name another row holds is a
    constraint failure, and the statement then changes nothing. *)
Definition set_category_name (new_name old_name : string) (t : tables A)
    : sqlite_error + tables A :=
  let hits := filter (fun c => (cat_name c =? old_name)%string) (categories t) in
  if (old_name =? new_name)%string || (List.length hits =? 0) then inr t
  else if existsb (fun c => (cat_name c =? new_name)%string) (categories t)
          || (2 <=? List.length hits)
  then inl IntegrityError
  else inr (with_categories t
              (map (fun c => if (cat_name c =? old_name)%string
                             then {| cat_id := cat_id c; cat_name := new_name |}
                             else c)
                   (categories t))).

(** [DELETE FROM categories WHERE name = ?]. *)
Definition delete_category_row (name : string) (t : tables A)
    : sqlite_error + tables A :=
  inr (with_categories t
         (filter (fun c => negb (cat_name c =? name)%string) (categories t))).

(** [SELECT budget_amount FROM budgets WHERE month_year = ?] and
    [fetchone()]. *)
Definition select_budget_amount (m : string) (t : tables A) : option A :=
  match find (fun b => (month_year b =? m)%string) (budgets t) with
  | Some b => Some (budget_amount b)
  | None => None
  end.

(** [SELECT DISTINCT STRFTIME('%Y', date) FROM <table> ORDER BY date DESC]:
    the scan keeps the first row of every distinct value, the sorter
    then orders the kept rows by their own date. *)
Definition mem_year (y : option string) (seen : list (option string)) : bool :=
  existsb (fun z => match y, z with
                    | Some a, Some b => (a =? b)%string
                    | None, None => true
                    | _, _ => false
                    end) seen.

Fixpoint distinct_years (seen : list (option string)) (dates : list string)
    : list (option string * string) :=
  match dates with
  | [] => []
  | d :: ds =>
      let y := Sql.strftime_Y d in
      if mem_year y seen then distinct_years seen ds
      else (y, d) :: distinct_years (y :: seen) ds
  end.

Definition select_distinct_years (dates : list string) : list (option string) :=
  map fst (order_by_desc snd (distinct_years [] dates)).

End Statements.

(** ** [class DatabaseManager] *)

Section Methods.
Context {A : Type} `{Amount A}.

Local Open Scope stmt_scope.

(** The value of an optional argument once it is known to be truthy. *)
Definition arg (o : option string) : string :=
  match o with
  | Some s => s
  | None => ""
  end.

Definition database_error : option messagebox := Some (showerror "Database Error").

Definition add_expense (self : DatabaseManager A) (date category : string)
    (amount : A) (description : option string) : reply A bool :=
  if negb (cursor self) then Build_reply false None self
  else
    match (execute_write (insert_expense date category amount description) ;;;
           commit) self with
    | (inr _, s) => Build_reply true None s
    | (inl _, s) => Build_reply false database_error s
    end.

(** The WHERE clause of [fetch_expenses], one entry per [query += " AND ..."]. *)
Definition expense_conds (start_date end_date category year month_year keyword : option string)
    : list (expense A -> bool) :=
  (if Py.truthy start_date
   then [fun r => String.leb (arg start_date) (exp_date r)] else [])
  ++ (if Py.truthy end_date
      then [fun r => String.leb (exp_date r) (arg end_date)] else [])
  ++ (if Py.truthy category && negb (arg category =? "All Categories")%string
      then [fun r => (exp_category r =? arg category)%string] else [])
  ++ (if Py.truthy year && negb (arg year =? "All Years")%string
      then [fun r => Sql.eq_null (Sql.strftime_Y (exp_date r)) (arg year)] else [])
  ++ (if Py.truthy month_year
      then [fun r => Sql.eq_null (Sql.strftime_Ym (exp_date r)) (arg month_year)] else [])
  ++ (if Py.truthy keyword
      then [fun r => Sql.like_null (exp_description r) (contains_pattern (arg keyword))
                     || Sql.like (exp_category r) (contains_pattern (arg keyword))]
      else []).

Definition fetch_expenses (self : DatabaseManager A)
    (start_date end_date category year month_year keyword : option string)
    : reply A (list (expense A)) :=
  if negb (cursor self) then Build_reply [] None self
  else
    let conds := expense_conds start_date end_date category year month_year keyword in
    match execute_read (fun t => select_where exp_date conds (expenses t)) self with
    | (inr rows, s) => Build_reply rows None s
    | (inl _, s) => Build_reply [] database_error s
    end.

Definition fetch_expenses_by_month_year (self : DatabaseManager A) (month_year : string)
    : reply A (list (expense A)) :=
  fetch_expenses self None None None None (Some month_year) None.

Definition update_expense (self : DatabaseManager A) (expense_id : Z)
    (date category : string) (amount : A) (description : option string)
    : reply A bool :=
  if negb (cursor self) then Build_reply false None self
  else
    match (execute_write (update_expense_row expense_id date category amount description) ;;;
           commit) self with
    | (inr _, s) => Build_reply true None s
    | (inl _, s) => Build_reply false database_error s
    end.

Definition get_monthly_budget (self : DatabaseManager A) (month_year : string)
    : reply A A :=
  if negb (cursor self) then Build_reply amt_zero None self
  else
    match execute_read (select_budget_amount month_year) self with
    | (inr (Some amount), s) => Build_reply amount None s
    | (inr None, s) => Build_reply amt_zero None s
    | (inl _, s) => Build_reply amt_zero database_error s
    end.

(** The WHERE clause of [fetch_income]. *)
Definition income_conds (start_date end_date source year month_year keyword : option string)
    : list (income_row A -> bool) :=
  (if Py.truthy start_date
   then [fun r => String.leb (arg start_date) (inc_date r)] else [])
  ++ (if Py.truthy end_date
      then [fun r => String.leb (inc_date r) (arg end_date)] else [])
  ++ (if Py.truthy source
      then [fun r => Sql.like (inc_source r) (contains_pattern (arg source))] else [])
  ++ (if Py.truthy year
      then [fun r => Sql.eq_null (Sql.strftime_Y (inc_date r)) (arg year)] else [])
  ++ (if Py.truthy month_year
      then [fun r => Sql.eq_null (Sql.strftime_Ym (inc_date r)) (arg month_year)] else [])
  ++ (if Py.truthy keyword
      then [fun r => Sql.like_null (inc_description r) (contains_pattern (arg keyword))
                     || Sql.like (inc_source r) (contains_pattern (arg keyword))]
      else []).

Definition fetch_income (self : DatabaseManager A)
    (start_date end_date source year month_year keyword : option string)
    : reply A (list (income_row A)) :=
  if negb (cursor self) then Build_reply [] None self
  else
    let conds := income_conds start_date end_date source year month_year keyword in
    match execute_read (fun t => select_where inc_date conds (income t)) self with
    | (inr rows, s) => Build_reply rows None s
    | (inl _, s) => Build_reply [] database_error s
    end.

(** [SELECT name FROM categories ORDER BY name ASC]: the rows are bare
    names, so the ascending order is the descending one read backwards. *)
Definition get_categories (self : DatabaseManager A) : reply A (list string) :=
  if negb (cursor self) then Build_reply [] None self
  else
    match execute_read (fun t => rev (order_by_desc (fun n => n) (map cat_name (categories t)))) self with
    | (inr names, s) => Build_reply names None s
    | (inl _, s) => Build_reply [] database_error s
    end.

Definition update_category (self : DatabaseManager A) (old_name new_name : string)
    : reply A bool :=
  if negb (cursor self) then Build_reply false None self
  else
    match (begin_transaction ;;;
           execute_write (set_category_name new_name old_name) ;;;
           execute_write (set_expense_category new_name old_name) ;;;
           commit) self with
    | (inr _, s) => Build_reply true None s
    | (inl IntegrityError, s) =>
        Build_reply false (Some (showwarning "Duplicate Category")) (rollback s)
    | (inl _, s) => Build_reply false database_error (rollback s)
    end.

Definition delete_category (self : DatabaseManager A) (category_name : string)
    : reply A bool :=
  if negb (cursor self) then Build_reply false None self
  else
    match (begin_transaction ;;;
           execute_write (set_expense_category "Uncategorized" category_name) ;;;
           execute_write (delete_category_row category_name) ;;;
           commit) self with
    | (inr _, s) => Build_reply true None s
    | (inl _, s) => Build_reply false database_error (rollback s)
    end.

Definition get_all_expense_years (self : DatabaseManager A)
    : reply A (list (option string)) :=
  if negb (cursor self) then Build_reply [] None self
  else
    match execute_read (fun t => select_distinct_years (map exp_date (expenses t))) self with
    | (inr years, s) => Build_reply years None s
    | (inl _, s) => Build_reply [] database_error s
    end.

Definition get_all_income_years (self : DatabaseManager A)
    : reply A (list (option string)) :=
  if negb (cursor self) then Build_reply [] None self
  else
    match execute_read (fun t => select_distinct_years (map inc_date (income t))) self with
    | (inr years, s) => Build_reply years None s
    | (inl _, s) => Build_reply [] database_error s
    end.

End Methods.

(** ** [class ExpenseTrackerApp]: the report loops *)

Section Reports.
Context {A : Type} `{Amount A}.

(** A sum taken left to right from [0.0]: what a [+=] loop leaves, and
    the value of [sum(xs)] (on floats, interpreters from 3.12 on
    compensate the rounding inside [sum]; on exact amounts the number is
    the same). *)
Definition py_sum (xs : list A) : A := fold_left amt_add xs amt_zero.

(** A [collections.defaultdict(float)], in insertion order;
    [dict_add k v d] is [d[k] += v]. *)
Fixpoint dict_add (k : string) (v : A) (d : list (string * A)) : list (string * A) :=
  match d with
  | [] => [(k, amt_add amt_zero v)]
  | (k', x) :: d' =>
      if (k' =? k)%string then (k', amt_add x v) :: d'
      else (k', x) :: dict_add k v d'
  end.

(** [d.get(k, default)]. *)
Fixpoint dict_get (d : list (string * A)) (k : string) (default : A) : A :=
  match d with
  | [] => default
  | (k', x) :: d' => if (k' =? k)%string then x else dict_get d' k default
  end.

Fixpoint dict_find (d : list (string * A)) (k : string) : option A :=
  match d with
  | [] => None
  | (k', x) :: d' => if (k' =? k)%string then Some x else dict_find d' k
  end.

(** [generate_pie_chart_filtered] / [update_summary_and_budget_display]:
    [for exp in expenses: category_totals[exp[2].capitalize()] += exp[3]]. *)
Definition category_totals (expenses : list (expense A)) : list (string * A) :=
  fold_left
    (fun d exp => dict_add (Py.capitalize (exp_category exp)) (exp_amount exp) d)
    expenses [].

(** [total_sum = sum(category_totals.values())]. *)
Definition total_sum (expenses : list (expense A)) : A :=
  py_sum (map snd (category_totals expenses)).

(** [generate_bar_chart_filtered]: the loop filling [monthly_totals];
    [None] when [strptime] raises. *)
Definition monthly_totals (selected_year : string) (expenses : list (expense A))
    : option (list (string * A)) :=
  fold_left
    (fun acc exp =>
       match acc with
       | None => None
       | Some d =>
           match Py.strptime (exp_date exp) with
           | None => None
           | Some parsed =>
               if (Py.str (Calendar.year parsed) =? selected_year)%string
               then Some (dict_add (Py.strftime_Ym parsed) (exp_amount exp) d)
               else Some d
           end
       end)
    expenses (Some []).

(** [[f"{i:02d}" for i in range(1, 13)]]. *)
Definition all_months : list string :=
  map (fun i => Py.pad2 (Z.of_nat i)) (seq 1 12).

Definition labels_full_year (selected_year : string) : list string :=
  map (fun m => (selected_year ++ "-" ++ m)%string) all_months.

(** [amounts], the series handed to [ax.bar]. *)
Definition bar_chart_amounts (selected_year : string) (expenses : list (expense A))
    : option (list A) :=
  match monthly_totals selected_year expenses with
  | Some d => Some (map (fun month_label => dict_get d month_label amt_zero)
                        (labels_full_year selected_year))
  | None => None
  end.

(** Rows are grouped by a key: [add_row key] is one turn of a report
    loop, [in_group key k] picks the rows of group [k]. *)
Definition in_group (key : expense A -> string) (k : string) (e : expense A) : bool :=
  (key e =? k)%string.

Definition add_row (key : expense A -> string) (d : list (string * A)) (e : expense A)
    : list (string * A) :=
  dict_add (key e) (exp_amount e) d.

End Reports.

(** ** Reading the claims

    Rows of an expense list that fall in a month, by the text of their
    date: characters 0-3 are the year, 5-6 the month. *)
Definition dated_in {A} (y : string) (m : nat) (r : expense A) : bool :=
  (substring 0 4 (exp_date r) =? y)%string
  && (substring 5 2 (exp_date r) =? Py.pad2 (Z.of_nat m))%string.

(** Text made of ASCII characters only: the range on which the byte
    strings of this model and the [str] and TEXT values of the program
    have the same characters. *)
Definition ascii_text (s : string) : bool :=
  forallb (fun c => nat_of_ascii c <? 128) (list_ascii_of_string s).

Definition ascii_note (o : option string) : bool :=
  match o with
  | Some s => ascii_text s
  | None => true
  end.

(** A text SQLite's date functions read as a calendar date, as far as
    the model follows them: [YYYY-MM-DD], a day that exists. *)
Definition calendar_date (d : string) : bool :=
  match Sql.date_of d with
  | Some _ => true
  | None => false
  end.

(** An income row inside the range of the model: a calendar date, ASCII
    source and description. *)
Definition plain_income {A} (r : income_row A) : bool :=
  calendar_date (inc_date r) && ascii_text (inc_source r)
  && ascii_note (inc_description r).

(** Descending by date, for either kind of row. *)
Definition date_desc {R} (date : R -> string) (a b : R) : Prop :=
  String.leb (date b) (date a) = true.

(** Two names that differ only in the case of their ASCII letters. *)
Definition same_up_to_case (a b : string) : Prop := Py.lower a = Py.lower b.

(** The key of the category reports. *)
Definition group_key {A} (e : expense A) : string := Py.capitalize (exp_category e).

(** The key of the monthly report and its year test, read off the text. *)
Definition month_key {A} (e : expense A) : string :=
  (substring 0 4 (exp_date e) ++ "-" ++ substring 5 2 (exp_date e))%string.

Definition in_year {A} (y : string) (e : expense A) : bool :=
  (substring 0 4 (exp_date e) =? y)%string.

(** What the two cascading UPDATEs write into a row. *)
Definition recategorize {A} (new_name old_name : string) (r : expense A) : expense A :=
  if (exp_category r =? old_name)%string
  then Build_expense (exp_id r) (exp_date r) new_name (exp_amount r) (exp_description r)
  else r.

Definition rename (new_name old_name : string) (c : category) : category :=
  if (cat_name c =? old_name)%string
  then {| cat_id := cat_id c; cat_name := new_name |}
  else c.

(** Strictly descending: each year once, later years first. *)
Definition years_desc (a b : string) : Prop := String.ltb b a = true.

(** Decimal digits and the texts they make up; the two tables below are
    checked by running through every combination. *)
Definition digits10 : list Z := [0; 1; 2; 3; 4; 5; 6; 7; 8; 9]%Z.

Definition digit_char (n : Z) : ascii := ascii_of_nat (48 + Z.to_nat n).

Definition text2 (a b : Z) : string :=
  String (digit_char a) (String (digit_char b) EmptyString).

Definition text4 (a b c d : Z) : string :=
  String (digit_char a) (String (digit_char b) (text2 c d)).

Definition year_text_ok : bool :=
  forallb (fun a => forallb (fun b => forallb (fun c => forallb (fun d =>
    let n := (1000 * a + 100 * b + 10 * c + d)%Z in
    if (1000 <=? n)%Z
    then (Py.str n =? text4 a b c d)%string && (Py.pad4 n =? text4 a b c d)%string
    else true) digits10) digits10) digits10) digits10.

Definition month_text_ok : bool :=
  forallb (fun a => forallb (fun b =>
    (Py.pad2 (10 * a + b) =? text2 a b)%string) digits10) digits10.

(** A small database for the concrete checks: two categories, one
    expense left "Uncategorized" by an earlier delete. *)
Definition sample : tables Z :=
  {| expenses := [Build_expense 1 "2025-01-10" "Food" 250%Z (Some "Lunch");
                  Build_expense 2 "2025-01-15" "Uncategorized" 150%Z (Some "")];
     expenses_seq := 2;
     income := [Build_income_row 1 "2025-01-05" "Salary" 5000%Z None;
                Build_income_row 2 "2025-01-20" "Sales" 700%Z (Some "garage sale")];
     budgets := [Build_budget 1 "2025-01" 1000%Z];
     categories := [{| cat_id := 1; cat_name := "Food" |};
                    {| cat_id := 2; cat_name := "Rent" |}] |}.

(** Python's [float]: IEEE 754 binary64. *)
#[export] Instance float_Amount : Amount float :=
  {| amt_zero := 0%float; amt_add := PrimFloat.add; amt_is_nan := PrimFloat.is_nan |}.

(** Three small expenses, amounts 0.10, 0.10 and 1.10 as doubles. *)
Definition small_change : list (expense float) :=
  [Build_expense 1 "2025-01-10" "Food" 0x1.999999999999ap-4%float None;
   Build_expense 2 "2025-01-11" "Rent" 0x1.999999999999ap-4%float None;
   Build_expense 3 "2025-01-12" "Food" 0x1.199999999999ap+0%float None].

(** ** The other statements of [DatabaseManager]

    The model's [tables] carry the AUTOINCREMENT counter of [expenses]
    only.  Where a statement inserts into another table, the counter of
    that table ([seq], its entry in [sqlite_sequence]) is an argument. *)

Section MoreStatements.
Context {A : Type} `{Amount A}.

(** AUTOINCREMENT: one past the largest rowid in the table and the
    largest ever handed out. *)
Definition next_rowid (ids : list Z) (seq : Z) : Z :=
  Z.max (fold_right Z.max 0%Z ids) seq + 1.

Definition with_income (t : tables A) (rows : list (income_row A)) : tables A :=
  {| expenses := expenses t;
     expenses_seq := expenses_seq t;
     income := rows;
     budgets := budgets t;
     categories := categories t |}.

Definition with_budgets (t : tables A) (rows : list (budget A)) : tables A :=
  {| expenses := expenses t;
     expenses_seq := expenses_seq t;
     income := income t;
     budgets := rows;
     categories := categories t |}.

(** [DELETE FROM expenses WHERE id = ?]. *)
Definition delete_expense_row (expense_id : Z) (t : tables A)
    : sqlite_error + tables A :=
  inr (with_expenses t
         (filter (fun r => negb (exp_id r =? expense_id)%Z) (expenses t))).

(** [INSERT OR REPLACE INTO budgets (month_year, budget_amount)
    VALUES (?, ?)]: the row holding the month, if any, is deleted and the
    new one takes a fresh rowid; a NaN amount still fails NOT NULL (the
    column has no default to fall back on). *)
Definition replace_budget (seq : Z) (m : string) (amount : A) (t : tables A)
    : sqlite_error + tables A :=
  if amt_is_nan amount then inl IntegrityError
  else
    inr (with_budgets t
           (filter (fun b => negb (month_year b =? m)%string) (budgets t)
            ++ [Build_budget (next_rowid (map bud_id (budgets t)) seq) m amount])).

(** [INSERT INTO income (date, source, amount, description)
    VALUES (?, ?, ?, ?)]. *)
Definition insert_income (seq : Z) (date source : string) (amount : A)
    (description : option string) (t : tables A) : sqlite_error + tables A :=
  if amt_is_nan amount then inl IntegrityError
  else
    inr (with_income t
           (income t
            ++ [Build_income_row (next_rowid (map inc_id (income t)) seq)
                  date source amount description])).

(** [UPDATE income SET date=?, source=?, amount=?, description=?
    WHERE id=?]. *)
Definition update_income_row (income_id : Z) (date source : string)
    (amount : A) (description : option string) (t : tables A)
    : sqlite_error + tables A :=
  if amt_is_nan amount && existsb (fun r => (inc_id r =? income_id)%Z) (income t)
  then inl IntegrityError
  else
    inr (with_income t
           (map (fun r => if (inc_id r =? income_id)%Z
                          then Build_income_row (inc_id r) date source amount description
                          else r)
                (income t))).

(** [DELETE FROM income WHERE id = ?]. *)
Definition delete_income_row (income_id : Z) (t : tables A)
    : sqlite_error + tables A :=
  inr (with_income t
         (filter (fun r => negb (inc_id r =? income_id)%Z) (income t))).

(** [INSERT INTO categories (name) VALUES (?)] under [name TEXT UNIQUE]. *)
Definition insert_category (seq : Z) (name : string) (t : tables A)
    : sqlite_error + tables A :=
  if existsb (fun c => (cat_name c =? name)%string) (categories t)
  then inl IntegrityError
  else
    inr (with_categories t
           (categories t
            ++ [{| cat_id := next_rowid (map cat_id (categories t)) seq;
                   cat_name := name |}])).

End MoreStatements.

Section MoreMethods.
Context {A : Type} `{Amount A}.

Local Open Scope stmt_scope.

Definition delete_expense (self : DatabaseManager A) (expense_id : Z)
    : reply A bool :=
  if negb (cursor self) then Build_reply false None self
  else
    match (execute_write (delete_expense_row expense_id) ;;; commit) self with
    | (inr _, s) => Build_reply true None s
    | (inl _, s) => Build_reply false database_error s
    end.

Definition set_monthly_budget (self : DatabaseManager A) (seq : Z)
    (month_year : string) (amount : A) : reply A bool :=
  if negb (cursor self) then Build_reply false None self
  else
    match (execute_write (replace_budget seq month_year amount) ;;; commit) self with
    | (inr _, s) => Build_reply true None s
    | (inl _, s) => Build_reply false database_error s
    end.

Definition add_income (self : DatabaseManager A) (seq : Z) (date source : string)
    (amount : A) (description : option string) : reply A bool :=
  if negb (cursor self) then Build_reply false None self
  else
    match (execute_write (insert_income seq date source amount description) ;;;
           commit) self with
    | (inr _, s) => Build_reply true None s
    | (inl _, s) => Build_reply false database_error s
    end.

Definition update_income (self : DatabaseManager A) (income_id : Z)
    (date source : string) (amount : A) (description : option string)
    : reply A bool :=
  if negb (cursor self) then Build_reply false None self
  else
    match (execute_write (update_income_row income_id date source amount description) ;;;
           commit) self with
    | (inr _, s) => Build_reply true None s
    | (inl _, s) => Build_reply false database_error s
    end.

Definition delete_income (self : DatabaseManager A) (income_id : Z)
    : reply A bool :=
  if negb (cursor self) then Build_reply false None self
  else
    match (execute_write (delete_income_row income_id) ;;; commit) self with
    | (inr _, s) => Build_reply true None s
    | (inl _, s) => Build_reply false database_error s
    end.

(** The duplicate has its own handler; neither handler rolls back. *)
Definition add_category (self : DatabaseManager A) (seq : Z) (category_name : string)
    : reply A bool :=
  if negb (cursor self) then Build_reply false None self
  else
    match (execute_write (insert_category seq category_name) ;;; commit) self with
    | (inr _, s) => Build_reply true None s
    | (inl IntegrityError, s) =>
        Build_reply false (Some (showwarning "Duplicate Category")) s
    | (inl _, s) => Build_reply false database_error s
    end.

End MoreMethods.

(** ** Reading the further properties

    [id INTEGER PRIMARY KEY AUTOINCREMENT] on [expenses]: no two rows
    share an id, and the counter is at least every id in the table. *)
Definition primary_key {A} (t : tables A) : Prop :=
  NoDup (map exp_id (expenses t))
  /\ Forall (fun i => (i <= expenses_seq t)%Z) (map exp_id (expenses t)).

(** An expense row inside the range of the model: a calendar date,
    ASCII category and description. *)
Definition plain_expense {A} (r : expense A) : bool :=
  calendar_date (exp_date r) && ascii_text (exp_category r)
  && ascii_note (exp_description r).

(** A keyword without the wildcards of LIKE. *)
Definition wildcard_free (keyword : string) : bool :=
  forallb (fun c => negb ((c =? "%")%char || (c =? "_")%char))
    (list_ascii_of_string keyword).

(** The keyword occurs in the text, in whatever letter case. *)
Definition occurs_in (keyword text : string) : Prop :=
  exists pre mid post,
    text = (pre ++ mid ++ post)%string /\ same_up_to_case mid keyword.

(** ** [class ExpenseTrackerApp]: the input check, the chart data and the
    year selectors *)

(** [str] methods, on ASCII text (the library's [isdigit] also accepts
    the digits of other scripts). *)
Module PyStr.

(** [s.replace(c, '', 1)]: the first [c] removed. *)
Fixpoint replace_first (c : ascii) (s : string) : string :=
  match s with
  | EmptyString => EmptyString
  | String d s' => if (d =? c)%char then s' else String d (replace_first c s')
  end.

(** [s.count(c)]. *)
Fixpoint count (c : ascii) (s : string) : nat :=
  match s with
  | EmptyString => 0
  | String d s' => (if (d =? c)%char then 1 else 0) + count c s'
  end.

Fixpoint all_digits (s : string) : bool :=
  match s with
  | EmptyString => true
  | String d s' => Calendar.is_digit d && all_digits s'
  end.

(** [s.isdigit()]: at least one character, all of them digits. *)
Definition isdigit (s : string) : bool :=
  negb (s =? "")%string && all_digits s.

End PyStr.

(** The [validatecommand] of the three amount entries; [P] is the text
    the entry would hold after the edit. *)
Definition _validate_numeric_input (P : string) : bool :=
  if (P =? "")%string
     || (PyStr.isdigit (PyStr.replace_first "." P) && (PyStr.count "." P <=? 1))
  then true
  else false.

Section Charts.
Context {A : Type} `{Amount A}.

(** [get_filtered_data_for_charts], which every caller uses with
    [data_type="expenses"]; the three selections are the texts of the
    analytics comboboxes. *)
Definition get_filtered_data_for_charts (self : DatabaseManager A)
    (selected_year selected_month selected_category : string)
    : reply A (list (expense A)) :=
  let fetched :=
    if (selected_year =? "All Years")%string then
      if (selected_month =? "All")%string
      then fetch_expenses self None None None None None None
      else fetch_expenses self None None None None
             (Some ("%-" ++ selected_month)%string) None
    else
      if (selected_month =? "All")%string
      then fetch_expenses self None None None (Some selected_year) None None
      else fetch_expenses self None None None None
             (Some (selected_year ++ "-" ++ selected_month)%string) None in
  if negb (selected_category =? "All Categories")%string
  then Build_reply
         (filter (fun d => (exp_category d =? selected_category)%string) (returned fetched))
         (shown fetched) (self_after fetched)
  else fetched.

(** The loop of the two trend charts:
    [monthly_spending[exp_date.strftime("%Y-%m")] += exp[3]], [None]
    when [strptime] raises. *)
Definition monthly_spending (expenses_data : list (expense A))
    : option (list (string * A)) :=
  fold_left
    (fun acc exp =>
       match acc with
       | None => None
       | Some d =>
           match Py.strptime (exp_date exp) with
           | None => None
           | Some parsed => Some (dict_add (Py.strftime_Ym parsed) (exp_amount exp) d)
           end
       end)
    expenses_data (Some []).

(** [sorted(keys)] on [str] keys. *)
Definition sorted (keys : list string) : list string :=
  rev (order_by_desc (fun k => k) keys).

(** What a trend chart ends with: the "no data" notice, or the line
    through [amounts] over [sorted_months] (shown on the axis as
    [strftime("%b %Y")] of each). *)
Inductive trend_chart : Type :=
| no_chart_data_message
| plot (sorted_months : list string) (amounts : list A).

Definition plot_monthly (expenses_data : list (expense A)) : option trend_chart :=
  if (List.length expenses_data =? 0) then Some no_chart_data_message
  else
    match monthly_spending expenses_data with
    | None => None
    | Some d =>
        if (List.length d =? 0) then Some no_chart_data_message
        else
          let sorted_months := sorted (map fst d) in
          Some (plot sorted_months
                  (map (fun month => dict_get d month amt_zero) sorted_months))
    end.

Definition generate_monthly_spending_trend_chart (self : DatabaseManager A)
    (selected_year selected_month selected_category : string) : option trend_chart :=
  if negb (selected_month =? "All")%string then Some no_chart_data_message
  else
    plot_monthly
      (returned (get_filtered_data_for_charts self selected_year selected_month
                   selected_category)).

Definition generate_category_spending_trend_chart (self : DatabaseManager A)
    (selected_year selected_month selected_category : string) : option trend_chart :=
  if (selected_category =? "All Categories")%string then Some no_chart_data_message
  else if negb (selected_month =? "All")%string then Some no_chart_data_message
  else
    plot_monthly
      (returned (fetch_expenses self None None (Some selected_category)
                   (if negb (selected_year =? "All Years")%string
                    then Some selected_year else None)
                   None None)).

(** [sorted(list(set(years)), reverse=True)]: every value once, largest
    first; [None] for the [TypeError] of ordering a [None] against a
    [str] (the list always holds the current year, a [str]). *)
Fixpoint known_years (years : list (option string)) : option (list string) :=
  match years with
  | [] => Some []
  | None :: _ => None
  | Some y :: rest =>
      match known_years rest with
      | Some ys => Some (y :: ys)
      | None => None
      end
  end.

Definition all_years_in_db (self : DatabaseManager A) (current_year : Z)
    : option (list string) :=
  let all_expense_years := returned (get_all_expense_years self) in
  let all_income_years :=
    returned (get_all_income_years (self_after (get_all_expense_years self))) in
  match known_years (all_expense_years ++ all_income_years ++ [Some (Py.str current_year)]) with
  | Some years => Some (order_by_desc (fun y => y) (nodup string_dec years))
  | None => None
  end.

(** [_update_budget_month_year_comboboxes]: the values of the year
    selector and the year it is set to. *)
Definition _update_budget_month_year_comboboxes (self : DatabaseManager A)
    (current_year : Z) : option (list string * string) :=
  match all_years_in_db self current_year with
  | None => None
  | Some all_years =>
      if (List.length all_years =? 0)
      then Some (map (fun y => Py.str (current_year - 5 + Z.of_nat y)) (seq 0 11),
                 Py.str current_year)
      else if existsb (fun y => (y =? Py.str current_year)%string) all_years
      then Some (all_years, Py.str current_year)
      else Some (all_years, hd "" all_years)
  end.

(** [update_analytics_filters_and_chart]: the same for the analytics
    year selector, which starts with "All Years". *)
Definition update_analytics_filters_and_chart (self : DatabaseManager A) (current_year : Z)
    : option (list string * string) :=
  match all_years_in_db self current_year with
  | None => None
  | Some all_years =>
      let updated_analytics_years := "All Years" :: all_years in
      if existsb (fun y => (y =? Py.str current_year)%string) updated_analytics_years
      then Some (updated_analytics_years, Py.str current_year)
      else Some (updated_analytics_years, hd "All Years" updated_analytics_years)
  end.

End Charts.

(** ** The pie chart

    Folding the small slices needs more of [float] than a sum: [x / y]
    ([None] for the [ZeroDivisionError] of a zero divisor), [x * y],
    [x >= y], [x > y], and the numbers the code writes, [100] and
    [2.0]. *)
Class Arithmetic (A : Type) `{Amount A} : Type := {
  amt_div : A -> A -> option A;
  amt_mul : A -> A -> A;
  amt_ge : A -> A -> bool;
  amt_gt : A -> A -> bool;
  amt_hundred : A;
  min_percentage : A
}.

#[export] Instance float_Arithmetic : Arithmetic float :=
  {| amt_div := fun x y => if PrimFloat.eqb y 0%float then None else Some (PrimFloat.div x y);
     amt_mul := PrimFloat.mul;
     amt_ge := fun x y => PrimFloat.leb y x;
     amt_gt := fun x y => PrimFloat.ltb y x;
     amt_hundred := 100%float;
     min_percentage := 2%float |}.

Section Pie.
Context {A : Type} `{Arithmetic A}.

(** [d[k] = v] on a [dict] in insertion order. *)
Fixpoint dict_set (k : string) (v : A) (d : list (string * A)) : list (string * A) :=
  match d with
  | [] => [(k, v)]
  | (k', x) :: d' =>
      if (k' =? k)%string then (k', v) :: d'
      else (k', x) :: dict_set k v d'
  end.

(** [percentage = (value / total_sum) * 100]. *)
Definition percentage (value total_sum : A) : option A :=
  match amt_div value total_sum with
  | Some q => Some (amt_mul q amt_hundred)
  | None => None
  end.

(** [generate_pie_chart_filtered], from [total_sum = ...] to
    [large_slices["Other"] = other_sum]: the slices handed to [ax.pie],
    [None] when the division raises. *)
Definition large_slices (category_totals : list (string * A))
    : option (list (string * A)) :=
  let total_sum := py_sum (map snd category_totals) in
  match
    fold_left
      (fun acc item =>
         match acc with
         | None => None
         | Some (large, other_sum) =>
             match percentage (snd item) total_sum with
             | None => None
             | Some p =>
                 if amt_ge p min_percentage
                 then Some (dict_set (fst item) (snd item) large, other_sum)
                 else Some (large, amt_add other_sum (snd item))
             end
         end)
      category_totals (Some ([], amt_zero))
  with
  | None => None
  | Some (large, other_sum) =>
      if amt_gt other_sum amt_zero
      then Some (dict_set "Other" other_sum large)
      else Some large
  end.

(** An entry of [category_totals] whose share of [total_sum] reaches
    [min_percentage]. *)
Definition is_large (total_sum : A) (item : string * A) : bool :=
  match percentage (snd item) total_sum with
  | Some p => amt_ge p min_percentage
  | None => false
  end.

End Pie.

(** ** Importing another database

    [import_database], after the confirmation and the file dialog: the
    four lists are what [SELECT *] returned from the chosen file. *)

Section ImportDatabase.
Context {A : Type} `{Amount A}.

Local Open Scope stmt_scope.

(** A row put at its place in rowid order. *)
Fixpoint place {R : Type} (id : R -> Z) (row : R) (rows : list R) : list R :=
  match rows with
  | [] => [row]
  | x :: rest =>
      if (id row <? id x)%Z then row :: x :: rest
      else x :: place id row rest
  end.

(** REPLACE on the primary key: a row holding the id gives way to the
    new one. *)
Definition upsert {R : Type} (id : R -> Z) (row : R) (rows : list R) : list R :=
  place id row (filter (fun r => negb (id r =? id row)%Z) rows).

(** [INSERT OR REPLACE INTO expenses (id, date, category, amount,
    description) VALUES (?, ?, ?, ?, ?)]; the counter follows the
    largest id. *)
Definition replace_expense (exp : expense A) (t : tables A) : sqlite_error + tables A :=
  if amt_is_nan (exp_amount exp) then inl IntegrityError
  else
    inr {| expenses := upsert exp_id exp (expenses t);
           expenses_seq := Z.max (expenses_seq t) (exp_id exp);
           income := income t;
           budgets := budgets t;
           categories := categories t |}.

(** [INSERT OR REPLACE INTO income (id, date, source, amount,
    description) VALUES (?, ?, ?, ?, ?)]. *)
Definition replace_income (inc : income_row A) (t : tables A) : sqlite_error + tables A :=
  if amt_is_nan (inc_amount inc) then inl IntegrityError
  else inr (with_income t (upsert inc_id inc (income t))).

(** [INSERT OR IGNORE INTO categories (name) VALUES (?)]: a name
    already there is skipped.  The rowid is drawn from the counter
    before the name is looked up, so a skipped insert uses one up as
    well: whether or not a row is written, the counter stands at
    [next_rowid (map cat_id cs) seq] afterwards. *)
Definition or_ignore (seq : Z) (name : string) (cs : list category) : list category :=
  if existsb (fun c => (cat_name c =? name)%string) cs then cs
  else cs ++ [{| cat_id := next_rowid (map cat_id cs) seq; cat_name := name |}].

Definition insert_or_ignore_category (seq : Z) (name : string) (t : tables A)
    : sqlite_error + tables A :=
  inr (with_categories t (or_ignore seq name (categories t))).

(** [INSERT OR REPLACE INTO budgets (id, month_year, budget_amount)
    VALUES (?, ?, ?)]: both the row holding the id and the row holding
    the month give way. *)
Definition upsert_budget (b : budget A) (bs : list (budget A)) : list (budget A) :=
  place bud_id b
    (filter (fun r => negb (bud_id r =? bud_id b)%Z
                      && negb (month_year r =? month_year b)%string) bs).

Definition replace_budget_row (b : budget A) (t : tables A) : sqlite_error + tables A :=
  if amt_is_nan (budget_amount b) then inl IntegrityError
  else inr (with_budgets t (upsert_budget b (budgets t))).

(** The category loop.  [seq] is the counter of [categories] when the
    loop starts, at least every id in the table, as SQLite keeps it;
    each statement, skipped or not, leaves it one higher for the next. *)
Fixpoint category_statements (seq : Z) (temp_categories : list category)
    : list (tables A -> sqlite_error + tables A) :=
  match temp_categories with
  | [] => []
  | cat :: rest =>
      insert_or_ignore_category seq (cat_name cat) :: category_statements (seq + 1) rest
  end.

(** What the category loop leaves in the table. *)
Fixpoint merge_categories (seq : Z) (temp_categories : list category)
    (cs : list category) : list category :=
  match temp_categories with
  | [] => cs
  | cat :: rest => merge_categories (seq + 1) rest (or_ignore seq (cat_name cat) cs)
  end.

(** The statements of the four loops, in the order they run. *)
Definition import_statements (seq : Z) (temp_expenses : list (expense A))
    (temp_income : list (income_row A)) (temp_categories : list category)
    (temp_budgets : list (budget A)) : list (tables A -> sqlite_error + tables A) :=
  map replace_expense temp_expenses
  ++ map replace_income temp_income
  ++ category_statements seq temp_categories
  ++ map replace_budget_row temp_budgets.

Fixpoint execute_all (statements : list (tables A -> sqlite_error + tables A))
    : stmt unit :=
  match statements with
  | [] => fun db => (inr tt, db)
  | w :: rest => execute_write w ;;; execute_all rest
  end.

(** The BEGIN stands before the inner [try]: when it fails nothing is
    rolled back.  Every failure, a missing connection included, ends in
    the outer handler and its "Import Error" box.  The value is whether
    the commit went through; the refresh of the views that follows it
    reads the database and is not part of the model. *)
Definition import_error : option messagebox := Some (showerror "Import Error").

Definition import_database (self : DatabaseManager A) (seq : Z)
    (temp_expenses : list (expense A)) (temp_income : list (income_row A))
    (temp_categories : list category) (temp_budgets : list (budget A))
    : reply A bool :=
  if negb (cursor self) then Build_reply false import_error self
  else
    match begin_transaction self with
    | (inl _, s) => Build_reply false import_error s
    | (inr _, s) =>
        match (execute_all (import_statements seq temp_expenses temp_income
                              temp_categories temp_budgets) ;;;
               commit) s with
        | (inr _, s') => Build_reply true None s'
        | (inl _, s') => Build_reply false import_error (rollback s')
        end
    end.

(** The tables a run of statements leaves when none fails. *)
Fixpoint apply_all (statements : list (tables A -> sqlite_error + tables A))
    (t : tables A) : sqlite_error + tables A :=
  match statements with
  | [] => inr t
  | w :: rest =>
      match w t with
      | inr t' => apply_all rest t'
      | inl e => inl e
      end
  end.

End ImportDatabase.

(** ** Opening the database

    [_create_tables]: the four [CREATE TABLE IF NOT EXISTS] find their
    tables in place (the model's tables always exist), so each is one
    statement the engine may fail and nothing more; then the defaults
    are written into the tables that are empty.  [current_month_year] is
    [datetime.now().strftime("%Y-%m")]; the two counters are those of
    [categories] and [budgets]. *)

Section Opening.
Context {A : Type} `{Amount A}.

Local Open Scope stmt_scope.

Definition default_categories : list string :=
  ["Food"; "Transport"; "Utilities"; "Rent"; "Entertainment"; "Shopping";
   "Healthcare"; "Education"; "Salary"; "Freelance"; "Investments"; "Travel";
   "Fuel"; "Books"; "Gym"; "Gifts"].

(** [INSERT INTO budgets (month_year, budget_amount) VALUES (?, ?)]. *)
Definition insert_budget (seq : Z) (m : string) (amount : A) (t : tables A)
    : sqlite_error + tables A :=
  if amt_is_nan amount
     || existsb (fun b => (month_year b =? m)%string) (budgets t)
  then inl IntegrityError
  else
    inr (with_budgets t
           (budgets t ++ [Build_budget (next_rowid (map bud_id (budgets t)) seq) m amount])).

(** A branch not taken. *)
Definition done (db : DatabaseManager A) : (sqlite_error + unit) * DatabaseManager A :=
  (inr tt, db).

Definition _create_tables (self : DatabaseManager A) (categories_seq budgets_seq : Z)
    (current_month_year : string) : reply A unit :=
  if negb (cursor self) then Build_reply tt None self
  else
    match (engine_step ;;; engine_step ;;; engine_step ;;; engine_step ;;;
           commit ;;;
           bind (execute_read (fun t => List.length (categories t)))
             (fun count =>
                if count =? 0
                then execute_all (map (insert_category categories_seq) default_categories) ;;;
                     commit
                else done) ;;;
           bind (execute_read (fun t => List.length (budgets t)))
             (fun count =>
                if count =? 0
                then execute_write (insert_budget budgets_seq current_month_year amt_zero) ;;;
                     commit
                else done)) self with
    | (inr _, s) => Build_reply tt None s
    | (inl _, s) => Build_reply tt database_error s
    end.

End Opening.

(** Unfolding a method body down to the tables. *)
Ltac run_stmts :=
  cbv beta iota zeta delta
    [bind begin_transaction execute_write execute_read implicit_begin
     engine_step apply_write commit rollback connect visible
     cursor disk txn faults negb returned shown self_after].

(** * Properties *)

(** Whole-number amounts add exactly. *)
#[export] Instance Z_ExactAmount : ExactAmount Z.
Proof. constructor; intros; simpl; lia. Qed.


(** ** Ordering *)

Lemma string_leb_trans (a b c : string) :
  String.leb a b = true -> String.leb b c = true -> String.leb a c = true.
Proof.
  unfold String.leb. revert b c.
  induction a as [| x a IH]; intros [| y b] [| z c]; simpl; try easy.
  unfold Ascii.compare.
  destruct (N.compare_spec (N_of_ascii x) (N_of_ascii y)) as [Hxy | Hxy | Hxy];
    destruct (N.compare_spec (N_of_ascii y) (N_of_ascii z)) as [Hyz | Hyz | Hyz];
    destruct (N.compare_spec (N_of_ascii x) (N_of_ascii z)) as [Hxz | Hxz | Hxz];
    try easy; try lia.
  apply IH.
Qed.

Lemma string_compare_refl (a : string) : String.compare a a = Eq.
Proof.
  induction a as [| x a IH]; simpl; [reflexivity |].
  unfold Ascii.compare. rewrite N.compare_refl. exact IH.
Qed.

Lemma string_ltb_leb (a b : string) : String.ltb a b = true -> String.leb a b = true.
Proof. unfold String.ltb, String.leb. destruct (String.compare a b); easy. Qed.

Lemma string_ltb_neq (a b : string) : String.ltb a b = true -> a <> b.
Proof.
  unfold String.ltb. intros Hlt ->. rewrite string_compare_refl in Hlt. discriminate.
Qed.

Lemma leb_neq_ltb (a b : string) :
  String.leb a b = true -> a <> b -> String.ltb a b = true.
Proof.
  unfold String.leb, String.ltb. intros Hle Hne.
  destruct (String.compare a b) eqn:Hc; [| reflexivity | discriminate].
  apply String.compare_eq_iff in Hc. contradiction.
Qed.

Lemma years_desc_trans : Transitive years_desc.
Proof.
  intros a b c Hab Hbc. unfold years_desc in *.
  apply leb_neq_ltb.
  - apply (string_leb_trans _ b); apply string_ltb_leb; assumption.
  - intros ->. apply (string_ltb_neq _ _ Hab).
    apply String.leb_antisym; apply string_ltb_leb; assumption.
Qed.

Section Ordering.
Context {R : Type} (key : R -> string).

Lemma insert_desc_perm (r : R) (l : list R) :
  Permutation (insert_desc key r l) (r :: l).
Proof.
  induction l as [| x l IH]; simpl.
  - apply Permutation_refl.
  - destruct (String.leb (key x) (key r)).
    + apply Permutation_refl.
    + eapply perm_trans; [apply perm_skip, IH | apply perm_swap].
Qed.

Lemma order_by_desc_perm (l : list R) :
  Permutation (order_by_desc key l) l.
Proof.
  induction l as [| r l IH]; simpl.
  - apply perm_nil.
  - eapply perm_trans; [apply insert_desc_perm | apply perm_skip, IH].
Qed.

Lemma insert_desc_hd (x r : R) (l : list R) :
  date_desc key x r -> HdRel (date_desc key) x l ->
  HdRel (date_desc key) x (insert_desc key r l).
Proof.
  intros Hxr Hl. destruct l as [| y l]; simpl.
  - constructor. exact Hxr.
  - destruct (String.leb (key y) (key r)).
    + constructor. exact Hxr.
    + constructor. inversion Hl; assumption.
Qed.

Lemma insert_desc_sorted (r : R) (l : list R) :
  Sorted (date_desc key) l -> Sorted (date_desc key) (insert_desc key r l).
Proof.
  induction l as [| x l IH]; intros Hs; simpl.
  - repeat constructor.
  - destruct (String.leb (key x) (key r)) eqn:Hle.
    + constructor; [exact Hs | constructor; exact Hle].
    + inversion Hs as [| ? ? Hs' Hhd]; subst.
      constructor; [apply IH; exact Hs' |].
      apply insert_desc_hd; [| exact Hhd].
      unfold date_desc.
      destruct (String.leb_total (key x) (key r)) as [H1 | H1];
        [congruence | exact H1].
Qed.

Lemma order_by_desc_sorted (l : list R) :
  Sorted (date_desc key) (order_by_desc key l).
Proof.
  induction l as [| r l IH]; simpl.
  - constructor.
  - apply insert_desc_sorted, IH.
Qed.

Lemma date_desc_trans : Transitive (date_desc key).
Proof.
  intros a b c Hab Hbc. unfold date_desc in *.
  apply (string_leb_trans _ (key b)); assumption.
Qed.

(** Every row is dated no earlier than every row after it. *)
Lemma order_by_desc_strongly_sorted (l : list R) :
  StronglySorted (date_desc key) (order_by_desc key l).
Proof.
  apply Sorted_StronglySorted; [exact date_desc_trans | apply order_by_desc_sorted].
Qed.

End Ordering.

Lemma select_where_perm {R : Type} (date : R -> string) (conds : list (R -> bool))
    (rows : list R) :
  Permutation (select_where date conds rows)
              (filter (fun r => forallb (fun c => c r) conds) rows).
Proof. apply order_by_desc_perm. Qed.

Lemma select_where_sorted {R : Type} (date : R -> string) (conds : list (R -> bool))
    (rows : list R) :
  StronglySorted (date_desc date) (select_where date conds rows).
Proof. apply order_by_desc_strongly_sorted. Qed.

Lemma filter_all {R : Type} (rows : list R) :
  filter (fun r => forallb (fun c : R -> bool => c r) []) rows = rows.
Proof.
  induction rows as [| r rows IH]; [reflexivity |].
  simpl in *. f_equal. exact IH.
Qed.

(** ** Keys *)

Lemma unique_key_row {R K : Type} (key : R -> K) (l : list R) (a b : R) :
  NoDup (map key l) -> In a l -> In b l -> key a = key b -> a = b.
Proof.
  induction l as [| x l IH]; simpl; intros Hnd Ha Hb Hk; [contradiction |].
  inversion Hnd as [| ? ? Hx Hnd']; subst.
  destruct Ha as [-> | Ha], Hb as [-> | Hb].
  - reflexivity.
  - exfalso. apply Hx. rewrite Hk. apply in_map. exact Hb.
  - exfalso. apply Hx. rewrite <- Hk. apply in_map. exact Ha.
  - apply IH; assumption.
Qed.

Lemma find_absent {R : Type} (p : R -> bool) (l : list R) :
  (forall r, In r l -> p r = false) -> find p l = None.
Proof.
  induction l as [| x l IH]; simpl; intros Hall; [reflexivity |].
  rewrite (Hall x (or_introl eq_refl)). apply IH.
  intros r Hr. apply Hall. right. exact Hr.
Qed.

Lemma map_untouched {R : Type} (p : R -> bool) (f : R -> R) (l : list R) :
  (forall r, In r l -> p r = false) ->
  map (fun r => if p r then f r else r) l = l.
Proof.
  induction l as [| x l IH]; simpl; intros Hall; [reflexivity |].
  rewrite (Hall x (or_introl eq_refl)). f_equal. apply IH.
  intros r Hr. apply Hall. right. exact Hr.
Qed.

Lemma with_expenses_same {A} (t : tables A) : with_expenses t (expenses t) = t.
Proof. destruct t; reflexivity. Qed.

(** ** Expenses: add, fetch, update *)

(** C3. Adding an expense with an amount that is a number (so any
    amount > 0) on a live connection succeeds; fetching with no filter
    afterwards returns a row carrying exactly the date, category, amount
    and description that were passed, the result is the whole expenses
    table (the old rows and the new one), and it is ordered by date, most
    recent first. *)
Theorem add_expense_then_fetch {A} `{Amount A} (t : tables A) (date category : string)
    (amount : A) (description : option string) :
  amt_is_nan amount = false ->
  let added := add_expense (connect t []) date category amount description in
  let fetched := fetch_expenses (self_after added) None None None None None None in
  returned added = true
  /\ (exists row, In row (returned fetched)
                  /\ exp_date row = date /\ exp_category row = category
                  /\ exp_amount row = amount /\ exp_description row = description)
  /\ (exists row, expenses (visible (self_after added)) = expenses t ++ [row])
  /\ Permutation (returned fetched) (expenses (visible (self_after added)))
  /\ StronglySorted (date_desc exp_date) (returned fetched).
Proof.
  intros Hnumber.
  set (row := Build_expense (next_expense_id t) date category amount description).
  assert (Hperm : Permutation (select_where exp_date [] (expenses t ++ [row]))
                              (expenses t ++ [row])).
  { eapply perm_trans; [apply select_where_perm |]. rewrite filter_all.
    apply Permutation_refl. }
  cbv zeta. unfold add_expense, fetch_expenses, insert_expense. run_stmts.
  rewrite Hnumber. cbn [expenses]. fold row.
  change (expense_conds None None None None None None) with (@nil (expense A -> bool)).
  repeat split.
  - exists row. repeat split.
    apply (Permutation_in _ (Permutation_sym Hperm)).
    apply in_or_app. right. left. reflexivity.
  - exists row. reflexivity.
  - exact Hperm.
  - apply select_where_sorted.
Qed.

Lemma add_expense_then_fetch_witness :
  returned (fetch_expenses
              (self_after (add_expense (connect sample []) "2025-02-01" "Fuel" 300%Z None))
              None None None None None None)
  = [Build_expense 3 "2025-02-01" "Fuel" 300%Z None;
     Build_expense 2 "2025-01-15" "Uncategorized" 150%Z (Some "");
     Build_expense 1 "2025-01-10" "Food" 250%Z (Some "Lunch")]
  /\ returned (add_expense (connect sample []) "2025-02-01" "Fuel" 300%Z None) = true.
Proof.
  split; [reflexivity |].
  exact (proj1 (add_expense_then_fetch sample "2025-02-01" "Fuel" 300%Z None eq_refl)).
Defined.

(** C10. In [fetch_expenses] the string "All Years" switches the year
    filter off, as "All Categories" does for the category filter: with
    any other arguments, passing [year = "All Years"] gives the same
    reply, rows and order included, as passing no year. *)
Theorem fetch_expenses_all_years {A} (self : DatabaseManager A)
    (start_date end_date category month_year keyword : option string) :
  fetch_expenses self start_date end_date category (Some "All Years") month_year keyword
  = fetch_expenses self start_date end_date category None month_year keyword
  /\ forall year,
       fetch_expenses self start_date end_date (Some "All Categories") year month_year keyword
       = fetch_expenses self start_date end_date None year month_year keyword.
Proof.
  assert (Hyears :
    expense_conds (A := A) start_date end_date category (Some "All Years") month_year keyword
    = expense_conds start_date end_date category None month_year keyword).
  { unfold expense_conds. cbn [Py.truthy arg String.eqb Ascii.eqb Bool.eqb negb andb].
    reflexivity. }
  assert (Hcategories : forall year,
    expense_conds (A := A) start_date end_date (Some "All Categories") year month_year keyword
    = expense_conds start_date end_date None year month_year keyword).
  { intros year. unfold expense_conds.
    cbn [Py.truthy arg String.eqb Ascii.eqb Bool.eqb negb andb]. reflexivity. }
  unfold fetch_expenses. split.
  - rewrite Hyears. reflexivity.
  - intros year. rewrite Hcategories. reflexivity.
Qed.

(** C9. [update_expense] with an id no expense row carries returns [True]
    without a message and leaves the expenses table as it was; the reply
    is the one an update that does hit a row gets (for an amount that is
    a number). *)
Theorem update_expense_unknown_id {A} `{Amount A} (t : tables A) (expense_id : Z)
    (date category : string) (amount : A) (description : option string) :
  (forall r, In r (expenses t) -> exp_id r <> expense_id) ->
  let r := update_expense (connect t []) expense_id date category amount description in
  returned r = true
  /\ shown r = None
  /\ visible (self_after r) = t
  /\ (forall any_id,
        amt_is_nan amount = false ->
        let r' := update_expense (connect t []) any_id date category amount description in
        returned r' = returned r /\ shown r' = shown r).
Proof.
  intros Hnone. cbv zeta.
  assert (Hmiss : forall r, In r (expenses t) -> (exp_id r =? expense_id)%Z = false).
  { intros r Hr. apply Z.eqb_neq. apply Hnone. exact Hr. }
  assert (Hno : existsb (fun r => (exp_id r =? expense_id)%Z) (expenses t) = false).
  { apply not_true_is_false. intros Hex. apply existsb_exists in Hex.
    destruct Hex as [r [Hr Hid]]. rewrite (Hmiss r Hr) in Hid. discriminate. }
  unfold update_expense, update_expense_row. run_stmts.
  rewrite Hno, andb_false_r.
  split; [reflexivity |]. split; [reflexivity |]. split.
  - rewrite map_untouched; [apply with_expenses_same | exact Hmiss].
  - intros any_id Hnumber. rewrite Hnumber. split; reflexivity.
Qed.

Lemma update_expense_unknown_id_witness :
  let t : tables Z :=
    {| expenses := [Build_expense 1 "2025-01-10" "Food" 250%Z (Some "Lunch")];
       expenses_seq := 1; income := []; budgets := []; categories := [] |} in
  let r := update_expense (connect t []) 7 "2025-02-01" "Rent" 900%Z None in
  returned r = true /\ visible (self_after r) = t.
Proof.
  cbv zeta.
  refine (let H := update_expense_unknown_id
                     {| expenses := [Build_expense 1 "2025-01-10" "Food" 250%Z (Some "Lunch")];
                        expenses_seq := 1; income := []; budgets := []; categories := [] |}
                     7 "2025-02-01" "Rent" 900%Z None _ in
          conj (proj1 H) (proj1 (proj2 (proj2 H)))).
  intros r [<- | []]. simpl. discriminate.
Defined.

(** ** Budgets *)

(** C6. On a live connection [get_monthly_budget m] returns exactly
    [0.0], with no message, when no budget row has [month_year = m]; when
    a row for [m] exists it returns that row's [budget_amount]. *)
Theorem get_monthly_budget_absent_or_present {A} `{Amount A} (t : tables A) (m : string) :
  ((forall b, In b (budgets t) -> month_year b <> m) ->
   returned (get_monthly_budget (connect t []) m) = amt_zero
   /\ shown (get_monthly_budget (connect t []) m) = None)
  /\ (forall b, unique_months t -> In b (budgets t) -> month_year b = m ->
      returned (get_monthly_budget (connect t []) m) = budget_amount b
      /\ shown (get_monthly_budget (connect t []) m) = None).
Proof.
  unfold get_monthly_budget, select_budget_amount; simpl.
  change (visible (connect t [])) with t. split.
  - intros Habsent. rewrite find_absent; [split; reflexivity |].
    intros b Hb. apply String.eqb_neq. apply Habsent. exact Hb.
  - intros b Huniq Hb Hm.
    destruct (find (fun b0 => (month_year b0 =? m)%string) (budgets t)) as [b0 |] eqn:Hfind.
    + apply find_some in Hfind. destruct Hfind as [Hb0 Hm0].
      apply String.eqb_eq in Hm0.
      assert (Hsame : b0 = b)
        by (apply (unique_key_row month_year (budgets t));
            [exact Huniq | exact Hb0 | exact Hb | congruence]).
      subst b0. split; reflexivity.
    + exfalso. apply (find_none _ _ Hfind) in Hb.
      apply String.eqb_neq in Hb. contradiction.
Qed.

Lemma get_monthly_budget_witness :
  let t : tables Z :=
    {| expenses := []; expenses_seq := 0; income := [];
       budgets := [Build_budget 1 "2025-01" 1000%Z]; categories := [] |} in
  returned (get_monthly_budget (connect t []) "2025-02") = 0%Z
  /\ returned (get_monthly_budget (connect t []) "2025-01") = 1000%Z.
Proof.
  cbv zeta. split.
  - refine (proj1 (proj1 (get_monthly_budget_absent_or_present _ "2025-02") _)).
    intros b [<- | []]. simpl. discriminate.
  - refine (proj1 (proj2 (get_monthly_budget_absent_or_present _ "2025-01")
                     (Build_budget 1 "2025-01" 1000%Z) _ _ _)).
    + unfold unique_months. simpl. repeat constructor. intros [].
    + left. reflexivity.
    + reflexivity.
Defined.

(** ** Categories: rename and delete *)

Lemma with_categories_same {A} (t : tables A) : with_categories t (categories t) = t.
Proof. destruct t; reflexivity. Qed.

Lemma rename_same_name (n : string) (cs : list category) : map (rename n n) cs = cs.
Proof.
  induction cs as [| c cs IH]; simpl; [reflexivity |].
  rewrite IH. f_equal. unfold rename.
  destruct (String.eqb_spec (cat_name c) n) as [<- |]; [destruct c |]; reflexivity.
Qed.

Lemma filter_none_absent {R : Type} (p : R -> bool) (l : list R) :
  List.length (filter p l) = 0 -> forall r, In r l -> p r = false.
Proof.
  induction l as [| x l IH]; simpl; intros Hlen r Hr; [contradiction |].
  destruct (p x) eqn:Hpx; simpl in Hlen; [discriminate |].
  destruct Hr as [<- | Hr]; [exact Hpx | apply IH; assumption].
Qed.

(** A successful [UPDATE categories SET name] leaves every name but
    [old_name] alone and rewrites that one. *)
Lemma set_category_name_done {A} (new_name old_name : string) (t t' : tables A) :
  set_category_name new_name old_name t = inr t' ->
  t' = with_categories t (map (rename new_name old_name) (categories t)).
Proof.
  unfold set_category_name.
  destruct (String.eqb_spec old_name new_name) as [-> | Hne]; simpl.
  - intros [= <-]. rewrite rename_same_name. symmetry. apply with_categories_same.
  - destruct (List.length (filter _ (categories t)) =? 0) eqn:Hzero.
    + intros [= <-]. apply Nat.eqb_eq in Hzero.
      unfold rename. rewrite map_untouched; [symmetry; apply with_categories_same |].
      exact (filter_none_absent _ _ Hzero).
    + destruct (existsb _ _ || _); [discriminate |].
      intros [= <-]. reflexivity.
Qed.

Lemma unique_key_hits {R : Type} (key : R -> string) (k : string) (l : list R) :
  NoDup (map key l) ->
  List.length (filter (fun r => (key r =? k)%string) l) <= 1.
Proof.
  induction l as [| x l IH]; simpl; intros Hnd; [lia |].
  inversion Hnd as [| ? ? Hx Hnd']; subst.
  destruct (String.eqb_spec (key x) k) as [<- |]; [| apply IH; exact Hnd'].
  simpl. rewrite (proj2 (length_zero_iff_nil _)); [lia |].
  destruct (filter _ l) as [| y ys] eqn:Hf; [reflexivity |].
  exfalso. apply Hx.
  assert (Hy : In y (filter (fun r => (key r =? key x)%string) l))
    by (rewrite Hf; left; reflexivity).
  apply filter_In in Hy. destruct Hy as [Hy Hk].
  apply String.eqb_eq in Hk. rewrite <- Hk. apply in_map. exact Hy.
Qed.

Lemma present_key_hits {R : Type} (key : R -> string) (k : string) (l : list R) :
  In k (map key l) ->
  1 <= List.length (filter (fun r => (key r =? k)%string) l).
Proof.
  intros Hin. apply in_map_iff in Hin. destruct Hin as [r [Hk Hr]].
  assert (Hf : In r (filter (fun r => (key r =? k)%string) l)).
  { apply filter_In. split; [exact Hr | apply String.eqb_eq; exact Hk]. }
  destruct (filter _ l); [contradiction | simpl; lia].
Qed.

Lemma existsb_name (k : string) (cs : list category) :
  existsb (fun c => (cat_name c =? k)%string) cs = true <-> In k (map cat_name cs).
Proof.
  rewrite existsb_exists, in_map_iff. split.
  - intros [c [Hc Hk]]. exists c. apply String.eqb_eq in Hk. auto.
  - intros [c [Hk Hc]]. exists c. split; [exact Hc | apply String.eqb_eq; exact Hk].
Qed.

(** The first UPDATE of a rename, decided: it goes through when the old
    name is a category and the new one is free, and is a constraint
    failure when the new one is taken by another row. *)
Lemma set_category_name_free {A} (new_name old_name : string) (t : tables A) :
  unique_names t ->
  In old_name (map cat_name (categories t)) ->
  ~ In new_name (map cat_name (categories t)) ->
  set_category_name new_name old_name t
  = inr (with_categories t (map (rename new_name old_name) (categories t))).
Proof.
  intros Huniq Hold Hnew. unfold set_category_name.
  destruct (String.eqb_spec old_name new_name) as [-> | Hne]; [contradiction |].
  pose proof (unique_key_hits cat_name old_name (categories t) Huniq) as Hle.
  pose proof (present_key_hits cat_name old_name (categories t) Hold) as Hge.
  destruct (Nat.eqb_spec (List.length (filter (fun c => (cat_name c =? old_name)%string)
                                         (categories t))) 0) as [Hz | _]; [lia |].
  destruct (existsb _ (categories t)) eqn:Hex.
  - apply existsb_name in Hex. contradiction.
  - destruct (Nat.leb_spec 2 (List.length (filter (fun c => (cat_name c =? old_name)%string)
                                             (categories t)))); [lia | reflexivity].
Qed.

Lemma set_category_name_taken {A} (new_name old_name : string) (t : tables A) :
  In old_name (map cat_name (categories t)) ->
  In new_name (map cat_name (categories t)) ->
  old_name <> new_name ->
  set_category_name new_name old_name t = inl IntegrityError.
Proof.
  intros Hold Hnew Hne. unfold set_category_name.
  destruct (String.eqb_spec old_name new_name) as [| _]; [contradiction |].
  pose proof (present_key_hits cat_name old_name (categories t) Hold) as Hge.
  destruct (Nat.eqb_spec (List.length (filter (fun c => (cat_name c =? old_name)%string)
                                         (categories t))) 0) as [Hz | _]; [lia |].
  simpl. rewrite (proj2 (existsb_name new_name (categories t)) Hnew). reflexivity.
Qed.

(** Every run of [update_category], whatever the engine does: either both
    UPDATEs are committed or the database is the one it started from. *)
Lemma update_category_outcome {A} (t : tables A) (env : list bool)
    (old_name new_name : string) :
  let r := update_category (connect t env) old_name new_name in
  txn (self_after r) = None
  /\ ((returned r = true /\ shown r = None
       /\ set_category_name new_name old_name t
          = inr (with_categories t (map (rename new_name old_name) (categories t)))
       /\ disk (self_after r)
          = with_expenses
              (with_categories t (map (rename new_name old_name) (categories t)))
              (map (recategorize new_name old_name) (expenses t)))
      \/ (returned r = false /\ disk (self_after r) = t)).
Proof.
  cbv zeta. unfold update_category.
  destruct (set_category_name new_name old_name t) as [e | t'] eqn:Hset.
  - destruct env as [| [|] [| [|] env]]; run_stmts; rewrite ?Hset.
    all: try solve [split; [reflexivity | right; split; reflexivity]].
    all: destruct e; (split; [reflexivity | right; split; reflexivity]).
  - pose proof (set_category_name_done _ _ _ _ Hset) as ->.
    destruct env as [| [|] [| [|] [| [|] [| [|] env]]]]; run_stmts; rewrite ?Hset.
    all: try solve [split; [reflexivity | right; split; reflexivity]].
    all: try solve [split; [reflexivity | left; repeat split; reflexivity]].
Qed.

Lemma renamed_names (new_name old_name : string) (cs : list category) :
  old_name <> new_name ->
  In old_name (map cat_name cs) ->
  In new_name (map cat_name (map (rename new_name old_name) cs))
  /\ ~ In old_name (map cat_name (map (rename new_name old_name) cs)).
Proof.
  intros Hne Hold. split.
  - apply in_map_iff in Hold. destruct Hold as [c [Hk Hc]].
    apply in_map_iff. exists (rename new_name old_name c). split.
    + unfold rename. rewrite (proj2 (String.eqb_eq _ _) Hk). reflexivity.
    + apply in_map. exact Hc.
  - intros Hin. apply in_map_iff in Hin. destruct Hin as [c' [Hk Hc']].
    apply in_map_iff in Hc'. destruct Hc' as [c [<- _]].
    unfold rename in Hk.
    destruct (String.eqb_spec (cat_name c) old_name); simpl in Hk; congruence.
Qed.

Lemma listed_names (x : string) (names : list string) :
  In x (rev (order_by_desc (fun n => n) names)) <-> In x names.
Proof.
  rewrite <- in_rev. split; intros Hin.
  - apply (Permutation_in _ (order_by_desc_perm _ names) Hin).
  - apply (Permutation_in _ (Permutation_sym (order_by_desc_perm _ names)) Hin).
Qed.

Lemma recategorized_away {A} (new_name old_name : string) (es : list (expense A)) :
  old_name <> new_name ->
  forall row, In row (map (recategorize new_name old_name) es) ->
              exp_category row <> old_name.
Proof.
  intros Hne row Hin. apply in_map_iff in Hin. destruct Hin as [r [<- _]].
  unfold recategorize.
  destruct (String.eqb_spec (exp_category r) old_name); simpl; congruence.
Qed.

(** Called while a transaction is still open (one left behind by a
    failed statement), [update_category] is refused at its BEGIN: it
    reports a database error and its rollback drops what was pending. *)
Lemma update_category_refused {A} (t pending : tables A) (env : list bool)
    (old_name new_name : string) :
  let self := {| cursor := true; disk := t; txn := Some pending; faults := env |} in
  let r := update_category self old_name new_name in
  returned r = false /\ shown r = database_error
  /\ txn (self_after r) = None /\ disk (self_after r) = t.
Proof.
  cbv zeta. unfold update_category.
  destruct env as [| [|] env]; run_stmts; repeat split.
Qed.

(** C1 (as the code has it).  For [old_name] an existing category, on a
    manager with a live cursor over the committed tables [t]:
    - with no transaction open and an engine that raises nothing, if no
      category is named [new_name], [update_category] succeeds, the
      categories table (and so the list [get_categories] returns) then
      holds [new_name] and no longer [old_name], and the expenses table
      is the old one with every [old_name] row re-tagged [new_name];
    - under the same conditions, if another category is already named
      [new_name], the call returns [False], raises the "Duplicate
      Category" warning, and leaves the manager exactly as it was;
    - with no transaction open, whatever the engine does in between, the
      call ends with nothing pending and either both updates committed
      or the database untouched;
    - with a transaction left open by an earlier call, the call returns
      [False] behind "Database Error", whatever the names and whatever
      the engine does, and ends with nothing pending and the committed
      tables untouched (the pending work is rolled back);
    - without a cursor the call returns [False] and does nothing. *)
Theorem update_category_atomic_rename {A} (t : tables A) (old_name new_name : string) :
  unique_names t ->
  In old_name (map cat_name (categories t)) ->
  (~ In new_name (map cat_name (categories t)) ->
   let r := update_category (connect t []) old_name new_name in
   let after := visible (self_after r) in
   returned r = true /\ shown r = None
   /\ In new_name (map cat_name (categories after))
   /\ ~ In old_name (map cat_name (categories after))
   /\ In new_name (returned (get_categories (self_after r)))
   /\ ~ In old_name (returned (get_categories (self_after r)))
   /\ expenses after = map (recategorize new_name old_name) (expenses t)
   /\ (forall row, In row (expenses after) -> exp_category row <> old_name))
  /\ (In new_name (map cat_name (categories t)) -> old_name <> new_name ->
      let r := update_category (connect t []) old_name new_name in
      returned r = false
      /\ shown r = Some (showwarning "Duplicate Category")
      /\ self_after r = connect t [])
  /\ (forall env,
      let r := update_category (connect t env) old_name new_name in
      let after := visible (self_after r) in
      txn (self_after r) = None
      /\ ((returned r = false /\ after = t)
          \/ (returned r = true
              /\ categories after = map (rename new_name old_name) (categories t)
              /\ expenses after = map (recategorize new_name old_name) (expenses t))))
  /\ (forall pending env,
      let self := {| cursor := true; disk := t; txn := Some pending; faults := env |} in
      let r := update_category self old_name new_name in
      returned r = false /\ shown r = database_error
      /\ txn (self_after r) = None /\ disk (self_after r) = t)
  /\ (forall pending env,
      let self := {| cursor := false; disk := t; txn := pending; faults := env |} in
      let r := update_category self old_name new_name in
      returned r = false /\ shown r = None /\ self_after r = self).
Proof.
  intros Huniq Hold. split; [| split; [| split; [| split]]].
  - intros Hnew. cbv zeta.
    assert (Hne : old_name <> new_name) by congruence.
    unfold update_category, get_categories. run_stmts.
    rewrite (set_category_name_free new_name old_name t Huniq Hold Hnew).
    run_stmts.
    cbn [set_expense_category with_expenses with_categories expenses categories].
    destruct (renamed_names new_name old_name (categories t) Hne Hold) as [Hin Hout].
    split; [reflexivity |]. split; [reflexivity |].
    split; [exact Hin |]. split; [exact Hout |].
    split; [apply listed_names; exact Hin |].
    split; [rewrite listed_names; exact Hout |].
    split; [reflexivity |].
    apply recategorized_away. exact Hne.
  - intros Hnew Hne. cbv zeta. unfold update_category. run_stmts.
    rewrite (set_category_name_taken new_name old_name t Hold Hnew Hne).
    repeat split.
  - intros env. cbv zeta.
    destruct (update_category_outcome t env old_name new_name) as [Htxn [Hok | Hko]].
    + split; [exact Htxn |]. right. destruct Hok as [Hret [_ [_ Hdisk]]].
      unfold visible. rewrite Htxn, Hdisk. repeat split. exact Hret.
    + split; [exact Htxn |]. left. destruct Hko as [Hret Hdisk].
      unfold visible. rewrite Htxn, Hdisk. split; [exact Hret | reflexivity].
  - intros pending env. apply update_category_refused.
  - intros pending env. cbv zeta. unfold update_category. simpl. repeat split.
Qed.

Lemma sample_unique_names : unique_names sample.
Proof.
  unfold unique_names; simpl.
  repeat constructor; simpl; intuition discriminate.
Qed.

Lemma update_category_atomic_rename_witness :
  (let r := update_category (connect sample []) "Food" "Groceries" in
   returned r = true
   /\ expenses (visible (self_after r))
      = [Build_expense 1 "2025-01-10" "Groceries" 250%Z (Some "Lunch");
         Build_expense 2 "2025-01-15" "Uncategorized" 150%Z (Some "")])
  /\ (let r := update_category (connect sample []) "Food" "Rent" in
      returned r = false /\ self_after r = connect sample []).
Proof.
  cbv zeta.
  pose (H := update_category_atomic_rename sample "Food" "Groceries"
               sample_unique_names (or_introl eq_refl)).
  pose (H' := update_category_atomic_rename sample "Food" "Rent"
                sample_unique_names (or_introl eq_refl)).
  split.
  - assert (Hfree : ~ In "Groceries" (map cat_name (categories sample)))
      by (simpl; intuition discriminate).
    destruct (proj1 H Hfree) as [Hret [_ [_ [_ [_ [_ [Hexp _]]]]]]].
    split; [exact Hret | exact Hexp].
  - assert (Htaken : In "Rent" (map cat_name (categories sample)))
      by (simpl; auto).
    assert (Hne : "Food" <> "Rent") by discriminate.
    destruct (proj1 (proj2 H') Htaken Hne) as [Hret [_ Hself]].
    split; [exact Hret | exact Hself].
Defined.

(** C1 as stated fails when [old_name] is not a category row, or is
    [new_name] itself: the category UPDATE then touches no row and cannot
    collide, so the call succeeds.  Renaming "Uncategorized" to the
    existing "Food" returns [True] and re-tags an expense; renaming it to
    the free name "Misc" returns [True] and "Misc" is no category;
    renaming "Food" to "Food" returns [True].  And with a transaction
    left open, renaming "Food" to the existing "Rent" is refused behind
    "Database Error", not as a duplicate. *)
Lemma update_category_counterexample :
  (let r := update_category (connect sample []) "Uncategorized" "Food" in
   In "Food" (map cat_name (categories sample))
   /\ returned r = true /\ shown r = None
   /\ expenses (visible (self_after r)) <> expenses sample)
  /\ (let r := update_category (connect sample []) "Uncategorized" "Misc" in
      ~ In "Misc" (map cat_name (categories sample))
      /\ returned r = true
      /\ ~ In "Misc" (map cat_name (categories (visible (self_after r)))))
  /\ (let r := update_category (connect sample []) "Food" "Food" in
      In "Food" (map cat_name (categories sample)) /\ returned r = true)
  /\ (let self := {| cursor := true; disk := sample; txn := Some sample; faults := [] |} in
      let r := update_category self "Food" "Rent" in
      In "Rent" (map cat_name (categories sample))
      /\ returned r = false
      /\ shown r = database_error
      /\ shown r <> Some (showwarning "Duplicate Category")).
Proof.
  cbv zeta. repeat split.
  - simpl. auto.
  - vm_compute. discriminate.
  - simpl. intuition discriminate.
  - vm_compute. intuition discriminate.
  - simpl. auto.
  - simpl. auto.
  - vm_compute. discriminate.
Qed.

(** C2. Whatever the engine does, [delete_category] ends with nothing
    pending; a call that returns [True] has re-tagged every expense of
    that category "Uncategorized" and removed the category row, deleting
    no expense row (same number of rows, same ids); one that returns
    [False] leaves the database as it was; and on a healthy engine the
    call does return [True]. *)
Theorem delete_category_atomic {A} (t : tables A) (env : list bool) (category_name : string) :
  let r := delete_category (connect t env) category_name in
  let after := visible (self_after r) in
  txn (self_after r) = None
  /\ (returned r = true ->
   expenses after = map (recategorize "Uncategorized" category_name) (expenses t)
   /\ categories after
      = filter (fun c => negb (cat_name c =? category_name)%string) (categories t)
   /\ ~ In category_name (map cat_name (categories after))
   /\ List.length (expenses after) = List.length (expenses t)
   /\ map exp_id (expenses after) = map exp_id (expenses t))
  /\ (returned r = false -> after = t)
  /\ returned (delete_category (connect t []) category_name) = true.
Proof.
  assert (Hgone : ~ In category_name
                      (map cat_name
                         (filter (fun c => negb (cat_name c =? category_name)%string)
                                 (categories t)))).
  { intros Hin. apply in_map_iff in Hin. destruct Hin as [c [Hk Hc]].
    apply filter_In in Hc. destruct Hc as [_ Hc].
    rewrite (proj2 (String.eqb_eq _ _) Hk) in Hc. discriminate. }
  assert (Hids : map exp_id (map (recategorize "Uncategorized" category_name) (expenses t))
                 = map exp_id (expenses t)).
  { rewrite map_map. apply map_ext. intros r. unfold recategorize.
    destruct (exp_category r =? category_name)%string; reflexivity. }
  cbv zeta. unfold delete_category.
  destruct env as [| [|] [| [|] [| [|] [| [|] env]]]]; run_stmts;
    cbn [set_expense_category delete_category_row with_expenses with_categories
         expenses categories expenses_seq income budgets].
  all: repeat split; try discriminate; try reflexivity; try exact Hgone;
    try exact Hids; try (intros _; repeat split); try exact Hgone; try exact Hids;
    try apply length_map; try (destruct t; reflexivity).
Qed.

(** ** Income: the source filter *)

Lemma filter_perm {R : Type} (p : R -> bool) (l l' : list R) :
  Permutation l l' -> Permutation (filter p l) (filter p l').
Proof.
  induction 1 as [| x l l' _ IH | x y l | l l' l'' _ IH1 _ IH2]; simpl.
  - apply perm_nil.
  - destruct (p x); [apply perm_skip |]; exact IH.
  - destruct (p x), (p y); try apply Permutation_refl. apply perm_swap.
  - eapply perm_trans; eassumption.
Qed.

Lemma filter_both {R : Type} (p q : R -> bool) (l : list R) :
  filter q (filter p l) = filter (fun r => p r && q r) l.
Proof.
  induction l as [| x l IH]; simpl; [reflexivity |].
  destruct (p x); simpl; [destruct (q x) |]; rewrite IH; reflexivity.
Qed.

Lemma forallb_insert {R : Type} (pre post : list (R -> bool)) (p : R -> bool) (r : R) :
  forallb (fun c => c r) (pre ++ [p] ++ post)
  = forallb (fun c => c r) (pre ++ [] ++ post) && p r.
Proof.
  rewrite !forallb_app. simpl.
  destruct (forallb _ pre), (p r), (forallb _ post); reflexivity.
Qed.

Lemma list_ascii_of_string_app (a b : string) :
  list_ascii_of_string (a ++ b) = list_ascii_of_string a ++ list_ascii_of_string b.
Proof. induction a as [| c a IH]; simpl; [reflexivity | rewrite IH; reflexivity]. Qed.

(** [%] may match nothing, or swallow one more character. *)
Lemma like_percent_none (q u : list ascii) :
  Sql.like_chars q u = true -> Sql.like_chars ("%"%char :: q) u = true.
Proof. intros Hq. destruct u; simpl; rewrite Hq; reflexivity. Qed.

Lemma like_percent_more (q u : list ascii) (d : ascii) :
  Sql.like_chars ("%"%char :: q) u = true ->
  Sql.like_chars ("%"%char :: q) (d :: u) = true.
Proof.
  intros Hq. simpl in *. rewrite Hq. apply orb_true_r.
Qed.

(** A text matches itself followed by [%], wildcards in it included. *)
Lemma like_chars_self (p : list ascii) : Sql.like_chars (p ++ ["%"%char]) p = true.
Proof.
  induction p as [| c p IH]; [reflexivity |].
  change ((c :: p) ++ ["%"%char]) with (c :: (p ++ ["%"%char])).
  destruct (Ascii.eqb_spec c "%"%char) as [-> | Hc].
  - apply like_percent_more, like_percent_none, IH.
  - cbn [Sql.like_chars]. rewrite (proj2 (Ascii.eqb_neq _ _) Hc).
    rewrite IH, Ascii.eqb_refl, orb_true_r. reflexivity.
Qed.

(** [%] alone matches every text. *)
Lemma like_percent_any (u : list ascii) : Sql.like_chars ["%"%char] u = true.
Proof.
  induction u as [| d u IH]; [reflexivity |].
  apply like_percent_more. exact IH.
Qed.

Lemma like_contains_self (s : string) : Sql.like s (contains_pattern s) = true.
Proof.
  unfold Sql.like, contains_pattern.
  rewrite !list_ascii_of_string_app. simpl.
  apply like_percent_none, like_chars_self.
Qed.




(** ** Years present *)

Lemma iso_date_parsed (d : string) :
  iso_date d = true ->
  exists dt, Calendar.read d = Some dt /\ Calendar.real_day dt = true
             /\ (1000 <= Calendar.year dt)%Z.
Proof.
  unfold iso_date. destruct (Calendar.read d) as [dt |]; [| discriminate].
  intros Hy. apply andb_true_iff in Hy. destruct Hy as [Hday Hy].
  exists dt. repeat split; [exact Hday | apply Z.leb_le; exact Hy].
Qed.

Lemma iso_date_strptime (d : string) :
  iso_date d = true ->
  exists dt, Py.strptime d = Some dt /\ Calendar.read d = Some dt
             /\ (1000 <= Calendar.year dt)%Z.
Proof.
  intros Hd. destruct (iso_date_parsed d Hd) as [dt [Hread [Hday Hy]]].
  exists dt. unfold Py.strptime. rewrite Hread, Hday.
  rewrite (proj2 (Z.leb_le 1 (Calendar.year dt))) by lia.
  repeat split. exact Hy.
Qed.

Lemma iso_calendar_date (d : string) : iso_date d = true -> calendar_date d = true.
Proof.
  intros Hd. destruct (iso_date_parsed d Hd) as [dt [Hread [Hday _]]].
  unfold calendar_date, Sql.date_of. rewrite Hread, Hday. reflexivity.
Qed.

Lemma calendar_date_year (d : string) :
  calendar_date d = true -> Sql.strftime_Y d = Some (substring 0 4 d).
Proof.
  unfold calendar_date, Sql.strftime_Y.
  destruct (Sql.date_of d); [reflexivity | discriminate].
Qed.

Lemma iso_date_year (d : string) :
  iso_date d = true -> Sql.strftime_Y d = Some (substring 0 4 d).
Proof. intros Hd. apply calendar_date_year, iso_calendar_date, Hd. Qed.

Lemma mem_year_In (y : option string) (seen : list (option string)) :
  mem_year y seen = true <-> In y seen.
Proof.
  unfold mem_year. rewrite existsb_exists. split.
  - intros [z [Hz Heq]]. destruct y as [a |], z as [b |]; try discriminate.
    + apply String.eqb_eq in Heq. subst. exact Hz.
    + exact Hz.
  - intros Hin. exists y. split; [exact Hin |].
    destruct y; [apply String.eqb_refl | reflexivity].
Qed.

(** The scan of a DISTINCT query: every kept row carries its own value,
    no value is kept twice, and every value not seen before is kept. *)
Lemma distinct_years_spec (dates : list string) :
  forall seen,
    let kept := distinct_years seen dates in
    (forall y d, In (y, d) kept -> y = Sql.strftime_Y d /\ In d dates /\ ~ In y seen)
    /\ NoDup (map fst kept)
    /\ (forall d, In d dates -> ~ In (Sql.strftime_Y d) seen ->
                  In (Sql.strftime_Y d) (map fst kept)).
Proof.
  induction dates as [| d ds IH]; intros seen; cbv zeta; simpl.
  - repeat split; try contradiction. constructor.
  - destruct (mem_year (Sql.strftime_Y d) seen) eqn:Hmem.
    + destruct (IH seen) as [Hkept [Hnd Hall]]. repeat split.
      * apply (Hkept y d0 H).
      * right. apply (Hkept y d0 H).
      * apply (Hkept y d0 H).
      * exact Hnd.
      * intros d0 [<- | Hd0] Hnew.
        -- apply mem_year_In in Hmem. contradiction.
        -- apply Hall; assumption.
    + assert (Hfresh : ~ In (Sql.strftime_Y d) seen).
      { intros Hin. apply mem_year_In in Hin. congruence. }
      destruct (IH (Sql.strftime_Y d :: seen)) as [Hkept [Hnd Hall]].
      repeat split.
      * destruct H as [[= <- <-] | H]; [reflexivity | apply (Hkept y d0 H)].
      * destruct H as [[= <- <-] | H]; [left; reflexivity | right; apply (Hkept y d0 H)].
      * destruct H as [[= <- <-] | H]; [exact Hfresh |].
        intros Hin. apply (Hkept y d0 H). right. exact Hin.
      * simpl. constructor; [| exact Hnd].
        intros Hin. apply in_map_iff in Hin. destruct Hin as [[y d0] [Hy Hin]].
        simpl in Hy. subst y. apply (Hkept _ _ Hin). left. reflexivity.
      * intros d0 [<- | Hd0] Hnew; [left; reflexivity |].
        destruct (mem_year (Sql.strftime_Y d0) [Sql.strftime_Y d]) eqn:Hsame.
        -- apply mem_year_In in Hsame. destruct Hsame as [<- | []]. left. reflexivity.
        -- right. apply Hall; [exact Hd0 |].
           intros [Heq | Hin]; [| contradiction].
           assert (Hm : mem_year (Sql.strftime_Y d0) [Sql.strftime_Y d] = true)
             by (apply mem_year_In; left; exact Heq).
           congruence.
Qed.

(** Byte-wise order and prefixes. *)
Lemma substring_prefix_leb (n : nat) :
  forall a b, String.leb a b = true ->
              String.leb (substring 0 n a) (substring 0 n b) = true.
Proof.
  unfold String.leb.
  induction n as [| n IH]; intros a b Hab.
  - destruct a, b; reflexivity.
  - destruct a as [| c a], b as [| c' b]; simpl in *; try reflexivity; try discriminate.
    destruct (Ascii.compare c c'); [apply IH; exact Hab | reflexivity | discriminate].
Qed.

Lemma sorted_years (kept : list (option string * string)) :
  Sorted (date_desc snd) kept ->
  NoDup (map (fun p => substring 0 4 (snd p)) kept) ->
  StronglySorted years_desc (map (fun p => substring 0 4 (snd p)) kept).
Proof.
  intros Hs Hnd. apply Sorted_StronglySorted; [exact years_desc_trans |].
  revert Hs Hnd.
  induction kept as [| p kept IH]; simpl; intros Hs Hnd; [constructor |].
  inversion Hs as [| ? ? Hs' Hhd]; subst.
  inversion Hnd as [| ? ? Hp Hnd']; subst.
  constructor; [apply IH; assumption |].
  destruct kept as [| q kept]; simpl; constructor.
  inversion Hhd as [| ? ? Hpq]; subst. unfold date_desc in Hpq. unfold years_desc.
  apply leb_neq_ltb.
  - apply substring_prefix_leb. exact Hpq.
  - intros Heq. apply Hp. left. exact Heq.
Qed.

Lemma select_distinct_years_spec (dates : list string) :
  Forall (fun d => calendar_date d = true) dates ->
  exists ys,
    select_distinct_years dates = map Some ys
    /\ (forall y, In y ys <-> In y (map (substring 0 4) dates))
    /\ NoDup ys
    /\ StronglySorted years_desc ys.
Proof.
  intros Hiso. rewrite Forall_forall in Hiso.
  destruct (distinct_years_spec dates []) as [Hkept [Hnd Hall]].
  set (kept := distinct_years [] dates) in *.
  set (sorted := order_by_desc snd kept).
  assert (Hperm : Permutation sorted kept) by apply order_by_desc_perm.
  assert (Hyear : forall p, In p sorted -> fst p = Some (substring 0 4 (snd p))).
  { intros [y d] Hin. apply (Permutation_in _ Hperm) in Hin.
    destruct (Hkept y d Hin) as [-> [Hd _]]. simpl. apply calendar_date_year, Hiso, Hd. }
  assert (Hmap : map fst sorted = map Some (map (fun p => substring 0 4 (snd p)) sorted)).
  { rewrite map_map. apply map_ext_in. exact Hyear. }
  exists (map (fun p => substring 0 4 (snd p)) sorted).
  assert (Hnd' : NoDup (map (fun p => substring 0 4 (snd p)) sorted)).
  { apply (NoDup_map_inv Some). rewrite <- Hmap.
    apply (Permutation_NoDup (l := map fst kept)); [| exact Hnd].
    apply Permutation_map, Permutation_sym, Hperm. }
  repeat split.
  - exact Hmap.
  - intros Hin. apply in_map_iff in Hin. destruct Hin as [[y' d] [<- Hin]].
    apply (Permutation_in _ Hperm) in Hin.
    apply in_map. apply (Hkept y' d Hin).
  - intros Hin. apply in_map_iff in Hin. destruct Hin as [d [<- Hd]].
    assert (Hk : In (Sql.strftime_Y d) (map fst kept)) by (apply Hall; auto).
    apply (Permutation_in _ (Permutation_map fst (Permutation_sym Hperm))) in Hk.
    rewrite Hmap, (calendar_date_year d (Hiso d Hd)) in Hk.
    apply in_map_iff in Hk. destruct Hk as [y' [[= ->] Hy']]. exact Hy'.
  - exact Hnd'.
  - apply sorted_years; [apply order_by_desc_sorted | exact Hnd'].
Qed.

(** C7 (as the code has it).  When every date of the expenses table is
    a calendar date in the form [YYYY-MM-DD], [get_all_expense_years]
    returns the years (the first four characters of the dates) that
    occur in that table: each such year, nothing else, each once, in
    strictly descending order.  Likewise [get_all_income_years] on the
    income table, when every date of that table is one. *)
Theorem get_all_years_distinct_descending {A} (t : tables A) :
  (Forall (fun r => calendar_date (exp_date r) = true) (expenses t) ->
   exists ys,
     returned (get_all_expense_years (connect t [])) = map Some ys
     /\ (forall y, In y ys <-> exists r, In r (expenses t) /\ substring 0 4 (exp_date r) = y)
     /\ NoDup ys
     /\ StronglySorted years_desc ys)
  /\ (Forall (fun r => calendar_date (inc_date r) = true) (income t) ->
      exists ys,
        returned (get_all_income_years (connect t [])) = map Some ys
        /\ (forall y, In y ys <-> exists r, In r (income t) /\ substring 0 4 (inc_date r) = y)
        /\ NoDup ys
        /\ StronglySorted years_desc ys).
Proof.
  split; [intros Hexp | intros Hinc].
  - destruct (select_distinct_years_spec (map exp_date (expenses t)))
      as [ys [Hsel [Hin [Hnd Hsorted]]]].
    { apply Forall_map. exact Hexp. }
    exists ys. repeat split; try assumption.
    + intros Hy. apply Hin in Hy. rewrite map_map in Hy.
      apply in_map_iff in Hy. destruct Hy as [r [Hr Hin']]. exists r. auto.
    + intros [r [Hr Hy]]. apply Hin. rewrite map_map.
      apply in_map_iff. exists r. auto.
  - destruct (select_distinct_years_spec (map inc_date (income t)))
      as [ys [Hsel [Hin [Hnd Hsorted]]]].
    { apply Forall_map. exact Hinc. }
    exists ys. repeat split; try assumption.
    + intros Hy. apply Hin in Hy. rewrite map_map in Hy.
      apply in_map_iff in Hy. destruct Hy as [r [Hr Hin']]. exists r. auto.
    + intros [r [Hr Hy]]. apply Hin. rewrite map_map.
      apply in_map_iff. exists r. auto.
Qed.

Lemma get_all_years_distinct_descending_witness :
  returned (get_all_expense_years (connect sample [])) = [Some "2025"]
  /\ exists ys,
       returned (get_all_income_years (connect sample [])) = map Some ys
       /\ (forall y, In y ys
                     <-> exists r, In r (income sample) /\ substring 0 4 (inc_date r) = y)
       /\ NoDup ys
       /\ StronglySorted years_desc ys.
Proof.
  split; [reflexivity |].
  refine (proj2 (get_all_years_distinct_descending sample) _).
  repeat constructor.
Defined.

(** C7 as stated fails on a table holding a text that is no date: with
    expenses dated 2025-01-10 and 15/01/2025 the answer is the year
    "2025" followed by [None] (the NULL that STRFTIME gives for the
    second text), which is no year of any row. *)
Lemma get_all_years_counterexample :
  let t := {| expenses := [Build_expense 1 "2025-01-10" "Food" 250%Z None;
                           Build_expense 2 "15/01/2025" "Food" 90%Z None];
              expenses_seq := 2;
              income := [];
              budgets := [];
              categories := [] |} in
  returned (get_all_expense_years (connect t [])) = [Some "2025"; None]
  /\ ~ (exists ys, returned (get_all_expense_years (connect t [])) = map Some ys).
Proof.
  cbv zeta. split; [vm_compute; reflexivity |].
  intros [ys Hys]. vm_compute in Hys.
  destruct ys as [| y [| y' ys]]; discriminate.
Qed.

(** ** Category totals *)

Section Totals.
Context {A : Type} `{Amount A}.

Variable key : expense A -> string.

Lemma dict_find_add (k k' : string) (v : A) (d : list (string * A)) :
  dict_find (dict_add k v d) k'
  = if (k =? k')%string
    then Some (match dict_find d k with
               | Some x => amt_add x v
               | None => amt_add amt_zero v
               end)
    else dict_find d k'.
Proof.
  induction d as [| [k0 x] d IH]; simpl.
  - destruct (k =? k')%string; reflexivity.
  - destruct (String.eqb_spec k0 k) as [-> | Hk0]; simpl.
    + destruct (k =? k')%string; reflexivity.
    + rewrite IH. destruct (String.eqb_spec k k') as [<- | Hkk'].
      * rewrite (proj2 (String.eqb_neq _ _) Hk0). reflexivity.
      * reflexivity.
Qed.

Lemma dict_find_fold (es : list (expense A)) :
  forall (d : list (string * A)) (k : string),
    dict_find (fold_left (add_row key) es d) k
    = match dict_find d k with
      | Some x => Some (fold_left amt_add (map exp_amount (filter (in_group key k) es)) x)
      | None =>
          if existsb (in_group key k) es
          then Some (py_sum (map exp_amount (filter (in_group key k) es)))
          else None
      end.
Proof.
  induction es as [| e es IH]; intros d k; simpl.
  - destruct (dict_find d k); reflexivity.
  - rewrite IH. unfold add_row. rewrite dict_find_add.
    change (in_group key k e) with (key e =? k)%string.
    destruct (String.eqb_spec (key e) k) as [<- | Hk]; simpl.
    + destruct (dict_find d (key e)); reflexivity.
    + reflexivity.
Qed.

Lemma dict_add_keys (k : string) (v : A) (d : list (string * A)) :
  map fst (dict_add k v d)
  = if existsb (fun k0 => (k0 =? k)%string) (map fst d)
    then map fst d else map fst d ++ [k].
Proof.
  induction d as [| [k0 x] d IH]; simpl; [reflexivity |].
  destruct (k0 =? k)%string; simpl; [reflexivity |].
  rewrite IH. destruct (existsb _ (map fst d)); reflexivity.
Qed.

Lemma dict_add_nodup (k : string) (v : A) (d : list (string * A)) :
  NoDup (map fst d) -> NoDup (map fst (dict_add k v d)).
Proof.
  intros Hnd. rewrite dict_add_keys.
  destruct (existsb _ (map fst d)) eqn:Hex; [exact Hnd |].
  apply NoDup_app; [exact Hnd | repeat constructor; intros [] |].
  intros k0 Hk0 [<- | []].
  assert (Hhit : existsb (fun k1 => (k1 =? k)%string) (map fst d) = true).
  { apply existsb_exists. exists k. split; [exact Hk0 | apply String.eqb_refl]. }
  congruence.
Qed.

Lemma fold_add_row_nodup (es : list (expense A)) :
  forall d, NoDup (map fst d) -> NoDup (map fst (fold_left (add_row key) es d)).
Proof.
  induction es as [| e es IH]; intros d Hnd; simpl; [exact Hnd |].
  apply IH, dict_add_nodup, Hnd.
Qed.

Lemma dict_find_key (d : list (string * A)) (k : string) :
  In k (map fst d) <-> dict_find d k <> None.
Proof.
  induction d as [| [k0 x] d IH]; simpl.
  - split; [contradiction | congruence].
  - destruct (String.eqb_spec k0 k) as [-> | Hk0].
    + split; [discriminate | auto].
    + rewrite <- IH. split; [intros [| ]; [contradiction | assumption] | auto].
Qed.

(** The values of a dict, read back through its keys. *)
Lemma dict_values_by_key (d : list (string * A)) :
  NoDup (map fst d) ->
  map (dict_find d) (map fst d) = map Some (map snd d).
Proof.
  induction d as [| [k x] d IH]; simpl; intros Hnd; [reflexivity |].
  inversion Hnd as [| ? ? Hk Hnd']; subst.
  rewrite String.eqb_refl. f_equal.
  rewrite <- (IH Hnd'). apply map_ext_in. intros k' Hk'.
  destruct (String.eqb_spec k k') as [-> | _]; [contradiction | reflexivity].
Qed.

Section Exact.
Context `{!ExactAmount A}.

Lemma fold_add_from (xs : list A) (a : A) :
  fold_left amt_add xs a = amt_add a (py_sum xs).
Proof.
  unfold py_sum. revert a.
  induction xs as [| x xs IH]; intros a; simpl.
  - rewrite amt_add_comm, amt_add_zero_l. reflexivity.
  - rewrite (IH (amt_add a x)), (IH (amt_add amt_zero x)).
    rewrite amt_add_zero_l, amt_add_assoc. reflexivity.
Qed.

Lemma py_sum_cons (x : A) (xs : list A) :
  py_sum (x :: xs) = amt_add x (py_sum xs).
Proof.
  unfold py_sum at 1. simpl. rewrite fold_add_from, amt_add_zero_l. reflexivity.
Qed.

Lemma py_sum_dict_add (k : string) (v : A) (d : list (string * A)) :
  py_sum (map snd (dict_add k v d)) = amt_add (py_sum (map snd d)) v.
Proof.
  induction d as [| [k0 x] d IH]; simpl.
  - rewrite py_sum_cons. unfold py_sum; simpl.
    rewrite !amt_add_zero_l, amt_add_comm, amt_add_zero_l. reflexivity.
  - destruct (k0 =? k)%string; simpl; rewrite !py_sum_cons.
    + rewrite <- !amt_add_assoc. f_equal. apply amt_add_comm.
    + rewrite IH, amt_add_assoc. reflexivity.
Qed.

Lemma py_sum_fold_add_row (es : list (expense A)) :
  forall d,
    py_sum (map snd (fold_left (add_row key) es d))
    = amt_add (py_sum (map snd d)) (py_sum (map exp_amount es)).
Proof.
  induction es as [| e es IH]; intros d; simpl.
  - unfold py_sum at 3; simpl. rewrite amt_add_comm, amt_add_zero_l. reflexivity.
  - rewrite IH. unfold add_row. rewrite py_sum_dict_add, py_sum_cons.
    rewrite amt_add_assoc. reflexivity.
Qed.

End Exact.

End Totals.

Lemma to_upper_of_lower (c : ascii) : Py.to_upper (Py.to_lower c) = Py.to_upper c.
Proof. destruct c as [[] [] [] [] [] [] [] []]; reflexivity. Qed.

Lemma lower_same_capitalize (a b : string) :
  same_up_to_case a b -> Py.capitalize a = Py.capitalize b.
Proof.
  unfold same_up_to_case.
  destruct a as [| c a], b as [| c' b]; simpl; try discriminate; [reflexivity |].
  intros [= Hc Hab]. rewrite <- (to_upper_of_lower c), Hc, to_upper_of_lower, Hab.
  reflexivity.
Qed.




(** ** Monthly totals *)

Lemma year_text_checked : year_text_ok = true.
Proof. vm_compute. reflexivity. Qed.

Lemma month_text_checked : month_text_ok = true.
Proof. vm_compute. reflexivity. Qed.

Lemma year_text (a b c d : Z) :
  In a digits10 -> In b digits10 -> In c digits10 -> In d digits10 ->
  (1000 <= 1000 * a + 100 * b + 10 * c + d)%Z ->
  Py.str (1000 * a + 100 * b + 10 * c + d) = text4 a b c d
  /\ Py.pad4 (1000 * a + 100 * b + 10 * c + d) = text4 a b c d.
Proof.
  intros Ha Hb Hc Hd Hn.
  pose proof year_text_checked as Hok. unfold year_text_ok in Hok.
  rewrite forallb_forall in Hok. specialize (Hok a Ha).
  rewrite forallb_forall in Hok. specialize (Hok b Hb).
  rewrite forallb_forall in Hok. specialize (Hok c Hc).
  rewrite forallb_forall in Hok. specialize (Hok d Hd).
  cbv zeta in Hok. rewrite (proj2 (Z.leb_le _ _) Hn) in Hok.
  apply andb_true_iff in Hok. destruct Hok as [H1 H2].
  split; apply String.eqb_eq; assumption.
Qed.

Lemma month_text (a b : Z) :
  In a digits10 -> In b digits10 -> Py.pad2 (10 * a + b) = text2 a b.
Proof.
  intros Ha Hb.
  pose proof month_text_checked as Hok. unfold month_text_ok in Hok.
  rewrite forallb_forall in Hok. specialize (Hok a Ha).
  rewrite forallb_forall in Hok. specialize (Hok b Hb).
  apply String.eqb_eq. exact Hok.
Qed.

Lemma is_digit_inv (c : ascii) :
  Calendar.is_digit c = true ->
  In (Calendar.digit c) digits10 /\ c = digit_char (Calendar.digit c).
Proof.
  destruct c as [[] [] [] [] [] [] [] []]; intros Hc; try discriminate Hc;
    (split; [vm_compute; tauto | reflexivity]).
Qed.

(** What the reports read off a stored date. *)
Lemma iso_date_fields (s : string) :
  iso_date s = true ->
  exists dt,
    Py.strptime s = Some dt
    /\ Py.str (Calendar.year dt) = substring 0 4 s
    /\ Py.strftime_Ym dt = (substring 0 4 s ++ "-" ++ substring 5 2 s)%string
    /\ substring 0 7 s = (substring 0 4 s ++ "-" ++ substring 5 2 s)%string.
Proof.
  intros Hiso. destruct (iso_date_strptime s Hiso) as [dt [Hdt [Hread Hyear]]].
  exists dt. split; [exact Hdt |]. clear Hdt.
  unfold Calendar.read in Hread.
  rewrite <- (string_of_list_ascii_of_string s).
  destruct (list_ascii_of_string s)
    as [| y1 [| y2 [| y3 [| y4 [| h1 [| m1 [| m2 [| h2 [| d1 [| d2 [| ? ?]]]]]]]]]]];
    try discriminate.
  destruct (forallb Calendar.is_digit [y1; y2; y3; y4; m1; m2; d1; d2]) eqn:Hdigits;
    [| discriminate].
  destruct (Ascii.eqb_spec h1 "-"%char) as [-> |]; [| discriminate].
  destruct (Ascii.eqb_spec h2 "-"%char) as [-> |]; [| discriminate].
  cbn [andb] in Hread.
  pose proof (f_equal (fun o => match o with Some x => x | None => dt end) Hread) as Hdt'.
  cbv beta iota in Hdt'. subst dt. clear Hread.
  cbn [forallb] in Hdigits. repeat rewrite andb_true_iff in Hdigits.
  destruct Hdigits as [Hy1 [Hy2 [Hy3 [Hy4 [Hm1 [Hm2 _]]]]]].
  destruct (is_digit_inv y1 Hy1) as [Iy1 Ey1].
  destruct (is_digit_inv y2 Hy2) as [Iy2 Ey2].
  destruct (is_digit_inv y3 Hy3) as [Iy3 Ey3].
  destruct (is_digit_inv y4 Hy4) as [Iy4 Ey4].
  destruct (is_digit_inv m1 Hm1) as [Im1 Em1].
  destruct (is_digit_inv m2 Hm2) as [Im2 Em2].
  cbn [Calendar.year Calendar.month] in *.
  destruct (year_text _ _ _ _ Iy1 Iy2 Iy3 Iy4 Hyear) as [Hstr Hpad4].
  pose proof (month_text _ _ Im1 Im2) as Hpad2.
  unfold Py.strftime_Ym. cbn [Calendar.year Calendar.month].
  rewrite Hstr, Hpad4, Hpad2.
  unfold text4, text2. rewrite <- Ey1, <- Ey2, <- Ey3, <- Ey4, <- Em1, <- Em2.
  repeat split.
Qed.

Lemma monthly_totals_fold {A} `{Amount A} (selected_year : string)
    (expenses : list (expense A)) :
  Forall (fun e => iso_date (exp_date e) = true) expenses ->
  monthly_totals selected_year expenses
  = Some (fold_left (add_row month_key) (filter (in_year selected_year) expenses) []).
Proof.
  unfold monthly_totals. generalize (@nil (string * A)).
  induction expenses as [| e es IH]; intros d Hiso; [reflexivity |].
  inversion Hiso as [| ? ? He Hes]; subst.
  destruct (iso_date_fields (exp_date e) He) as [dt [Hdt [Hstr [Hkey _]]]].
  cbn [fold_left filter]. rewrite Hdt, Hstr. unfold in_year at 1.
  destruct (substring 0 4 (exp_date e) =? selected_year)%string.
  - rewrite IH by exact Hes. cbn [fold_left]. unfold add_row at 3, month_key at 3.
    rewrite Hkey. reflexivity.
  - apply IH. exact Hes.
Qed.

Lemma dict_get_find {A} (d : list (string * A)) (k : string) (default : A) :
  dict_get d k default = match dict_find d k with Some x => x | None => default end.
Proof.
  induction d as [| [k0 x] d IH]; simpl; [reflexivity |].
  destruct (k0 =? k)%string; [reflexivity | exact IH].
Qed.

Lemma append_eqb_l (a x y : string) : ((a ++ x) =? (a ++ y))%string = (x =? y)%string.
Proof.
  induction a as [| c a IH]; simpl; [reflexivity |].
  rewrite Ascii.eqb_refl. exact IH.
Qed.

Lemma filter_nothing {R : Type} (p : R -> bool) (l : list R) :
  existsb p l = false -> filter p l = [].
Proof.
  induction l as [| x l IH]; simpl; [reflexivity |].
  destruct (p x); simpl; [discriminate | exact IH].
Qed.

(** Within the rows of the selected year, the rows under one month label
    are the rows dated in that month. *)
Lemma month_rows {A} (selected_year : string) (m : nat) (expenses : list (expense A)) :
  filter (in_group month_key (selected_year ++ "-" ++ Py.pad2 (Z.of_nat m))%string)
         (filter (in_year selected_year) expenses)
  = filter (dated_in selected_year m) expenses.
Proof.
  rewrite filter_both. apply filter_ext. intros e.
  unfold in_year, in_group, month_key, dated_in.
  destruct (String.eqb_spec (substring 0 4 (exp_date e)) selected_year) as [-> | _];
    [| reflexivity].
  cbn [andb]. rewrite append_eqb_l. apply (append_eqb_l "-").
Qed.

Lemma month_label (selected_year : string) (m : nat) :
  1 <= m <= 12 ->
  nth_error (labels_full_year selected_year) (m - 1)
  = Some (selected_year ++ "-" ++ Py.pad2 (Z.of_nat m))%string.
Proof.
  intros Hm. unfold labels_full_year, all_months.
  apply map_nth_error with (f := fun m => (selected_year ++ "-" ++ m)%string).
  apply map_nth_error with (f := fun i => Py.pad2 (Z.of_nat i)).
  assert (Hcases : m = 1 \/ m = 2 \/ m = 3 \/ m = 4 \/ m = 5 \/ m = 6 \/ m = 7
                   \/ m = 8 \/ m = 9 \/ m = 10 \/ m = 11 \/ m = 12) by lia.
  repeat (destruct Hcases as [-> | Hcases]; [reflexivity |]). subst m. reflexivity.
Qed.

(** C5 (as the code has it).  With every expense date a calendar date
    in the form [YYYY-MM-DD], of the year 1000 or a later one
    ([iso_date]), the series [generate_bar_chart_filtered] builds for a
    year has exactly twelve entries; entry [m] (January is 1) is the sum,
    taken in row order from [0.0], of the amounts of the rows dated in
    month [m] of that year, and is [0.0] when there is no such row. *)
Theorem bar_chart_amounts_by_month {A} `{Amount A} (selected_year : string)
    (expenses : list (expense A)) :
  Forall (fun e => iso_date (exp_date e) = true) expenses ->
  exists amounts,
    bar_chart_amounts selected_year expenses = Some amounts
    /\ List.length amounts = 12
    /\ (forall m, 1 <= m <= 12 ->
          nth_error amounts (m - 1)
          = Some (py_sum (map exp_amount (filter (dated_in selected_year m) expenses))))
    /\ (forall m, 1 <= m <= 12 ->
          (forall e, In e expenses -> dated_in selected_year m e = false) ->
          nth_error amounts (m - 1) = Some amt_zero).
Proof.
  intros Hiso. unfold bar_chart_amounts.
  rewrite (monthly_totals_fold selected_year expenses Hiso).
  set (d := fold_left (add_row month_key) (filter (in_year selected_year) expenses) []).
  assert (Hentry : forall m, 1 <= m <= 12 ->
            nth_error (map (fun month_label => dict_get d month_label amt_zero)
                           (labels_full_year selected_year)) (m - 1)
            = Some (py_sum (map exp_amount (filter (dated_in selected_year m) expenses)))).
  { intros m Hm.
    rewrite (map_nth_error _ _ _ (month_label selected_year m Hm)).
    f_equal. rewrite dict_get_find. unfold d. rewrite dict_find_fold. cbn [dict_find].
    rewrite month_rows.
    destruct (existsb _ (filter (in_year selected_year) expenses)) eqn:Hex; [reflexivity |].
    apply filter_nothing in Hex. rewrite month_rows in Hex. rewrite Hex. reflexivity. }
  eexists. split; [reflexivity |]. split; [reflexivity |]. split; [exact Hentry |].
  intros m Hm Hnone. rewrite (Hentry m Hm).
  rewrite filter_nothing; [reflexivity |].
  apply not_true_is_false. intros Hex. apply existsb_exists in Hex.
  destruct Hex as [e [He Hp]]. rewrite (Hnone e He) in Hp. discriminate.
Qed.

Lemma bar_chart_amounts_by_month_witness :
  bar_chart_amounts "2025" (expenses sample)
  = Some [400; 0; 0; 0; 0; 0; 0; 0; 0; 0; 0; 0]%Z
  /\ exists amounts,
       bar_chart_amounts "2025" (expenses sample) = Some amounts
       /\ List.length amounts = 12.
Proof.
  split; [reflexivity |].
  destruct (bar_chart_amounts_by_month "2025" (expenses sample))
    as [amounts [Hseries [Hlen _]]].
  - repeat constructor.
  - exists amounts. split; [exact Hseries | exact Hlen].
Defined.

(** C5 as stated fails outside those dates.  A row dated 0999-01-05 is
    dated in January of the year "0999" (the selector the year list
    offers for it), yet every bucket of the series for "0999" is zero:
    [str(exp_date.year)] is "999".  And one row dated 2025-02-30, which
    the database stores like any other text, makes [strptime] raise, so
    that no series is built at all. *)
Lemma bar_chart_amounts_counterexample :
  (let rows := [Build_expense 1 "0999-01-05" "Food" 250%Z None] in
   filter (dated_in "0999" 1) rows = rows
   /\ py_sum (map exp_amount (filter (dated_in "0999" 1) rows)) = 250%Z
   /\ bar_chart_amounts "0999" rows = Some [0; 0; 0; 0; 0; 0; 0; 0; 0; 0; 0; 0]%Z)
  /\ (let rows := [Build_expense 1 "2025-01-10" "Food" 250%Z None;
                   Build_expense 2 "2025-02-30" "Food" 90%Z None] in
      bar_chart_amounts "2025" rows = None).
Proof. cbv zeta. repeat split; vm_compute; reflexivity. Qed.

(** ** What every statement keeps

    A property of the tables that each write of a method keeps is kept
    by the method, committed or pending, whatever the engine does. *)

Section Invariants.
Context {A : Type}.
Variable P : tables A -> Prop.

Local Open Scope stmt_scope.

Lemma execute_write_keeps (w : tables A -> sqlite_error + tables A)
    (db : DatabaseManager A) :
  (forall t t', P t -> w t = inr t' -> P t') ->
  P (disk db) /\ P (visible db) ->
  P (disk (snd (execute_write w db))) /\ P (visible (snd (execute_write w db))).
Proof.
  intros Hw [Hd Hv]. unfold execute_write, bind, implicit_begin, engine_step, apply_write, visible in *.
  destruct db as [c d [p|] [|[] env]]; simpl in *;
    try (split; assumption).
  - destruct (w p) eqn:E; simpl; split; eauto.
  - destruct (w p) eqn:E; simpl; split; eauto.
  - destruct (w d) eqn:E; simpl; split; eauto.
  - destruct (w d) eqn:E; simpl; split; eauto.
Qed.

Lemma commit_keeps (db : DatabaseManager A) :
  P (disk db) /\ P (visible db) ->
  P (disk (snd (commit db))) /\ P (visible (snd (commit db))).
Proof.
  intros [Hd Hv]. unfold commit, bind, engine_step, visible in *.
  destruct db as [c d [p|] [|[] env]]; simpl in *; split; assumption.
Qed.

Lemma begin_transaction_keeps (db : DatabaseManager A) :
  P (disk db) /\ P (visible db) ->
  P (disk (snd (begin_transaction db))) /\ P (visible (snd (begin_transaction db))).
Proof.
  intros [Hd Hv]. unfold begin_transaction, bind, engine_step, visible in *.
  destruct db as [c d [p|] [|[] env]]; simpl in *; split; assumption.
Qed.

Lemma rollback_keeps (db : DatabaseManager A) :
  P (disk db) /\ P (visible db) ->
  P (disk (rollback db)) /\ P (visible (rollback db)).
Proof. intros [Hd Hv]. split; exact Hd. Qed.

Lemma bind_keeps {X Y : Type} (m : stmt X) (k : X -> stmt Y) (db : DatabaseManager A) :
  P (disk (snd (m db))) /\ P (visible (snd (m db))) ->
  (forall x db', P (disk db') /\ P (visible db') ->
                 P (disk (snd (k x db'))) /\ P (visible (snd (k x db')))) ->
  P (disk (snd (bind m k db))) /\ P (visible (snd (bind m k db))).
Proof.
  intros Hm Hk. unfold bind. destruct (m db) as [[e|x] db']; simpl in *.
  - exact Hm.
  - apply Hk. exact Hm.
Qed.

(** A method made of one write and the commit. *)
Lemma write_commit_keeps (w : tables A -> sqlite_error + tables A)
    (db : DatabaseManager A) :
  (forall t t', P t -> w t = inr t' -> P t') ->
  P (disk db) /\ P (visible db) ->
  P (disk (snd ((execute_write w ;;; commit) db)))
  /\ P (visible (snd ((execute_write w ;;; commit) db))).
Proof.
  intros Hw Hdb. apply bind_keeps.
  - apply execute_write_keeps; assumption.
  - intros _ db' Hdb'. apply commit_keeps. exact Hdb'.
Qed.

(** A method made of BEGIN, two writes and the commit, rolled back or
    not by its handler. *)
Lemma transaction_keeps (w1 w2 : tables A -> sqlite_error + tables A)
    (db : DatabaseManager A) :
  (forall t t', P t -> w1 t = inr t' -> P t') ->
  (forall t t', P t -> w2 t = inr t' -> P t') ->
  P (disk db) /\ P (visible db) ->
  let s := snd ((begin_transaction ;;; execute_write w1 ;;; execute_write w2 ;;; commit) db) in
  (P (disk s) /\ P (visible s)) /\ (P (disk (rollback s)) /\ P (visible (rollback s))).
Proof.
  intros Hw1 Hw2 Hdb s.
  assert (Hs : P (disk s) /\ P (visible s)).
  { subst s. apply bind_keeps; [apply begin_transaction_keeps; exact Hdb|].
    intros _ db1 H1. apply bind_keeps; [apply execute_write_keeps; assumption|].
    intros _ db2 H2. apply write_commit_keeps; assumption. }
  split; [exact Hs | apply rollback_keeps; exact Hs].
Qed.

End Invariants.

(** ** The primary key of [expenses] *)

Lemma max_rowid_bound (ids : list Z) (i : Z) :
  In i ids -> (i <= fold_right Z.max 0 ids)%Z.
Proof.
  induction ids as [|x ids IH]; simpl; [tauto|].
  intros [->|Hin]; [lia|]. specialize (IH Hin). lia.
Qed.

Lemma next_rowid_fresh (ids : list Z) (seq : Z) :
  (seq < next_rowid ids seq)%Z
  /\ (forall i, In i ids -> (i < next_rowid ids seq)%Z)
  /\ ~ In (next_rowid ids seq) ids.
Proof.
  unfold next_rowid.
  assert (Hall : forall i, In i ids -> (i < Z.max (fold_right Z.max 0 ids) seq + 1)%Z).
  { intros i Hin. apply max_rowid_bound in Hin. lia. }
  repeat split; [lia | exact Hall |].
  intros Hin. apply Hall in Hin. lia.
Qed.

Lemma insert_expense_key {A} `{Amount A} (date category : string) (amount : A)
    (description : option string) (t t' : tables A) :
  primary_key t -> insert_expense date category amount description t = inr t' ->
  primary_key t'.
Proof.
  intros [Hnd Hle] Hins. unfold insert_expense in Hins.
  destruct (amt_is_nan amount); [discriminate|].
  injection Hins as <-.
  destruct (next_rowid_fresh (map exp_id (expenses t)) (expenses_seq t)) as (Hseq & Hlt & Hnew).
  change (next_rowid (map exp_id (expenses t)) (expenses_seq t))
    with (next_expense_id t) in *.
  unfold primary_key; simpl. rewrite map_app; simpl. split.
  - apply NoDup_app; repeat split.
    + exact Hnd.
    + constructor; [simpl; tauto | constructor].
    + intros i Hi [<-|[]]. exact (Hnew Hi).
  - apply Forall_app; split.
    + apply Forall_forall. intros i Hi. apply Hlt in Hi. lia.
    + constructor; [lia | constructor].
Qed.

Lemma primary_key_same_ids {A} (t t' : tables A) :
  map exp_id (expenses t') = map exp_id (expenses t) ->
  expenses_seq t' = expenses_seq t ->
  primary_key t -> primary_key t'.
Proof. unfold primary_key. intros -> ->. tauto. Qed.

Lemma update_expense_row_ids {A} (expense_id : Z) (date category : string)
    (amount : A) (description : option string) (es : list (expense A)) :
  map exp_id
    (map (fun r => if (exp_id r =? expense_id)%Z
                   then Build_expense (exp_id r) date category amount description
                   else r) es)
  = map exp_id es.
Proof.
  rewrite map_map. apply map_ext. intros r.
  destruct (exp_id r =? expense_id)%Z; reflexivity.
Qed.

Lemma recategorize_ids {A} (new_name old_name : string) (es : list (expense A)) :
  map exp_id
    (map (fun r => if (exp_category r =? old_name)%string
                   then Build_expense (exp_id r) (exp_date r) new_name
                          (exp_amount r) (exp_description r)
                   else r) es)
  = map exp_id es.
Proof.
  rewrite map_map. apply map_ext. intros r.
  destruct (exp_category r =? old_name)%string; reflexivity.
Qed.

Lemma update_expense_row_key {A} `{Amount A} (expense_id : Z) (date category : string)
    (amount : A) (description : option string) (t t' : tables A) :
  primary_key t ->
  update_expense_row expense_id date category amount description t = inr t' ->
  primary_key t'.
Proof.
  intros Hkey Hupd. unfold update_expense_row in Hupd.
  destruct (amt_is_nan amount && _); [discriminate|]. injection Hupd as <-.
  apply (primary_key_same_ids t); [apply update_expense_row_ids | reflexivity | exact Hkey].
Qed.

Lemma filter_key_nodup {R K : Type} (key : R -> K) (p : R -> bool) (l : list R) :
  NoDup (map key l) -> NoDup (map key (filter p l)).
Proof.
  induction l as [|x l IH]; simpl; [auto|].
  intros Hnd. inversion Hnd as [|? ? Hnotin Hrest]; subst.
  destruct (p x); simpl; [constructor|]; auto.
  intros Hin. apply Hnotin. apply in_map_iff in Hin. destruct Hin as (y & Hy & Hin).
  apply filter_In in Hin. apply in_map_iff. exists y. tauto.
Qed.

Lemma delete_expense_row_key {A} (expense_id : Z) (t t' : tables A) :
  primary_key t -> delete_expense_row expense_id t = inr t' -> primary_key t'.
Proof.
  intros [Hnd Hle] Hdel. injection Hdel as <-. split; simpl.
  - apply filter_key_nodup. exact Hnd.
  - apply Forall_forall. intros i Hi. apply in_map_iff in Hi.
    destruct Hi as (x & <- & Hx). apply filter_In in Hx.
    rewrite Forall_forall in Hle. apply Hle. apply in_map. tauto.
Qed.

Lemma set_expense_category_key {A} (new_name old_name : string) (t t' : tables A) :
  primary_key t -> set_expense_category new_name old_name t = inr t' -> primary_key t'.
Proof.
  intros Hkey Hset. injection Hset as <-.
  apply (primary_key_same_ids t); [apply recategorize_ids | reflexivity | exact Hkey].
Qed.

Lemma set_category_name_key {A} (new_name old_name : string) (t t' : tables A) :
  primary_key t -> set_category_name new_name old_name t = inr t' -> primary_key t'.
Proof.
  intros Hkey Hset. apply set_category_name_done in Hset. subst t'. exact Hkey.
Qed.

Lemma delete_category_row_key {A} (name : string) (t t' : tables A) :
  primary_key t -> delete_category_row name t = inr t' -> primary_key t'.
Proof. intros Hkey Hdel. injection Hdel as <-. exact Hkey. Qed.

(** X1: [expenses.id] stays a primary key.  From a manager whose
    committed and pending tables have pairwise distinct expense ids, none
    above the counter, every method that writes expenses leaves both in
    that state again, whether it succeeds, fails or is failed by the
    engine. *)
Theorem expense_ids_stay_unique {A} `{Amount A} (self : DatabaseManager A)
    (expense_id : Z) (date category : string) (amount : A)
    (description : option string) (old_name new_name : string) :
  primary_key (disk self) -> primary_key (visible self) ->
  Forall (fun s => primary_key (disk s) /\ primary_key (visible s))
    [self_after (add_expense self date category amount description);
     self_after (update_expense self expense_id date category amount description);
     self_after (delete_expense self expense_id);
     self_after (update_category self old_name new_name);
     self_after (delete_category self old_name)].
Proof.
  intros Hdisk Hvis.
  assert (Hself : primary_key (disk self) /\ primary_key (visible self)) by tauto.
  repeat apply Forall_cons; try apply Forall_nil.
  - unfold add_expense. destruct (cursor self); simpl; [|tauto].
    all: pose proof (write_commit_keeps primary_key
                  (insert_expense date category amount description) self
                  (insert_expense_key date category amount description) Hself) as K.
    all: destruct ((execute_write _ ;;; commit)%stmt self) as [[e|x] s]; simpl in *; tauto.
  - unfold update_expense. destruct (cursor self); simpl; [|tauto].
    all: pose proof (write_commit_keeps primary_key
                  (update_expense_row expense_id date category amount description) self
                  (update_expense_row_key expense_id date category amount description)
                  Hself) as K.
    all: destruct ((execute_write _ ;;; commit)%stmt self) as [[e|x] s]; simpl in *; tauto.
  - unfold delete_expense. destruct (cursor self); simpl; [|tauto].
    all: pose proof (write_commit_keeps primary_key (delete_expense_row expense_id) self
                  (delete_expense_row_key expense_id) Hself) as K.
    all: destruct ((execute_write _ ;;; commit)%stmt self) as [[e|x] s]; simpl in *; tauto.
  - unfold update_category. destruct (cursor self); simpl; [|tauto].
    all: pose proof (transaction_keeps primary_key
                  (set_category_name new_name old_name)
                  (set_expense_category new_name old_name) self
                  (set_category_name_key new_name old_name)
                  (set_expense_category_key new_name old_name) Hself) as K.
    all: cbv zeta in K.
    all: destruct ((begin_transaction ;;; _)%stmt self) as [[[]|x] s]; simpl in *; tauto.
  - unfold delete_category. destruct (cursor self); simpl; [|tauto].
    all: pose proof (transaction_keeps primary_key
                  (set_expense_category "Uncategorized" old_name)
                  (delete_category_row old_name) self
                  (set_expense_category_key "Uncategorized" old_name)
                  (delete_category_row_key old_name) Hself) as K.
    all: cbv zeta in K.
    all: destruct ((begin_transaction ;;; _)%stmt self) as [[e|x] s]; simpl in *; tauto.
Qed.

Lemma expense_ids_stay_unique_witness :
  primary_key sample
  /\ Forall (fun s => primary_key (disk s) /\ primary_key (visible s))
       [self_after (add_expense (connect sample []) "2025-02-01" "Fuel" 300%Z None);
        self_after (update_expense (connect sample []) 1 "2025-02-01" "Fuel" 300%Z None);
        self_after (delete_expense (connect sample []) 1);
        self_after (update_category (connect sample []) "Food" "Meals");
        self_after (delete_category (connect sample []) "Food")].
Proof.
  assert (K : primary_key sample).
  { split; simpl.
    - repeat constructor; simpl; intuition discriminate.
    - repeat constructor; lia. }
  split; [exact K|].
  exact (expense_ids_stay_unique (connect sample []) 1 "2025-02-01" "Fuel" 300%Z None
           "Food" "Meals" K K).
Defined.

Lemma filter_keeps_all {R : Type} (p : R -> bool) (l : list R) :
  (forall r, In r l -> p r = true) -> filter p l = l.
Proof.
  induction l as [|x l IH]; simpl; intros Hall; [reflexivity|].
  rewrite (Hall x (or_introl eq_refl)). f_equal. apply IH. auto.
Qed.



(** ** Deleting and fetching *)

Section FilterSorted.
Context {R : Type} (key : R -> string).

Lemma insert_desc_front (r : R) (l : list R) :
  Forall (fun x => String.leb (key x) (key r) = true) l ->
  insert_desc key r l = r :: l.
Proof.
  destruct l as [|x l]; simpl; [reflexivity|].
  intros Hall. inversion Hall as [|? ? Hx _]; subst. rewrite Hx. reflexivity.
Qed.

Lemma filter_insert_desc (p : R -> bool) (r : R) (l : list R) :
  StronglySorted (date_desc key) l ->
  filter p (insert_desc key r l)
  = if p r then insert_desc key r (filter p l) else filter p l.
Proof.
  induction l as [|y l IH]; intros Hsorted.
  - simpl. destruct (p r); reflexivity.
  - inversion Hsorted as [|? ? Hrest Hall]; subst.
    cbn [insert_desc]. destruct (String.leb (key y) (key r)) eqn:Hyr.
    + cbn [filter]. destruct (p r) eqn:Hpr; [|reflexivity].
      change (if p y then y :: filter p l else filter p l) with (filter p (y :: l)).
      symmetry. apply insert_desc_front.
      apply Forall_forall. intros z Hz. apply filter_In in Hz. destruct Hz as [[<-|Hz] _].
      * exact Hyr.
      * rewrite Forall_forall in Hall. specialize (Hall z Hz). unfold date_desc in Hall.
        exact (string_leb_trans _ _ _ Hall Hyr).
    + cbn [filter]. rewrite (IH Hrest).
      destruct (p y) eqn:Hpy, (p r) eqn:Hpr; try reflexivity.
      cbn [insert_desc]. rewrite Hyr. reflexivity.
Qed.

Lemma filter_order_by_desc (p : R -> bool) (l : list R) :
  filter p (order_by_desc key l) = order_by_desc key (filter p l).
Proof.
  induction l as [|x l IH]; [reflexivity|].
  change (order_by_desc key (x :: l)) with (insert_desc key x (order_by_desc key l)).
  rewrite filter_insert_desc by apply order_by_desc_strongly_sorted.
  rewrite IH. cbn [filter]. destruct (p x); reflexivity.
Qed.

End FilterSorted.

Lemma filter_swap {R : Type} (p q : R -> bool) (l : list R) :
  filter p (filter q l) = filter q (filter p l).
Proof.
  rewrite !filter_both. apply filter_ext. intros r. apply andb_comm.
Qed.

(** X3: [delete_expense] and what a later fetch shows.  On a live
    connection the call returns [True]; whatever filters are used, the
    rows fetched afterwards are the rows fetched before without those
    carrying the id, in the same order; deleting an id no row carries
    changes nothing. *)
Theorem delete_expense_then_fetch {A} `{Amount A} (t : tables A) (expense_id : Z)
    (start_date end_date category year month_year keyword : option string) :
  let r := delete_expense (connect t []) expense_id in
  let before := fetch_expenses (connect t []) start_date end_date category year
                  month_year keyword in
  let after := fetch_expenses (self_after r) start_date end_date category year
                 month_year keyword in
  returned r = true /\ shown r = None
  /\ returned after
     = filter (fun e => negb (exp_id e =? expense_id)%Z) (returned before)
  /\ (forall e, In e (returned after) -> exp_id e <> expense_id)
  /\ income (visible (self_after r)) = income t
  /\ budgets (visible (self_after r)) = budgets t
  /\ categories (visible (self_after r)) = categories t
  /\ ((forall e, In e (expenses t) -> exp_id e <> expense_id) ->
      self_after r = connect t []).
Proof.
  intros r before after.
  assert (Hafter : returned after
                   = filter (fun e => negb (exp_id e =? expense_id)%Z) (returned before)).
  { subst r before after. unfold delete_expense, delete_expense_row, fetch_expenses.
    cbn. unfold select_where. rewrite filter_order_by_desc.
    unfold order_by_desc. f_equal. apply filter_swap. }
  split; [reflexivity|]. split; [reflexivity|]. split; [exact Hafter|].
  split.
  { intros e He. rewrite Hafter in He. apply filter_In in He. destruct He as [_ He].
    apply negb_true_iff in He. apply Z.eqb_neq. exact He. }
  split; [reflexivity|]. split; [reflexivity|]. split; [reflexivity|].
  intros Hnone. subst r. unfold delete_expense, delete_expense_row. cbn.
  unfold connect. f_equal. rewrite filter_keeps_all.
  - apply with_expenses_same.
  - intros e He. apply negb_true_iff. apply Z.eqb_neq. apply Hnone. exact He.
Qed.



(** ** Amounts that are not numbers, and reads *)

Lemma existsb_id {R : Type} (key : R -> Z) (i : Z) (l : list R) :
  In i (map key l) -> existsb (fun r => (key r =? i)%Z) l = true.
Proof.
  intros Hin. apply in_map_iff in Hin. destruct Hin as (r & Hr & Hin).
  apply existsb_exists. exists r. split; [exact Hin | apply Z.eqb_eq; exact Hr].
Qed.

(** X5: a NaN never reaches a NOT NULL amount column.  Every method that
    writes an amount refuses a NaN: it returns [False] behind a
    "Database Error" box and the tables, committed and as the connection
    sees them, are what they were (an update only where it would hit a
    row). *)
Theorem nan_amount_refused {A} `{Amount A} (t : tables A) (seq id : Z)
    (date name month : string) (amount : A) (description : option string) :
  amt_is_nan amount = true ->
  let refused (r : reply A bool) :=
    returned r = false /\ shown r = database_error
    /\ disk (self_after r) = t /\ visible (self_after r) = t in
  refused (add_expense (connect t []) date name amount description)
  /\ refused (add_income (connect t []) seq date name amount description)
  /\ refused (set_monthly_budget (connect t []) seq month amount)
  /\ (In id (map exp_id (expenses t)) ->
      refused (update_expense (connect t []) id date name amount description))
  /\ (In id (map inc_id (income t)) ->
      refused (update_income (connect t []) id date name amount description)).
Proof.
  intros Hnan refused. subst refused. cbv beta.
  split; [|split; [|split; [|split]]].
  - unfold add_expense, insert_expense. run_stmts. rewrite Hnan. repeat split.
  - unfold add_income, insert_income. run_stmts. rewrite Hnan. repeat split.
  - unfold set_monthly_budget, replace_budget. run_stmts. rewrite Hnan. repeat split.
  - intros Hid. apply existsb_id in Hid.
    unfold update_expense, update_expense_row. run_stmts. rewrite Hnan, Hid. repeat split.
  - intros Hid. apply existsb_id in Hid.
    unfold update_income, update_income_row. run_stmts. rewrite Hnan, Hid. repeat split.
Qed.

Lemma nan_amount_refused_witness :
  let t : tables float :=
    {| expenses := [Build_expense 1 "2025-01-10" "Food" 250%float None];
       expenses_seq := 1; income := []; budgets := []; categories := [] |} in
  amt_is_nan nan = true
  /\ returned (add_expense (connect t []) "2025-01-11" "Food" nan None) = false
  /\ visible (self_after (update_expense (connect t []) 1 "2025-01-11" "Food" nan None)) = t.
Proof.
  intros t.
  pose proof (nan_amount_refused t 0 1 "2025-01-11" "Food" "2025-01" nan None eq_refl) as K.
  cbv zeta beta in K. destruct K as (K1 & _ & _ & K4 & _).
  split; [reflexivity|]. split; [apply K1|].
  apply K4. simpl. tauto.
Defined.

(** X6: reading changes nothing.  No fetch or lookup alters the committed
    tables, opens or closes a transaction, or drops the cursor, in
    whatever state the manager is and whatever the engine does. *)
Theorem reads_change_nothing {A} `{Amount A} (self : DatabaseManager A)
    (start_date end_date name year month_year keyword : option string) (month : string) :
  Forall (fun s => disk s = disk self /\ txn s = txn self /\ cursor s = cursor self)
    [self_after (fetch_expenses self start_date end_date name year month_year keyword);
     self_after (fetch_income self start_date end_date name year month_year keyword);
     self_after (get_monthly_budget self month);
     self_after (get_categories self);
     self_after (get_all_expense_years self);
     self_after (get_all_income_years self)].
Proof.
  repeat apply Forall_cons; try apply Forall_nil.
  - unfold fetch_expenses. destruct self as [[] d p [|[] env]]; repeat split.
  - unfold fetch_income. destruct self as [[] d p [|[] env]]; repeat split.
  - unfold get_monthly_budget. destruct self as [[] d p [|[] env]]; run_stmts;
      try destruct (select_budget_amount month _); repeat split.
  - unfold get_categories. destruct self as [[] d p [|[] env]]; repeat split.
  - unfold get_all_expense_years. destruct self as [[] d p [|[] env]]; repeat split.
  - unfold get_all_income_years. destruct self as [[] d p [|[] env]]; repeat split.
Qed.

(** ** What [fetch_expenses] returns *)

Lemma guarded_cond {R : Type} (b : bool) (p : R -> bool) (r : R) :
  forallb (fun c => c r) (if b then [p] else []) = true <-> (b = true -> p r = true).
Proof.
  destruct b; simpl.
  - rewrite andb_true_r. tauto.
  - split; [discriminate | reflexivity].
Qed.

Lemma truthy_arg (o : option string) (Q : string -> Prop) :
  (Py.truthy o = true -> Q (arg o)) <-> (forall s, o = Some s -> s <> "" -> Q s).
Proof.
  destruct o as [s|]; simpl.
  - split.
    + intros Hq s' [= <-] Hne. apply Hq. apply negb_true_iff. apply String.eqb_neq. exact Hne.
    + intros Hq Hne. apply (Hq s eq_refl). apply String.eqb_neq. apply negb_true_iff. exact Hne.
  - split; [discriminate | discriminate].
Qed.

Lemma truthy_arg_but (o : option string) (sentinel : string) (Q : string -> Prop) :
  (Py.truthy o && negb (arg o =? sentinel)%string = true -> Q (arg o))
  <-> (forall s, o = Some s -> s <> "" -> s <> sentinel -> Q s).
Proof.
  rewrite <- (truthy_arg o (fun s => s <> sentinel -> Q s)).
  rewrite andb_true_iff, negb_true_iff, String.eqb_neq. tauto.
Qed.

Lemma calendar_date_month (d : string) :
  calendar_date d = true -> Sql.strftime_Ym d = Some (substring 0 7 d).
Proof.
  unfold calendar_date, Sql.strftime_Ym.
  destruct (Sql.date_of d); [reflexivity | discriminate].
Qed.

(** *** LIKE and occurrences *)

Lemma like_prefix_any_case (s : list ascii) :
  forall s' post,
    map Py.to_lower s = map Py.to_lower s' ->
    Sql.like_chars (s ++ ["%"%char]) (s' ++ post) = true.
Proof.
  induction s as [|c s IH]; intros [|d s'] post Hsame; try discriminate.
  - apply like_percent_any.
  - injection Hsame as Hcd Hrest. specialize (IH s' post Hrest).
    change ((c :: s) ++ ["%"%char]) with (c :: (s ++ ["%"%char])).
    change ((d :: s') ++ post) with (d :: (s' ++ post)).
    destruct (Ascii.eqb_spec c "%"%char) as [->|Hc].
    + apply like_percent_more. apply like_percent_none. exact IH.
    + cbn [Sql.like_chars]. apply Ascii.eqb_neq in Hc. rewrite Hc, Hcd, Ascii.eqb_refl, IH.
      rewrite orb_true_r. reflexivity.
Qed.

Lemma like_contains_any_case (pre s s' post : list ascii) :
  map Py.to_lower s = map Py.to_lower s' ->
  Sql.like_chars ("%"%char :: s ++ ["%"%char]) (pre ++ s' ++ post) = true.
Proof.
  intros Hsame. induction pre as [|d pre IH].
  - apply like_percent_none. exact (like_prefix_any_case s s' post Hsame).
  - apply like_percent_more. exact IH.
Qed.

Lemma lower_chars (s : string) :
  list_ascii_of_string (Py.lower s) = map Py.to_lower (list_ascii_of_string s).
Proof. induction s as [|c s IH]; simpl; [reflexivity | rewrite IH; reflexivity]. Qed.

Lemma like_occurrence (keyword pre mid post : string) :
  same_up_to_case mid keyword ->
  Sql.like (pre ++ mid ++ post) (contains_pattern keyword) = true.
Proof.
  intros Hsame. unfold Sql.like, contains_pattern.
  rewrite !list_ascii_of_string_app. apply like_contains_any_case.
  rewrite <- !lower_chars. f_equal. symmetry. exact Hsame.
Qed.

Lemma string_of_list_ascii_app (a b : list ascii) :
  string_of_list_ascii (a ++ b)
  = (string_of_list_ascii a ++ string_of_list_ascii b)%string.
Proof. induction a as [|c a IH]; simpl; [reflexivity | rewrite IH; reflexivity]. Qed.

Lemma like_percent_cases (q u : list ascii) :
  Sql.like_chars ("%"%char :: q) u
  = Sql.like_chars q u
    || match u with
       | [] => false
       | _ :: u' => Sql.like_chars ("%"%char :: q) u'
       end.
Proof. destruct u; reflexivity. Qed.

(** Without wildcards in the keyword, a match is an occurrence. *)
Lemma like_prefix_inv (s : list ascii) :
  forallb (fun c => negb ((c =? "%")%char || (c =? "_")%char)) s = true ->
  forall u,
    Sql.like_chars (s ++ ["%"%char]) u = true ->
    exists s' post, u = s' ++ post /\ map Py.to_lower s = map Py.to_lower s'.
Proof.
  induction s as [|c s IH]; intros Hfree u Hlike.
  - exists [], u. split; reflexivity.
  - cbn [forallb] in Hfree. apply andb_true_iff in Hfree. destruct Hfree as [Hc Hfree].
    apply negb_true_iff, orb_false_iff in Hc. destruct Hc as [Hpct Hund].
    change ((c :: s) ++ ["%"%char]) with (c :: (s ++ ["%"%char])) in Hlike.
    cbn [Sql.like_chars] in Hlike. rewrite Hpct in Hlike.
    destruct u as [|d u]; [discriminate|].
    rewrite Hund in Hlike. cbn [orb] in Hlike.
    apply andb_true_iff in Hlike. destruct Hlike as [Hcd Hrest].
    apply Ascii.eqb_eq in Hcd.
    destruct (IH Hfree u Hrest) as (s' & post & -> & Hsame).
    exists (d :: s'), post. split; [reflexivity|].
    cbn [map]. rewrite Hcd, Hsame. reflexivity.
Qed.

Lemma like_contains_inv (s : list ascii) :
  forallb (fun c => negb ((c =? "%")%char || (c =? "_")%char)) s = true ->
  forall u,
    Sql.like_chars ("%"%char :: s ++ ["%"%char]) u = true ->
    exists pre s' post, u = pre ++ s' ++ post /\ map Py.to_lower s = map Py.to_lower s'.
Proof.
  intros Hfree. induction u as [|d u IH]; intros Hlike;
    rewrite like_percent_cases in Hlike; apply orb_true_iff in Hlike.
  - destruct Hlike as [Hhere|Hlater]; [|discriminate].
    destruct (like_prefix_inv s Hfree _ Hhere) as (s' & post & Hu & Hsame).
    exists [], s', post. split; [exact Hu | exact Hsame].
  - destruct Hlike as [Hhere|Hlater].
    + destruct (like_prefix_inv s Hfree _ Hhere) as (s' & post & Hu & Hsame).
      exists [], s', post. split; [exact Hu | exact Hsame].
    + destruct (IH Hlater) as (pre & s' & post & -> & Hsame).
      exists (d :: pre), s', post. split; [reflexivity | exact Hsame].
Qed.

Lemma like_occurrence_inv (keyword text : string) :
  wildcard_free keyword = true ->
  Sql.like text (contains_pattern keyword) = true ->
  occurs_in keyword text.
Proof.
  intros Hfree Hlike. unfold Sql.like, contains_pattern in Hlike.
  rewrite !list_ascii_of_string_app in Hlike.
  destruct (like_contains_inv _ Hfree _ Hlike) as (pre & s' & post & Htext & Hsame).
  exists (string_of_list_ascii pre), (string_of_list_ascii s'), (string_of_list_ascii post).
  split.
  - rewrite <- (string_of_list_ascii_of_string text), Htext.
    rewrite !string_of_list_ascii_app. reflexivity.
  - unfold same_up_to_case.
    rewrite <- (string_of_list_ascii_of_string (Py.lower (string_of_list_ascii s'))).
    rewrite <- (string_of_list_ascii_of_string (Py.lower keyword)).
    rewrite !lower_chars, list_ascii_of_string_of_list_ascii, Hsame. reflexivity.
Qed.

Lemma like_occurs (keyword text : string) :
  wildcard_free keyword = true ->
  Sql.like text (contains_pattern keyword) = true <-> occurs_in keyword text.
Proof.
  intros Hfree. split; [apply like_occurrence_inv; exact Hfree|].
  intros (pre & mid & post & -> & Hsame). apply like_occurrence. exact Hsame.
Qed.



(** ** Keyword search *)



(** ** Categories *)

Lemma strongly_sorted_snoc {R : Type} (rel : R -> R -> Prop) (l : list R) (x : R) :
  StronglySorted rel l -> Forall (fun y => rel y x) l -> StronglySorted rel (l ++ [x]).
Proof.
  induction 1 as [|y l Hsorted IH Hall]; intros Hx; simpl.
  - repeat constructor.
  - inversion Hx as [|? ? Hyx Hrest]; subst. constructor.
    + apply IH. exact Hrest.
    + apply Forall_app. split; [exact Hall | repeat constructor; exact Hyx].
Qed.

Lemma strongly_sorted_rev {R : Type} (rel : R -> R -> Prop) (l : list R) :
  StronglySorted rel l -> StronglySorted (fun a b => rel b a) (rev l).
Proof.
  induction 1 as [|y l Hsorted IH Hall]; simpl.
  - constructor.
  - apply strongly_sorted_snoc; [exact IH|].
    apply Forall_forall. intros z Hz. apply in_rev in Hz.
    rewrite Forall_forall in Hall. exact (Hall z Hz).
Qed.

Lemma sorted_names_asc (names : list string) :
  StronglySorted (fun a b => String.leb a b = true)
    (rev (order_by_desc (fun n => n) names)).
Proof.
  apply (strongly_sorted_rev (date_desc (fun n : string => n))).
  apply order_by_desc_strongly_sorted.
Qed.

Lemma strictly_ascending (names : list string) :
  NoDup names ->
  StronglySorted (fun a b => String.leb a b = true) names ->
  StronglySorted (fun a b => String.ltb a b = true) names.
Proof.
  intros Hnd Hsorted. induction Hsorted as [|a l Hrest IH Hall].
  - constructor.
  - inversion Hnd as [|? ? Hnotin Hnd']; subst. constructor; [apply IH; exact Hnd'|].
    apply Forall_forall. intros b Hb. rewrite Forall_forall in Hall.
    apply leb_neq_ltb; [apply Hall; exact Hb|]. intros ->. exact (Hnotin Hb).
Qed.

Lemma names_after_insert (cs : list category) (c : category) :
  NoDup (map cat_name cs) -> ~ In (cat_name c) (map cat_name cs) ->
  NoDup (map cat_name (cs ++ [c])).
Proof.
  intros Hnd Hnew. rewrite map_app. apply NoDup_app. repeat split.
  - exact Hnd.
  - simpl. constructor; [simpl; tauto | constructor].
  - intros n Hn [<-|[]]. exact (Hnew Hn).
Qed.

Lemma insert_category_names {A} `{Amount A} (seq : Z) (name : string) (t t' : tables A) :
  unique_names t -> insert_category seq name t = inr t' -> unique_names t'.
Proof.
  unfold insert_category, unique_names. intros Hnd Hins.
  destruct (existsb _ (categories t)) eqn:Hex; [discriminate|].
  injection Hins as <-. simpl. apply names_after_insert; [exact Hnd|].
  simpl. intros Hin. apply existsb_name in Hin. congruence.
Qed.

(** X9: [add_category] and the UNIQUE name.  With names unique to begin
    with: a name not yet present is appended under a fresh id and then
    listed by [get_categories]; a name already present is refused behind
    a "Duplicate Category" warning and nothing changes; and names stay
    unique whatever the engine does.  The comparison is exact, so a name
    differing in letter case counts as new. *)
Theorem add_category_unique {A} `{Amount A} (t : tables A) (seq : Z) (name : string) :
  unique_names t ->
  (~ In name (map cat_name (categories t)) ->
   let r := add_category (connect t []) seq name in
   let after := visible (self_after r) in
   returned r = true /\ shown r = None
   /\ (exists i, categories after = categories t ++ [{| cat_id := i; cat_name := name |}]
                 /\ ~ In i (map cat_id (categories t)) /\ (seq < i)%Z)
   /\ expenses after = expenses t
   /\ In name (returned (get_categories (self_after r))))
  /\ (In name (map cat_name (categories t)) ->
      let r := add_category (connect t []) seq name in
      returned r = false /\ shown r = Some (showwarning "Duplicate Category")
      /\ disk (self_after r) = t /\ visible (self_after r) = t)
  /\ (forall env, unique_names (disk (self_after (add_category (connect t env) seq name)))
                  /\ unique_names (visible (self_after (add_category (connect t env) seq name)))).
Proof.
  intros Huniq. split; [|split].
  - intros Hnew r after.
    assert (Hex : existsb (fun c => (cat_name c =? name)%string) (categories t) = false).
    { apply not_true_is_false. intros Hex. apply existsb_name in Hex. exact (Hnew Hex). }
    destruct (next_rowid_fresh (map cat_id (categories t)) seq) as (Hseq & _ & Hfresh).
    subst after r. unfold add_category, insert_category, get_categories. run_stmts.
    rewrite Hex. cbn [categories with_categories expenses].
    split; [reflexivity|]. split; [reflexivity|].
    split; [exists (next_rowid (map cat_id (categories t)) seq); auto|].
    split; [reflexivity|].
    apply listed_names. rewrite map_app. apply in_or_app. right. simpl. tauto.
  - intros Hold r.
    apply existsb_name in Hold.
    subst r. unfold add_category, insert_category. run_stmts. rewrite Hold. repeat split.
  - intros env. unfold add_category. cbn [connect cursor negb].
    pose proof (write_commit_keeps unique_names (insert_category seq name) (connect t env)
                  (insert_category_names seq name) (conj Huniq Huniq)) as K.
    destruct ((execute_write _ ;;; commit)%stmt (connect t env)) as [[[]|x] s];
      simpl in *; exact K.
Qed.

Lemma add_category_unique_witness :
  unique_names sample
  /\ returned (add_category (connect sample []) 2 "food") = true
  /\ returned (add_category (connect sample []) 2 "Food") = false
  /\ shown (add_category (connect sample []) 2 "Food")
     = Some (showwarning "Duplicate Category").
Proof.
  destruct (add_category_unique sample 2 "food" sample_unique_names) as (Hnew & _ & _).
  destruct (add_category_unique sample 2 "Food" sample_unique_names) as (_ & Hold & _).
  split; [exact sample_unique_names|].
  split; [apply Hnew; simpl; intuition discriminate|].
  split; apply Hold; simpl; tauto.
Defined.

(** X10: [get_categories] lists the names in ascending byte order (capital
    letters before small ones), each name of the table as often as the
    table holds it. *)
Theorem get_categories_ascending {A} `{Amount A} (t : tables A) :
  let names := returned (get_categories (connect t [])) in
  Permutation names (map cat_name (categories t))
  /\ StronglySorted (fun a b => String.leb a b = true) names
  /\ (unique_names t -> StronglySorted (fun a b => String.ltb a b = true) names).
Proof.
  intros names.
  assert (Hnames : names = rev (order_by_desc (fun n => n) (map cat_name (categories t))))
    by reflexivity.
  assert (Hperm : Permutation names (map cat_name (categories t))).
  { rewrite Hnames. eapply Permutation_trans; [apply Permutation_sym, Permutation_rev|].
    apply order_by_desc_perm. }
  assert (Hsorted : StronglySorted (fun a b => String.leb a b = true) names).
  { rewrite Hnames. apply sorted_names_asc. }
  split; [exact Hperm|]. split; [exact Hsorted|].
  intros Huniq.
  apply strictly_ascending; [|exact Hsorted].
  apply (Permutation_NoDup (Permutation_sym Hperm)). exact Huniq.
Qed.

(** A refused [add_category] leaves its transaction open (its handlers
    do not roll back), and a rename that follows is then refused at its
    BEGIN, behind "Database Error", even though the new name is free. *)
Remark rename_after_refused_add :
  let refused := add_category (connect sample []) 2 "Food" in
  let r := update_category (self_after refused) "Food" "Groceries" in
  returned refused = false
  /\ txn (self_after refused) = Some sample
  /\ returned r = false
  /\ shown r = database_error
  /\ visible (self_after r) = sample.
Proof. cbv zeta. repeat split. Qed.

(** ** Budgets *)

Lemma find_app {R : Type} (p : R -> bool) (l l' : list R) :
  find p (l ++ l') = match find p l with Some x => Some x | None => find p l' end.
Proof.
  induction l as [|x l IH]; simpl; [reflexivity|].
  destruct (p x); [reflexivity | exact IH].
Qed.

Lemma find_filter {R : Type} (p q : R -> bool) (l : list R) :
  (forall x, p x = true -> q x = true) -> find p (filter q l) = find p l.
Proof.
  intros Hpq. induction l as [|x l IH]; simpl; [reflexivity|].
  destruct (q x) eqn:Hq; simpl.
  - destruct (p x); [reflexivity | exact IH].
  - destruct (p x) eqn:Hp; [|exact IH]. apply Hpq in Hp. congruence.
Qed.

Lemma replaced_month_gone {A} (m : string) (bs : list (budget A)) :
  ~ In m (map month_year (filter (fun b => negb (month_year b =? m)%string) bs)).
Proof.
  intros Hin. apply in_map_iff in Hin. destruct Hin as (b & Hb & Hin).
  apply filter_In in Hin. destruct Hin as [_ Hne].
  apply negb_true_iff in Hne. apply String.eqb_neq in Hne. exact (Hne Hb).
Qed.



(** ** Income *)



Lemma update_income_row_ids {A} (income_id : Z) (date source : string)
    (amount : A) (description : option string) (rows : list (income_row A)) :
  map inc_id
    (map (fun r => if (inc_id r =? income_id)%Z
                   then Build_income_row (inc_id r) date source amount description
                   else r) rows)
  = map inc_id rows.
Proof.
  rewrite map_map. apply map_ext. intros r.
  destruct (inc_id r =? income_id)%Z; reflexivity.
Qed.



(** ** The amount entries *)

Lemma string_app_nil_r (s : string) : (s ++ "")%string = s.
Proof. induction s as [|c s IH]; simpl; [reflexivity | rewrite IH; reflexivity]. Qed.

Lemma digit_not_dot (c : ascii) : Calendar.is_digit c = true -> (c =? ".")%char = false.
Proof.
  intros Hd. apply Ascii.eqb_neq. intros ->. discriminate.
Qed.

Lemma digits_no_dot (s : string) :
  PyStr.all_digits s = true ->
  PyStr.replace_first "." s = s /\ PyStr.count "." s = 0.
Proof.
  induction s as [|c s IH]; simpl; [tauto|].
  intros Hd. apply andb_true_iff in Hd. destruct Hd as [Hc Hs].
  rewrite (digit_not_dot c Hc). destruct (IH Hs) as [-> ->]. tauto.
Qed.

Lemma all_digits_app (a b : string) :
  PyStr.all_digits (a ++ b) = PyStr.all_digits a && PyStr.all_digits b.
Proof.
  induction a as [|c a IH]; simpl; [reflexivity|].
  rewrite IH. apply andb_assoc.
Qed.

Lemma one_dot_removed (a b : string) :
  PyStr.all_digits a = true -> PyStr.all_digits b = true ->
  PyStr.replace_first "." (a ++ "." ++ b) = (a ++ b)%string
  /\ PyStr.count "." (a ++ "." ++ b) = 1.
Proof.
  intros Ha Hb. induction a as [|c a IH].
  - simpl. destruct (digits_no_dot b Hb) as [_ ->]. tauto.
  - simpl in Ha. apply andb_true_iff in Ha. destruct Ha as [Hc Ha].
    change (String c a ++ "." ++ b)%string with (String c (a ++ "." ++ b)).
    change (String c a ++ b)%string with (String c (a ++ b)).
    cbn [PyStr.replace_first PyStr.count].
    rewrite (digit_not_dot c Hc). destruct (IH Ha) as [-> ->]. tauto.
Qed.

Lemma digits_around_dot (s : string) :
  PyStr.all_digits (PyStr.replace_first "." s) = true ->
  PyStr.all_digits s = true
  \/ exists a b, s = (a ++ "." ++ b)%string
                 /\ PyStr.all_digits a = true /\ PyStr.all_digits b = true.
Proof.
  induction s as [|c s IH]; simpl; [tauto|].
  destruct (Ascii.eqb_spec c "."%char) as [->|Hc].
  - intros Hs. right. exists ""%string, s. tauto.
  - simpl. intros Hd. apply andb_true_iff in Hd. destruct Hd as [Hdc Hs].
    destruct (IH Hs) as [Hall | (a & b & -> & Ha & Hb)].
    + left. rewrite Hdc, Hall. reflexivity.
    + right. exists (String c a), b. cbn [PyStr.all_digits]. rewrite Hdc, Ha.
      repeat split; assumption.
Qed.

(** X14: what the amount entries let through.  On ASCII text the check
    accepts the empty text and otherwise exactly the texts made of
    decimal digits with at most one point among them and at least one
    digit: no sign, no exponent, no blank ever passes, and the separate
    test on the number of points never decides anything. *)
Theorem validate_numeric_input_accepts (P : string) :
  ascii_text P = true ->
  (_validate_numeric_input P = true
   <-> P = ""
       \/ exists a b, PyStr.all_digits a = true /\ PyStr.all_digits b = true
                      /\ (a ++ b)%string <> ""
                      /\ (P = (a ++ b)%string \/ P = (a ++ "." ++ b)%string))
  /\ (PyStr.isdigit (PyStr.replace_first "." P) = true -> PyStr.count "." P <= 1).
Proof.
  intros _.
  assert (Hshape : PyStr.isdigit (PyStr.replace_first "." P) = true ->
                   exists a b, PyStr.all_digits a = true /\ PyStr.all_digits b = true
                               /\ (a ++ b)%string <> ""
                               /\ (P = (a ++ b)%string \/ P = (a ++ "." ++ b)%string)).
  { unfold PyStr.isdigit. intros Hd. apply andb_true_iff in Hd. destruct Hd as [Hne Hd].
    apply negb_true_iff in Hne. apply String.eqb_neq in Hne.
    destruct (digits_around_dot P Hd) as [Hall | (a & b & -> & Ha & Hb)].
    - exists P, ""%string. destruct (digits_no_dot P Hall) as [Hsame _].
      rewrite Hsame in Hne. rewrite string_app_nil_r. tauto.
    - exists a, b. destruct (one_dot_removed a b Ha Hb) as [Hsame _].
      rewrite Hsame in Hne. tauto. }
  assert (Hcount : PyStr.isdigit (PyStr.replace_first "." P) = true ->
                   PyStr.count "." P <= 1).
  { intros Hd. destruct (Hshape Hd) as (a & b & Ha & Hb & _ & [->| ->]).
    - assert (Hab : PyStr.all_digits (a ++ b) = true) by (rewrite all_digits_app, Ha, Hb; reflexivity).
      destruct (digits_no_dot _ Hab) as [_ ->]. lia.
    - destruct (one_dot_removed a b Ha Hb) as [_ ->]. lia. }
  split; [|exact Hcount].
  unfold _validate_numeric_input. split.
  - destruct (String.eqb_spec P "") as [->|Hne]; [tauto|]. simpl.
    destruct (PyStr.isdigit (PyStr.replace_first "." P)) eqn:Hd; simpl; [|discriminate].
    intros _. right. apply Hshape. reflexivity.
  - intros [->|(a & b & Ha & Hb & Hne & Hp)]; [reflexivity|].
    assert (Hab : PyStr.all_digits (a ++ b) = true) by (rewrite all_digits_app, Ha, Hb; reflexivity).
    assert (Hd : PyStr.isdigit (PyStr.replace_first "." P) = true
                 /\ PyStr.count "." P <= 1).
    { destruct Hp as [->| ->].
      - destruct (digits_no_dot _ Hab) as [-> ->]. split; [|lia].
        unfold PyStr.isdigit. rewrite Hab. apply String.eqb_neq in Hne. rewrite Hne. reflexivity.
      - destruct (one_dot_removed a b Ha Hb) as [-> ->]. split; [|lia].
        unfold PyStr.isdigit. rewrite Hab. apply String.eqb_neq in Hne. rewrite Hne. reflexivity. }
    destruct Hd as [Hd Hc]. rewrite Hd. apply Nat.leb_le in Hc. rewrite Hc.
    rewrite orb_true_r. reflexivity.
Qed.

Lemma validate_numeric_input_accepts_witness :
  ascii_text "12.50" = true
  /\ _validate_numeric_input "12.50" = true
  /\ _validate_numeric_input "-5" = false.
Proof.
  destruct (validate_numeric_input_accepts "12.50" eq_refl) as [Hiff _].
  split; [reflexivity|]. split; [|reflexivity].
  apply Hiff. right. exists "12"%string, "50"%string.
  repeat split; [discriminate | right; reflexivity].
Defined.

(** ** The data behind the charts *)

Lemma strftime_Ym_digit (d x : string) :
  Sql.strftime_Ym d = Some x ->
  exists c rest, x = String c rest /\ Calendar.is_digit c = true.
Proof.
  unfold Sql.strftime_Ym, Sql.date_of, Calendar.read.
  destruct d as [|y1 d]; [discriminate|].
  cbn [list_ascii_of_string].
  destruct (list_ascii_of_string d)
    as [|y2 [|y3 [|y4 [|h1 [|m1 [|m2 [|h2 [|d1 [|d2 [|more rest]]]]]]]]]];
    try discriminate.
  cbn [forallb]. destruct (Calendar.is_digit y1) eqn:Hy1; [|discriminate].
  intros Hx. exists y1, (substring 0 6 d). split; [|exact Hy1].
  destruct (_ && _); [|discriminate]. destruct (Calendar.real_day _); [|discriminate].
  injection Hx as <-. reflexivity.
Qed.

Lemma filter_none {R : Type} (p : R -> bool) (l : list R) :
  (forall r, In r l -> p r = false) -> filter p l = [].
Proof.
  intros Hnone. apply filter_nothing. apply not_true_is_false. intros Hex.
  apply existsb_exists in Hex. destruct Hex as (r & Hr & Hp).
  rewrite (Hnone r Hr) in Hp. discriminate.
Qed.

(** X15: "All Years" with a month selected shows nothing.  For that
    selection the chart data are fetched with the month filter
    ["%-MM"], which the query compares for equality with the year and
    month of each date; no date gives a text starting with [%], so the
    result is empty whatever the database holds. *)
Theorem all_years_with_month_is_empty {A} `{Amount A} (self : DatabaseManager A)
    (selected_month selected_category : string) :
  selected_month <> "All" ->
  returned (get_filtered_data_for_charts self "All Years" selected_month selected_category)
  = [].
Proof.
  intros Hmonth.
  assert (Hfetched : returned (fetch_expenses self None None None None
                                 (Some ("%-" ++ selected_month)%string) None) = []).
  { unfold fetch_expenses. destruct (cursor self); [|reflexivity]. cbn [negb].
    unfold execute_read, bind, engine_step.
    destruct (faults self) as [|[] env]; try reflexivity.
    all: cbn [returned]; unfold select_where, expense_conds; cbn.
    all: rewrite filter_none; [reflexivity|].
    all: intros r _; rewrite andb_true_r.
    all: destruct (Sql.strftime_Ym (exp_date r)) as [x|] eqn:Hx; [|reflexivity].
    all: destruct (strftime_Ym_digit _ _ Hx) as (c & rest & -> & Hc).
    all: simpl; destruct (Ascii.eqb_spec c "%"%char) as [->|_]; [discriminate | reflexivity]. }
  unfold get_filtered_data_for_charts. cbn [String.eqb Ascii.eqb Bool.eqb].
  apply String.eqb_neq in Hmonth. rewrite Hmonth.
  destruct (negb (selected_category =? "All Categories")%string).
  - cbn [returned]. rewrite Hfetched. reflexivity.
  - exact Hfetched.
Qed.

Lemma all_years_with_month_is_empty_witness :
  returned (get_filtered_data_for_charts (connect sample []) "All Years" "01" "All Categories")
  = []
  /\ returned (get_filtered_data_for_charts (connect sample []) "2025" "01" "All Categories")
     = [Build_expense 2 "2025-01-15" "Uncategorized" 150%Z (Some "");
        Build_expense 1 "2025-01-10" "Food" 250%Z (Some "Lunch")].
Proof.
  split; [|reflexivity].
  apply (all_years_with_month_is_empty (connect sample []) "01" "All Categories").
  discriminate.
Defined.

Lemma iso_date_month (d : string) :
  iso_date d = true -> Sql.strftime_Ym d = Some (substring 0 7 d).
Proof.
  intros Hiso. destruct (iso_date_parsed d Hiso) as (dt & Hread & Hreal & _).
  unfold Sql.strftime_Ym, Sql.date_of. rewrite Hread, Hreal. reflexivity.
Qed.

Lemma select_where_one {R : Type} (date : R -> string) (p : R -> bool) (rows : list R)
    (row : R) :
  In row (select_where date [p] rows) <-> In row rows /\ p row = true.
Proof.
  assert (Hin : In row (select_where date [p] rows)
                <-> In row (filter (fun r => forallb (fun c => c r) [p]) rows)).
  { split; apply Permutation_in; [|apply Permutation_sym]; apply select_where_perm. }
  rewrite Hin, filter_In. cbn [forallb]. rewrite andb_true_r. tauto.
Qed.

Lemma filter_select_where_sorted {R : Type} (date : R -> string) (q : R -> bool)
    (conds : list (R -> bool)) (rows : list R) :
  StronglySorted (date_desc date) (filter q (select_where date conds rows)).
Proof.
  unfold select_where. rewrite filter_order_by_desc.
  apply order_by_desc_strongly_sorted.
Qed.

(** X16: the rows a chart is drawn from, for a year picked in the
    selector.  With dates stored as the forms write them: month "All"
    gives exactly the expenses whose date starts with the year, a month
    gives exactly those whose date starts with year-month; a category
    other than "All Categories" narrows either to the rows carrying
    exactly that category; the rows come latest date first. *)
Theorem chart_data_for_year {A} `{Amount A} (t : tables A)
    (selected_year selected_month selected_category : string) :
  Forall (fun r => iso_date (exp_date r) = true) (expenses t) ->
  selected_year <> "All Years" -> selected_year <> "" ->
  let picked (row : expense A) :=
    selected_category = "All Categories" \/ exp_category row = selected_category in
  let data m :=
    returned (get_filtered_data_for_charts (connect t []) selected_year m selected_category) in
  (forall row, In row (data "All")
               <-> In row (expenses t)
                   /\ substring 0 4 (exp_date row) = selected_year /\ picked row)
  /\ (selected_month <> "All" ->
      forall row, In row (data selected_month)
                  <-> In row (expenses t)
                      /\ substring 0 7 (exp_date row)
                         = (selected_year ++ "-" ++ selected_month)%string
                      /\ picked row)
  /\ StronglySorted (date_desc exp_date) (data selected_month).
Proof.
  intros Hiso Hall Hempty picked data.
  rewrite Forall_forall in Hiso.
  apply String.eqb_neq in Hall. apply String.eqb_neq in Hempty.
  set (by_year := fun r : expense A =>
                    Sql.eq_null (Sql.strftime_Y (exp_date r)) selected_year).
  set (by_month := fun r : expense A =>
                     Sql.eq_null (Sql.strftime_Ym (exp_date r))
                       (selected_year ++ "-" ++ selected_month)%string).
  set (by_category := fun d : expense A => (exp_category d =? selected_category)%string).
  assert (Hyear : data "All"
                  = if negb (selected_category =? "All Categories")%string
                    then filter by_category (select_where exp_date [by_year] (expenses t))
                    else select_where exp_date [by_year] (expenses t)).
  { subst data. cbv beta. unfold get_filtered_data_for_charts. rewrite Hall.
    cbn [String.eqb Ascii.eqb Bool.eqb].
    unfold fetch_expenses, expense_conds. cbn [Py.truthy arg]. rewrite Hempty, Hall.
    destruct (negb (selected_category =? "All Categories")%string); reflexivity. }
  assert (Hmonth : selected_month <> "All" ->
                   data selected_month
                   = if negb (selected_category =? "All Categories")%string
                     then filter by_category (select_where exp_date [by_month] (expenses t))
                     else select_where exp_date [by_month] (expenses t)).
  { intros Hm. apply String.eqb_neq in Hm.
    subst data. cbv beta. unfold get_filtered_data_for_charts. rewrite Hall, Hm.
    unfold fetch_expenses, expense_conds. cbn [Py.truthy arg].
    assert (Hne : ((selected_year ++ "-" ++ selected_month) =? "")%string = false).
    { apply String.eqb_neq. destruct selected_year; discriminate. }
    rewrite Hne.
    destruct (negb (selected_category =? "All Categories")%string); reflexivity. }
  assert (Hpicked : forall row,
            picked row
            <-> (negb (selected_category =? "All Categories")%string = true ->
                 by_category row = true)).
  { intros row. subst picked by_category. cbv beta.
    destruct (String.eqb_spec selected_category "All Categories") as [Heq|Hne]; simpl.
    - split; [discriminate | tauto].
    - rewrite String.eqb_eq. split; [intros [?|?]; [contradiction | auto] | auto]. }
  split; [|split].
  - intros row. rewrite Hyear, Hpicked.
    destruct (negb (selected_category =? "All Categories")%string).
    + rewrite filter_In, select_where_one. subst by_year. cbv beta. split.
      * intros [[Hrow Hy] Hc]. split; [exact Hrow|]. split; [|auto].
        rewrite (iso_date_year _ (Hiso row Hrow)) in Hy. apply String.eqb_eq. exact Hy.
      * intros (Hrow & Hy & Hc). split; [split; [exact Hrow|] | auto].
        rewrite (iso_date_year _ (Hiso row Hrow)). apply String.eqb_eq. exact Hy.
    + rewrite select_where_one. subst by_year. cbv beta. split.
      * intros [Hrow Hy]. split; [exact Hrow|]. split; [|discriminate].
        rewrite (iso_date_year _ (Hiso row Hrow)) in Hy. apply String.eqb_eq. exact Hy.
      * intros (Hrow & Hy & _). split; [exact Hrow|].
        rewrite (iso_date_year _ (Hiso row Hrow)). apply String.eqb_eq. exact Hy.
  - intros Hm row. rewrite (Hmonth Hm), Hpicked.
    destruct (negb (selected_category =? "All Categories")%string).
    + rewrite filter_In, select_where_one. subst by_month. cbv beta. split.
      * intros [[Hrow Hy] Hc]. split; [exact Hrow|]. split; [|auto].
        rewrite (iso_date_month _ (Hiso row Hrow)) in Hy. apply String.eqb_eq. exact Hy.
      * intros (Hrow & Hy & Hc). split; [split; [exact Hrow|] | auto].
        rewrite (iso_date_month _ (Hiso row Hrow)). apply String.eqb_eq. exact Hy.
    + rewrite select_where_one. subst by_month. cbv beta. split.
      * intros [Hrow Hy]. split; [exact Hrow|]. split; [|discriminate].
        rewrite (iso_date_month _ (Hiso row Hrow)) in Hy. apply String.eqb_eq. exact Hy.
      * intros (Hrow & Hy & _). split; [exact Hrow|].
        rewrite (iso_date_month _ (Hiso row Hrow)). apply String.eqb_eq. exact Hy.
  - destruct (String.eqb_spec selected_month "All") as [->|Hm].
    + rewrite Hyear. destruct (negb _);
        [apply filter_select_where_sorted | apply select_where_sorted].
    + rewrite (Hmonth Hm). destruct (negb _);
        [apply filter_select_where_sorted | apply select_where_sorted].
Qed.

Lemma sample_iso_expenses : Forall (fun r => iso_date (exp_date r) = true) (expenses sample).
Proof. repeat constructor. Qed.

Lemma chart_data_for_year_witness :
  Forall (fun r => iso_date (exp_date r) = true) (expenses sample)
  /\ In (Build_expense 1 "2025-01-10" "Food" 250%Z (Some "Lunch"))
        (returned (get_filtered_data_for_charts (connect sample []) "2025" "01" "Food"))
  /\ returned (get_filtered_data_for_charts (connect sample []) "2025" "01" "Food")
     = [Build_expense 1 "2025-01-10" "Food" 250%Z (Some "Lunch")].
Proof.
  assert (Hy : "2025" <> "All Years") by discriminate.
  assert (He : "2025" <> "") by discriminate.
  assert (Hm : "01" <> "All") by discriminate.
  pose proof (chart_data_for_year sample "2025" "01" "Food" sample_iso_expenses Hy He) as K.
  cbv zeta beta in K. destruct K as (_ & Kmonth & _).
  split; [exact sample_iso_expenses|]. split; [|reflexivity].
  apply (Kmonth Hm). simpl. tauto.
Defined.

(** ** The trend charts *)

Lemma monthly_spending_fold {A} `{Amount A} (rows : list (expense A)) :
  Forall (fun e => iso_date (exp_date e) = true) rows ->
  forall d,
    fold_left
      (fun acc exp =>
         match acc with
         | None => None
         | Some d =>
             match Py.strptime (exp_date exp) with
             | None => None
             | Some parsed => Some (dict_add (Py.strftime_Ym parsed) (exp_amount exp) d)
             end
         end)
      rows (Some d)
    = Some (fold_left (add_row month_key) rows d).
Proof.
  induction 1 as [|e rows He Hrows IH]; intros d; [reflexivity|].
  cbn [fold_left]. destruct (iso_date_fields _ He) as (dt & Hparse & _ & Hym & _).
  rewrite Hparse, Hym. apply IH.
Qed.

Lemma fetch_expenses_subset {A} (t : tables A) (env : list bool)
    (start_date end_date category year month_year keyword : option string) (e : expense A) :
  In e (returned (fetch_expenses (connect t env) start_date end_date category year
                    month_year keyword)) ->
  In e (expenses t).
Proof.
  unfold fetch_expenses. cbn [connect cursor negb]. unfold execute_read, bind, engine_step.
  cbn [faults connect]. destruct env as [|[] env]; cbn; try tauto.
  all: intros He; apply (Permutation_in e (order_by_desc_perm exp_date _)) in He.
  all: apply filter_In in He; tauto.
Qed.

Lemma chart_data_subset {A} `{Amount A} (t : tables A) (env : list bool)
    (selected_year selected_month selected_category : string) (e : expense A) :
  In e (returned (get_filtered_data_for_charts (connect t env) selected_year selected_month
                    selected_category)) ->
  In e (expenses t).
Proof.
  unfold get_filtered_data_for_charts.
  destruct (negb (selected_category =? "All Categories")%string);
    destruct (selected_year =? "All Years")%string;
    destruct (selected_month =? "All")%string; cbn [returned];
    try (intros He; apply filter_In in He; destruct He as [He _]; revert He);
    apply fetch_expenses_subset.
Qed.

Section TrendSeries.
Context {A : Type} `{Amount A}.

Variable data : list (expense A).
Hypothesis Hiso : Forall (fun e => iso_date (exp_date e) = true) data.

Lemma month_key_text (e : expense A) :
  In e data -> month_key e = substring 0 7 (exp_date e).
Proof.
  intros He. rewrite Forall_forall in Hiso.
  destruct (iso_date_fields _ (Hiso e He)) as (_ & _ & _ & _ & Hkey).
  unfold month_key. symmetry. exact Hkey.
Qed.

Lemma month_group (m : string) :
  filter (in_group month_key m) data
  = filter (fun e => (substring 0 7 (exp_date e) =? m)%string) data.
Proof.
  apply filter_ext_in. intros e He. unfold in_group. rewrite (month_key_text e He).
  reflexivity.
Qed.

Lemma plot_monthly_series :
  data <> [] ->
  exists months amounts,
    plot_monthly data = Some (plot months amounts)
    /\ StronglySorted (fun a b => String.ltb a b = true) months
    /\ (forall m, In m months
                  <-> exists e, In e data /\ substring 0 7 (exp_date e) = m)
    /\ amounts
       = map (fun m => py_sum (map exp_amount
                                 (filter (fun e => (substring 0 7 (exp_date e) =? m)%string)
                                    data)))
             months.
Proof.
  intros Hrows.
  assert (Hsome : exists e0, In e0 data /\ (List.length data =? 0) = false).
  { clear Hiso. destruct data as [|e0 rest]; [contradiction|].
    exists e0. simpl. tauto. }
  destruct Hsome as (e0 & He0 & Hlen).
  set (d := fold_left (add_row month_key) data []).
  assert (Hspend : monthly_spending data = Some d).
  { unfold monthly_spending. apply monthly_spending_fold. exact Hiso. }
  assert (Hfind : forall m,
            dict_find d m
            = if existsb (in_group month_key m) data
              then Some (py_sum (map exp_amount (filter (in_group month_key m) data)))
              else None).
  { intros m. unfold d. rewrite dict_find_fold. reflexivity. }
  assert (Hkeys : forall m, In m (map fst d)
                            <-> exists e, In e data /\ substring 0 7 (exp_date e) = m).
  { intros m. rewrite dict_find_key, Hfind. split.
    - destruct (existsb (in_group month_key m) data) eqn:Hex; [|tauto].
      intros _. apply existsb_exists in Hex. destruct Hex as (e & He & Hm).
      exists e. split; [exact He|]. unfold in_group in Hm. apply String.eqb_eq in Hm.
      rewrite <- (month_key_text e He). exact Hm.
    - intros (e & He & Hm).
      assert (Hex : existsb (in_group month_key m) data = true).
      { apply existsb_exists. exists e. split; [exact He|]. unfold in_group.
        apply String.eqb_eq. rewrite (month_key_text e He). exact Hm. }
      rewrite Hex. discriminate. }
  assert (Hnonempty : (List.length d =? 0) = false).
  { assert (Hin : In (substring 0 7 (exp_date e0)) (map fst d)).
    { apply Hkeys. exists e0. split; [exact He0 | reflexivity]. }
    destruct d as [|kv d']; [contradiction | reflexivity]. }
  exists (sorted (map fst d)), (map (fun month => dict_get d month amt_zero) (sorted (map fst d))).
  split.
  { unfold plot_monthly. rewrite Hlen, Hspend, Hnonempty. reflexivity. }
  split.
  { apply strictly_ascending; [|apply sorted_names_asc].
    unfold sorted. apply (Permutation_NoDup (l := map fst d)).
    - eapply Permutation_trans; [|apply Permutation_rev].
      apply Permutation_sym. apply order_by_desc_perm.
    - unfold d. apply fold_add_row_nodup. constructor. }
  split.
  { intros m. rewrite <- Hkeys. apply listed_names. }
  apply map_ext_in. intros m Hm. apply (proj1 (listed_names m (map fst d))) in Hm.
  rewrite dict_get_find, Hfind.
  apply dict_find_key in Hm. rewrite Hfind in Hm.
  destruct (existsb (in_group month_key m) data); [|contradiction].
  rewrite month_group. reflexivity.
Qed.

End TrendSeries.

(** X17: the two trend charts.  With dates stored as the forms write
    them and month "All" selected, neither chart fails: without rows it
    shows the "no data" notice, otherwise a line over the months in
    which its rows fall, each month once in ascending order, the value
    at a month being the sum, from 0.0 and in fetch order, of the
    amounts of the rows dated in it.  With any other month selected, or
    without a category for the category chart, only the notice is
    shown. *)
Theorem trend_charts_by_month {A} `{Amount A} (t : tables A)
    (selected_year selected_category : string) :
  Forall (fun r => iso_date (exp_date r) = true) (expenses t) ->
  let series (data : list (expense A)) (chart : option trend_chart) :=
    (data = [] /\ chart = Some no_chart_data_message)
    \/ (data <> []
        /\ exists months amounts,
             chart = Some (plot months amounts)
             /\ StronglySorted (fun a b => String.ltb a b = true) months
             /\ (forall m, In m months
                           <-> exists e, In e data /\ substring 0 7 (exp_date e) = m)
             /\ amounts
                = map (fun m =>
                         py_sum (map exp_amount
                                   (filter (fun e => (substring 0 7 (exp_date e) =? m)%string)
                                      data)))
                      months) in
  series (returned (get_filtered_data_for_charts (connect t []) selected_year "All"
                      selected_category))
         (generate_monthly_spending_trend_chart (connect t []) selected_year "All"
            selected_category)
  /\ (selected_category <> "All Categories" ->
      series (returned (fetch_expenses (connect t []) None None (Some selected_category)
                          (if negb (selected_year =? "All Years")%string
                           then Some selected_year else None)
                          None None))
             (generate_category_spending_trend_chart (connect t []) selected_year "All"
                selected_category))
  /\ (forall m, m <> "All" ->
        generate_monthly_spending_trend_chart (connect t []) selected_year m selected_category
        = Some no_chart_data_message
        /\ generate_category_spending_trend_chart (connect t []) selected_year m
             selected_category
           = Some no_chart_data_message)
  /\ (forall m, generate_category_spending_trend_chart (connect t []) selected_year m
                  "All Categories"
                = Some no_chart_data_message).
Proof.
  intros Hiso series. rewrite Forall_forall in Hiso.
  assert (Hseries : forall data, (forall e, In e data -> In e (expenses t)) ->
                                 series data (plot_monthly data)).
  { intros data Hsub. subst series. cbv beta.
    destruct data as [|e0 rest] eqn:Hdata.
    - left. split; reflexivity.
    - right. split; [discriminate|]. rewrite <- Hdata in *.
      apply plot_monthly_series.
      + apply Forall_forall. intros e He. apply Hiso. apply Hsub. exact He.
      + rewrite Hdata. discriminate. }
  split; [|split; [|split]].
  - unfold generate_monthly_spending_trend_chart. cbn [String.eqb Ascii.eqb Bool.eqb negb].
    apply Hseries. intros e. apply chart_data_subset.
  - intros Hcat. unfold generate_category_spending_trend_chart.
    apply String.eqb_neq in Hcat. rewrite Hcat. cbn [String.eqb Ascii.eqb Bool.eqb negb].
    apply Hseries. intros e. apply fetch_expenses_subset.
  - intros m Hm. apply String.eqb_neq in Hm.
    unfold generate_monthly_spending_trend_chart, generate_category_spending_trend_chart.
    rewrite Hm. cbn [negb]. split; [reflexivity|].
    destruct (selected_category =? "All Categories")%string; reflexivity.
  - intros m. reflexivity.
Qed.

Lemma trend_charts_by_month_witness :
  Forall (fun r => iso_date (exp_date r) = true) (expenses sample)
  /\ generate_monthly_spending_trend_chart (connect sample []) "2025" "All" "All Categories"
     = Some (plot ["2025-01"] [400%Z])
  /\ generate_category_spending_trend_chart (connect sample []) "2025" "01" "Food"
     = Some no_chart_data_message.
Proof.
  pose proof (trend_charts_by_month sample "2025" "Food" sample_iso_expenses) as K.
  cbv zeta beta in K. destruct K as (_ & _ & Kmonth & _).
  split; [exact sample_iso_expenses|]. split; [reflexivity|].
  apply (Kmonth "01"). discriminate.
Defined.

(** ** The year selectors *)

Lemma known_years_some (ys : list string) : known_years (map Some ys) = Some ys.
Proof. induction ys as [|y ys IH]; simpl; [reflexivity | rewrite IH; reflexivity]. Qed.

Lemma strictly_descending (years : list string) :
  NoDup years ->
  StronglySorted (date_desc (fun y : string => y)) years ->
  StronglySorted years_desc years.
Proof.
  intros Hnd Hsorted. induction Hsorted as [|a l Hrest IH Hall].
  - constructor.
  - inversion Hnd as [|? ? Hnotin Hnd']; subst. constructor; [apply IH; exact Hnd'|].
    apply Forall_forall. intros b Hb. rewrite Forall_forall in Hall.
    unfold years_desc. apply leb_neq_ltb; [apply Hall; exact Hb|].
    intros ->. exact (Hnotin Hb).
Qed.

(** X18: the year selectors always offer the current year and select it.
    With dates stored as the forms write them, both selectors list the
    current year together with every year in which an expense or an
    income entry is dated, each once, latest first (behind "All Years"
    in the analytics selector), and are set to the current year; the
    fallback range of eleven years and the "most recent year" default
    are never used. *)
Theorem year_selectors_offer_current_year {A} `{Amount A} (t : tables A) (current_year : Z) :
  Forall (fun r => iso_date (exp_date r) = true) (expenses t) ->
  Forall (fun r => iso_date (inc_date r) = true) (income t) ->
  exists years,
    _update_budget_month_year_comboboxes (connect t []) current_year
    = Some (years, Py.str current_year)
    /\ update_analytics_filters_and_chart (connect t []) current_year
       = Some ("All Years" :: years, Py.str current_year)
    /\ StronglySorted years_desc years
    /\ (forall y, In y years
                  <-> y = Py.str current_year
                      \/ (exists r, In r (expenses t) /\ substring 0 4 (exp_date r) = y)
                      \/ (exists r, In r (income t) /\ substring 0 4 (inc_date r) = y)).
Proof.
  intros Hexp Hinc.
  destruct (select_distinct_years_spec (map exp_date (expenses t))) as (ye & Hye & Hye_in & _).
  { apply Forall_forall. intros d Hd. apply in_map_iff in Hd. destruct Hd as (r & <- & Hr).
    rewrite Forall_forall in Hexp. apply iso_calendar_date. exact (Hexp r Hr). }
  destruct (select_distinct_years_spec (map inc_date (income t))) as (yi & Hyi & Hyi_in & _).
  { apply Forall_forall. intros d Hd. apply in_map_iff in Hd. destruct Hd as (r & <- & Hr).
    rewrite Forall_forall in Hinc. apply iso_calendar_date. exact (Hinc r Hr). }
  set (every := ye ++ yi ++ [Py.str current_year]).
  set (years := order_by_desc (fun y : string => y) (nodup string_dec every)).
  assert (Hall : all_years_in_db (connect t []) current_year = Some years).
  { cbv beta iota zeta delta
      [all_years_in_db get_all_expense_years get_all_income_years connect cursor negb
       execute_read bind engine_step faults returned self_after visible txn disk].
    rewrite Hye, Hyi.
    change [Some (Py.str current_year)] with (map Some [Py.str current_year]).
    rewrite <- !map_app, known_years_some. reflexivity. }
  assert (Hin : forall y, In y years <-> In y every).
  { intros y. unfold years. rewrite <- (nodup_In string_dec every y).
    split; apply Permutation_in; [|apply Permutation_sym]; apply order_by_desc_perm. }
  assert (Hcurrent : In (Py.str current_year) years).
  { apply Hin. unfold every. apply in_or_app. right. apply in_or_app. right. simpl. tauto. }
  assert (Hfound : existsb (fun y => (y =? Py.str current_year)%string) years = true).
  { apply existsb_exists. exists (Py.str current_year).
    split; [exact Hcurrent | apply String.eqb_refl]. }
  exists years. split; [|split; [|split]].
  - unfold _update_budget_month_year_comboboxes. rewrite Hall, Hfound.
    destruct years as [|y0 rest]; [contradiction | reflexivity].
  - unfold update_analytics_filters_and_chart. rewrite Hall. cbn [existsb]. rewrite Hfound.
    rewrite orb_true_r. reflexivity.
  - apply strictly_descending.
    + apply (Permutation_NoDup (l := nodup string_dec every)).
      * apply Permutation_sym. apply order_by_desc_perm.
      * apply NoDup_nodup.
    + apply order_by_desc_strongly_sorted.
  - intros y. rewrite Hin. unfold every. rewrite !in_app_iff, Hye_in, Hyi_in. split.
    + intros [Hy | [Hy | [<-|[]]]].
      * apply in_map_iff in Hy. destruct Hy as (d & Hd & Hy).
        apply in_map_iff in Hy. destruct Hy as (r & <- & Hr).
        right. left. exists r. tauto.
      * apply in_map_iff in Hy. destruct Hy as (d & Hd & Hy).
        apply in_map_iff in Hy. destruct Hy as (r & <- & Hr).
        right. right. exists r. tauto.
      * left. reflexivity.
    + intros [-> | [(r & Hr & Hy) | (r & Hr & Hy)]].
      * right. right. simpl. tauto.
      * left. apply in_map_iff. exists (exp_date r). split; [exact Hy|].
        apply in_map. exact Hr.
      * right. left. apply in_map_iff. exists (inc_date r). split; [exact Hy|].
        apply in_map. exact Hr.
Qed.

Lemma sample_iso_income : Forall (fun r => iso_date (inc_date r) = true) (income sample).
Proof. repeat constructor. Qed.

Lemma year_selectors_offer_current_year_witness :
  _update_budget_month_year_comboboxes (connect sample []) 2026
  = Some (["2026"; "2025"], "2026")
  /\ exists years,
       update_analytics_filters_and_chart (connect sample []) 2026 = Some ("All Years" :: years, "2026")
       /\ StronglySorted years_desc years.
Proof.
  destruct (year_selectors_offer_current_year sample 2026 sample_iso_expenses
              sample_iso_income) as (years & _ & Hanalytics & Hsorted & _).
  split; [reflexivity|]. exists years. split; [exact Hanalytics | exact Hsorted].
Defined.

(** ** The slices of the pie chart *)

Section Slices.
Context {A : Type} `{Arithmetic A}.

Variable total : A.

Lemma dict_set_fresh (k : string) (v : A) (d : list (string * A)) :
  ~ In k (map fst d) -> dict_set k v d = d ++ [(k, v)].
Proof.
  induction d as [|[k' x] d IH]; simpl; [reflexivity|].
  intros Hnew. destruct (String.eqb_spec k' k) as [->|Hne]; [tauto|].
  rewrite IH; [reflexivity | tauto].
Qed.

Lemma dict_find_set (k k' : string) (v : A) (d : list (string * A)) :
  dict_find (dict_set k v d) k' = if (k =? k')%string then Some v else dict_find d k'.
Proof.
  induction d as [|[k0 x] d IH]; simpl.
  - reflexivity.
  - destruct (String.eqb_spec k0 k) as [->|Hne]; simpl.
    + destruct (k =? k')%string; reflexivity.
    + rewrite IH. destruct (String.eqb_spec k k') as [->|Hne'].
      * apply String.eqb_neq in Hne. rewrite Hne. reflexivity.
      * reflexivity.
Qed.

Lemma dict_set_keys (k : string) (v : A) (d : list (string * A)) :
  NoDup (map fst d) -> NoDup (map fst (dict_set k v d)).
Proof.
  induction d as [|[k0 x] d IH]; simpl; intros Hnd.
  - constructor; [simpl; tauto | constructor].
  - inversion Hnd as [|? ? Hnotin Hrest]; subst.
    destruct (String.eqb_spec k0 k) as [->|Hne]; simpl; [exact Hnd|].
    constructor; [|apply IH; exact Hrest].
    intros Hin. apply dict_find_key in Hin. rewrite dict_find_set in Hin.
    apply not_eq_sym in Hne. apply String.eqb_neq in Hne. rewrite Hne in Hin.
    apply dict_find_key in Hin. exact (Hnotin Hin).
Qed.

Lemma filter_keys (q : string * A -> bool) (d : list (string * A)) (k : string) :
  In k (map fst (filter q d)) -> In k (map fst d).
Proof.
  intros Hin. apply in_map_iff in Hin. destruct Hin as (kv & <- & Hkv).
  apply filter_In in Hkv. apply in_map. tauto.
Qed.

Lemma dict_find_filter (q : string * A -> bool) (d : list (string * A)) (k : string) :
  NoDup (map fst d) ->
  dict_find (filter q d) k
  = match dict_find d k with
    | Some v => if q (k, v) then Some v else None
    | None => None
    end.
Proof.
  induction d as [|[k0 x] d IH]; simpl; [reflexivity|].
  intros Hnd. inversion Hnd as [|? ? Hnotin Hrest]; subst.
  destruct (String.eqb_spec k0 k) as [->|Hne].
  - destruct (q (k, x)) eqn:Hq; simpl; [rewrite String.eqb_refl; reflexivity|].
    destruct (dict_find (filter q d) k) eqn:Hfind; [|reflexivity].
    exfalso. apply Hnotin. apply (filter_keys q d). apply dict_find_key. congruence.
  - apply String.eqb_neq in Hne. destruct (q (k0, x)); simpl; [rewrite Hne|]; apply IH; exact Hrest.
Qed.

Lemma fold_slices (items : list (string * A)) :
  forall large other_sum,
    NoDup (map fst large ++ map fst items) ->
    (forall item, In item items -> percentage (snd item) total <> None) ->
    fold_left
      (fun acc item =>
         match acc with
         | None => None
         | Some (large, other_sum) =>
             match percentage (snd item) total with
             | None => None
             | Some p =>
                 if amt_ge p min_percentage
                 then Some (dict_set (fst item) (snd item) large, other_sum)
                 else Some (large, amt_add other_sum (snd item))
             end
         end)
      items (Some (large, other_sum))
    = Some (large ++ filter (is_large total) items,
            fold_left amt_add
              (map snd (filter (fun item => negb (is_large total item)) items)) other_sum).
Proof.
  induction items as [|[k v] items IH]; intros large other_sum Hnd Hdiv.
  - simpl. rewrite app_nil_r. reflexivity.
  - cbn [fold_left fst snd filter].
    assert (Hlarge : is_large total (k, v)
                     = match percentage v total with
                       | Some p => amt_ge p min_percentage
                       | None => false
                       end) by reflexivity.
    rewrite Hlarge. clear Hlarge.
    destruct (percentage v total) as [p|] eqn:Hp.
    2:{ exfalso. apply (Hdiv (k, v)); [simpl; tauto | exact Hp]. }
    destruct (amt_ge p min_percentage) eqn:Hge; cbn [negb map snd fold_left].
    + rewrite dict_set_fresh.
      * rewrite IH.
        -- rewrite <- app_assoc. reflexivity.
        -- rewrite map_app, <- app_assoc. exact Hnd.
        -- intros item Hitem. apply Hdiv. simpl. tauto.
      * intros Hin. simpl in Hnd. apply NoDup_remove_2 in Hnd. apply Hnd.
        apply in_or_app. tauto.
    + apply IH.
      * simpl in Hnd. apply NoDup_remove_1 in Hnd. exact Hnd.
      * intros item Hitem. apply Hdiv. simpl. tauto.
Qed.

End Slices.

(** X19: how the pie chart folds its small slices.  When the divisions
    succeed (the total is not zero), every category other than "Other"
    is a slice exactly when its share reaches two percent, then with its
    own total; the totals below two percent are added up, in the order
    of the categories, and if that sum is positive it is shown as the
    slice "Other", taking the place of a category of that very name
    even when that category is a large one; if not, the slices are the
    large categories in their order. *)
Theorem small_slices_become_other {A} `{Arithmetic A} (expenses : list (expense A)) :
  (forall item, In item (category_totals expenses) ->
                percentage (snd item) (total_sum expenses) <> None) ->
  let totals := category_totals expenses in
  let large := is_large (total_sum expenses) in
  let other_sum := py_sum (map snd (filter (fun item => negb (large item)) totals)) in
  exists slices,
    large_slices totals = Some slices
    /\ NoDup (map fst slices)
    /\ (forall k v, k <> "Other" ->
          (dict_find slices k = Some v
           <-> dict_find totals k = Some v /\ large (k, v) = true))
    /\ (amt_gt other_sum amt_zero = true -> dict_find slices "Other" = Some other_sum)
    /\ (amt_gt other_sum amt_zero = false -> slices = filter large totals).
Proof.
  intros Hdiv totals large other_sum.
  assert (Hnd : NoDup (map fst totals)).
  { apply (fold_add_row_nodup group_key expenses []). constructor. }
  assert (Hrun : large_slices totals
                 = if amt_gt other_sum amt_zero
                   then Some (dict_set "Other" other_sum (filter large totals))
                   else Some (filter large totals)).
  { unfold large_slices.
    rewrite (fold_slices (py_sum (map snd totals)) totals [] amt_zero Hnd Hdiv).
    reflexivity. }
  assert (Hlarge : forall k v,
            dict_find (filter large totals) k = Some v
            <-> dict_find totals k = Some v /\ large (k, v) = true).
  { intros k v. rewrite (dict_find_filter large totals k Hnd).
    destruct (dict_find totals k) as [x|]; [|split; [discriminate | intros [? _]; discriminate]].
    destruct (large (k, x)) eqn:Hx.
    - split; [intros [= ->]; tauto | intros [[= ->] _]; reflexivity].
    - split; [discriminate | intros [[= ->] Hv]; congruence]. }
  destruct (amt_gt other_sum amt_zero) eqn:Hgt.
  - exists (dict_set "Other" other_sum (filter large totals)).
    split; [exact Hrun|]. split.
    { apply dict_set_keys. apply filter_key_nodup. exact Hnd. }
    split.
    { intros k v Hk. rewrite dict_find_set.
      apply not_eq_sym in Hk. apply String.eqb_neq in Hk. rewrite Hk. apply Hlarge. }
    split; [|discriminate].
    intros _. rewrite dict_find_set, String.eqb_refl. reflexivity.
  - exists (filter large totals).
    split; [exact Hrun|]. split; [apply filter_key_nodup; exact Hnd|].
    split; [intros k v _; apply Hlarge|].
    split; [discriminate | reflexivity].
Qed.

Lemma small_slices_become_other_witness :
  let es : list (expense float) :=
    [Build_expense 1 "2025-01-10" "other" 100%float None;
     Build_expense 2 "2025-01-11" "Snacks" 1%float None] in
  category_totals es = [("Other", 100%float); ("Snacks", 1%float)]
  /\ large_slices (category_totals es) = Some [("Other", 1%float)]
  /\ exists slices, large_slices (category_totals es) = Some slices
                    /\ NoDup (map fst slices).
Proof.
  intros es.
  assert (Hdiv : forall item, In item (category_totals es) ->
                              percentage (snd item) (total_sum es) <> None).
  { intros item Hin. vm_compute in Hin. destruct Hin as [<-|[<-|[]]]; vm_compute; discriminate. }
  destruct (small_slices_become_other es Hdiv) as (slices & Hrun & Hnd & _).
  split; [vm_compute; reflexivity|]. split; [vm_compute; reflexivity|].
  exists slices. split; [exact Hrun | exact Hnd].
Defined.

(** ** Importing *)

Section Importing.
Context {A : Type} `{Amount A}.

Local Open Scope stmt_scope.

Lemma bind_done {X Y : Type} (m : stmt X) (k : X -> stmt Y) (db db' : DatabaseManager A)
    (x : X) :
  m db = (inr x, db') -> bind m k db = k x db'.
Proof. intros Hm. unfold bind. rewrite Hm. reflexivity. Qed.

Lemma bind_failed {X Y : Type} (m : stmt X) (k : X -> stmt Y) (db db' : DatabaseManager A)
    (e : sqlite_error) :
  m db = (inl e, db') -> bind m k db = (inl e, db').
Proof. intros Hm. unfold bind. rewrite Hm. reflexivity. Qed.

Lemma execute_write_pending (w : tables A -> sqlite_error + tables A)
    (db : DatabaseManager A) (p : tables A) :
  txn db = Some p ->
  disk (snd (execute_write w db)) = disk db
  /\ match fst (execute_write w db) with
     | inr _ => exists p', w p = inr p' /\ txn (snd (execute_write w db)) = Some p'
     | inl _ => True
     end
  /\ (faults db = [] -> forall p', w p = inr p' ->
      execute_write w db
      = (inr tt, {| cursor := cursor db; disk := disk db; txn := Some p'; faults := [] |})).
Proof.
  intros Hp. destruct db as [c d pend env]. simpl in Hp. subst pend.
  unfold execute_write, bind, implicit_begin, engine_step, apply_write, visible.
  cbn [txn faults cursor disk].
  destruct env as [|[] env]; cbn [fst snd disk txn].
  - destruct (w p) as [e|p'] eqn:Hw; cbn [fst snd disk txn].
    + repeat split; auto. intros _ p' [=].
    + repeat split; eauto. intros _ p'' [= <-]. reflexivity.
  - repeat split; auto. intros [=].
  - destruct (w p) as [e|p'] eqn:Hw; cbn [fst snd disk txn].
    + repeat split; auto. intros [=].
    + repeat split; eauto. intros [=].
Qed.

Lemma execute_all_pending (statements : list (tables A -> sqlite_error + tables A)) :
  forall (db : DatabaseManager A) (p : tables A),
    txn db = Some p ->
    disk (snd (execute_all statements db)) = disk db
    /\ match fst (execute_all statements db) with
       | inr _ => exists p', apply_all statements p = inr p'
                             /\ txn (snd (execute_all statements db)) = Some p'
       | inl _ => True
       end
    /\ (faults db = [] -> forall p', apply_all statements p = inr p' ->
        execute_all statements db
        = (inr tt, {| cursor := cursor db; disk := disk db; txn := Some p'; faults := [] |})).
Proof.
  induction statements as [|w rest IH]; intros db p Hp.
  - cbn [execute_all apply_all fst snd]. split; [reflexivity|]. split; [eauto|].
    intros Henv p' [= <-]. destruct db as [c d pend env]. simpl in *. subst. reflexivity.
  - cbn [execute_all apply_all].
    destruct (execute_write_pending w db p Hp) as (Hdisk & Hres & Hclean).
    destruct (execute_write w db) as [[e|[]] db1] eqn:Hrun; cbn [fst snd] in *.
    + rewrite (bind_failed _ _ _ _ _ Hrun). cbn [fst snd].
      split; [exact Hdisk|]. split; [exact I|].
      intros Henv p' Hall. destruct (w p) as [e'|p1] eqn:Hw; [discriminate|].
      specialize (Hclean Henv p1 eq_refl). discriminate.
    + rewrite (bind_done _ _ _ _ _ Hrun).
      destruct Hres as (p1 & Hw & Hp1). rewrite Hw.
      destruct (IH db1 p1 Hp1) as (Hdisk' & Hres' & Hclean').
      split; [rewrite Hdisk'; exact Hdisk|]. split; [exact Hres'|].
      intros Henv p' Hall. specialize (Hclean Henv p1 Hw).
      injection Hclean as ->. exact (Hclean' eq_refl p' Hall).
Qed.

Lemma import_core (statements : list (tables A -> sqlite_error + tables A))
    (t : tables A) (env : list bool) :
  let db := {| cursor := true; disk := t; txn := Some t; faults := env |} in
  let run := (execute_all statements ;;; commit) db in
  match fst run with
  | inr _ => apply_all statements t = inr (disk (snd run)) /\ txn (snd run) = None
  | inl _ => disk (snd run) = t
  end
  /\ (env = [] -> ((exists u, fst run = inr u) <-> exists t', apply_all statements t = inr t')).
Proof.
  intros db run.
  destruct (execute_all_pending statements db t eq_refl) as (Hdisk & Hres & Hclean).
  destruct (execute_all statements db) as [[e|[]] db1] eqn:Hrun; cbn [fst snd] in *.
  - assert (Hfail : run = (inl e, db1))
      by exact (bind_failed (execute_all statements) (fun _ => commit) db db1 e Hrun).
    rewrite Hfail. cbn [fst snd]. split; [exact Hdisk|].
    intros Henv. split; [intros (u & [=])|].
    intros (t' & Ht'). specialize (Hclean Henv t' Ht'). discriminate.
  - destruct Hres as (p' & Hall & Hp').
    assert (Hdone : run = commit db1)
      by exact (bind_done (execute_all statements) (fun _ => commit) db db1 tt Hrun).
    rewrite Hdone. clear Hdone Hrun run.
    destruct db1 as [c1 d1 pend1 env1]. cbn [disk txn] in Hdisk, Hp'. subst d1 pend1.
    split.
    + destruct env1 as [|[] env1]; cbn.
      * split; [exact Hall | reflexivity].
      * reflexivity.
      * split; [exact Hall | reflexivity].
    + intros Henv. specialize (Hclean Henv p' Hall). injection Hclean as -> ->.
      cbn. split; eauto.
Qed.

Lemma begin_on_connect (t : tables A) (env : list bool) :
  begin_transaction (connect t env)
  = match env with
    | [] => (inr tt, {| cursor := true; disk := t; txn := Some t; faults := [] |})
    | true :: env' => (inl OperationalError, connect t env')
    | false :: env' => (inr tt, {| cursor := true; disk := t; txn := Some t; faults := env' |})
    end.
Proof. destruct env as [|[] env']; reflexivity. Qed.

End Importing.

(** X20: an import is all or nothing.  Whatever the engine does and
    whatever the file holds, [import_database] ends with no transaction
    open and either commits, the database then being the old one with
    every statement of the four loops applied in order, or fails behind
    an "Import Error" box with the database exactly as it was; without
    engine failures it commits exactly when no statement is refused. *)
Theorem import_database_all_or_nothing {A} `{Amount A} (t : tables A) (env : list bool)
    (seq : Z) (temp_expenses : list (expense A)) (temp_income : list (income_row A))
    (temp_categories : list category) (temp_budgets : list (budget A)) :
  let statements :=
    import_statements seq temp_expenses temp_income temp_categories temp_budgets in
  let r := import_database (connect t env) seq temp_expenses temp_income temp_categories
             temp_budgets in
  txn (self_after r) = None
  /\ (returned r = false -> shown r = import_error)
  /\ (returned r = true -> apply_all statements t = inr (disk (self_after r)))
  /\ (returned r = false -> disk (self_after r) = t)
  /\ (env = [] -> (returned r = true <-> exists t', apply_all statements t = inr t')).
Proof.
  intros statements r. subst r. unfold import_database. cbn [connect cursor negb].
  fold statements. fold (connect t env). rewrite begin_on_connect.
  destruct env as [|[] env].
  - destruct (import_core statements t []) as [Hcore Hclean]. cbv zeta in Hcore, Hclean.
    specialize (Hclean eq_refl).
    destruct ((execute_all statements ;;; commit)%stmt
                {| cursor := true; disk := t; txn := Some t; faults := [] |})
      as [[e|u] s]; cbn [fst snd returned shown self_after] in *.
    + split; [reflexivity|]. split; [reflexivity|]. split; [discriminate|].
      split; [intros _; exact Hcore|]. intros _. split; [discriminate|].
      intros Hok. apply Hclean in Hok. destruct Hok as (u & [=]).
    + destruct Hcore as [Hall Htxn].
      split; [exact Htxn|]. split; [discriminate|]. split; [intros _; exact Hall|].
      split; [discriminate|]. intros _. split; [eauto | reflexivity].
  - cbn [returned shown self_after connect txn disk].
    split; [reflexivity|]. split; [reflexivity|]. split; [discriminate|].
    split; [reflexivity|]. discriminate.
  - destruct (import_core statements t env) as [Hcore _]. cbv zeta in Hcore.
    destruct ((execute_all statements ;;; commit)%stmt
                {| cursor := true; disk := t; txn := Some t; faults := env |})
      as [[e|u] s]; cbn [fst snd returned shown self_after] in *.
    + split; [reflexivity|]. split; [reflexivity|]. split; [discriminate|].
      split; [intros _; exact Hcore|]. discriminate.
    + destruct Hcore as [Hall Htxn].
      split; [exact Htxn|]. split; [discriminate|]. split; [intros _; exact Hall|].
      split; discriminate.
Qed.

Section Merging.
Context {R : Type} (id : R -> Z).

Lemma place_perm (row : R) (rows : list R) : Permutation (place id row rows) (row :: rows).
Proof.
  induction rows as [|x rows IH]; simpl; [apply Permutation_refl|].
  destruct (id row <? id x)%Z; [apply Permutation_refl|].
  eapply Permutation_trans; [apply perm_skip; exact IH | apply perm_swap].
Qed.

Lemma upsert_In (row : R) (rows : list R) (x : R) :
  In x (upsert id row rows) <-> x = row \/ (In x rows /\ id x <> id row).
Proof.
  unfold upsert. split.
  - intros Hin. apply (Permutation_in x (place_perm row _)) in Hin.
    destruct Hin as [<-|Hin]; [tauto|]. apply filter_In in Hin. destruct Hin as [Hin Hne].
    apply negb_true_iff in Hne. apply Z.eqb_neq in Hne. tauto.
  - intros Hx. apply (Permutation_in x (Permutation_sym (place_perm row _))).
    destruct Hx as [->|[Hin Hne]]; [simpl; tauto|]. right. apply filter_In.
    split; [exact Hin|]. apply negb_true_iff. apply Z.eqb_neq. exact Hne.
Qed.

Lemma upsert_nodup (row : R) (rows : list R) :
  NoDup (map id rows) -> NoDup (map id (upsert id row rows)).
Proof.
  intros Hnd. unfold upsert.
  apply (Permutation_NoDup (l := id row :: map id (filter (fun r => negb (id r =? id row)%Z) rows))).
  - apply Permutation_sym. apply (Permutation_map id (place_perm row _)).
  - constructor.
    + intros Hin. apply in_map_iff in Hin. destruct Hin as (x & Hx & Hin).
      apply filter_In in Hin. destruct Hin as [_ Hne].
      apply negb_true_iff in Hne. apply Z.eqb_neq in Hne. contradiction.
    + apply filter_key_nodup. exact Hnd.
Qed.

Lemma merge_In (temp : list R) :
  forall rows x,
    In x (fold_left (fun acc e => upsert id e acc) temp rows) ->
    In x temp \/ (In x rows /\ ~ In (id x) (map id temp)).
Proof.
  induction temp as [|e temp IH]; intros rows x; simpl; [tauto|].
  intros Hin. apply IH in Hin. destruct Hin as [Hin|[Hin Hnot]]; [tauto|].
  apply upsert_In in Hin. destruct Hin as [->|[Hin Hne]]; [tauto|].
  right. split; [exact Hin|]. intros [Heq|Hmore]; [congruence | contradiction].
Qed.

Lemma merge_keeps (temp : list R) :
  forall rows x,
    In x rows -> ~ In (id x) (map id temp) ->
    In x (fold_left (fun acc e => upsert id e acc) temp rows).
Proof.
  induction temp as [|e temp IH]; intros rows x Hin Hnot; simpl; [exact Hin|].
  simpl in Hnot. apply IH; [|tauto]. apply upsert_In. right. split; [exact Hin|].
  intros Heq. apply Hnot. left. symmetry. exact Heq.
Qed.

Lemma merge_new (temp : list R) :
  NoDup (map id temp) ->
  forall rows e, In e temp -> In e (fold_left (fun acc e => upsert id e acc) temp rows).
Proof.
  induction temp as [|e0 temp IH]; intros Hnd rows e Hin; [contradiction|].
  simpl in Hnd. inversion Hnd as [|? ? Hnotin Hrest]; subst. simpl.
  destruct Hin as [->|Hin].
  - apply merge_keeps; [|exact Hnotin]. apply upsert_In. tauto.
  - apply IH; assumption.
Qed.

Lemma merge_nodup (temp : list R) :
  forall rows,
    NoDup (map id rows) ->
    NoDup (map id (fold_left (fun acc e => upsert id e acc) temp rows)).
Proof.
  induction temp as [|e temp IH]; intros rows Hnd; simpl; [exact Hnd|].
  apply IH. apply upsert_nodup. exact Hnd.
Qed.

Lemma merge_bound (temp : list R) :
  forall rows s,
    Forall (fun x => (id x <= s)%Z) rows ->
    Forall (fun x => (id x <= fold_left (fun s e => Z.max s (id e)) temp s)%Z)
      (fold_left (fun acc e => upsert id e acc) temp rows).
Proof.
  induction temp as [|e temp IH]; intros rows s Hle; simpl; [exact Hle|].
  apply IH. apply Forall_forall. intros x Hx. apply upsert_In in Hx.
  destruct Hx as [->|[Hx _]]; [lia|]. rewrite Forall_forall in Hle. specialize (Hle x Hx). lia.
Qed.

End Merging.

Lemma or_ignore_prefix (seq : Z) (name : string) (cs : list category) :
  exists added, or_ignore seq name cs = cs ++ added.
Proof.
  unfold or_ignore. destruct (existsb _ cs).
  - exists []. rewrite app_nil_r. reflexivity.
  - eexists. reflexivity.
Qed.

Lemma or_ignore_names (seq : Z) (name : string) (cs : list category) (n : string) :
  In n (map cat_name (or_ignore seq name cs)) <-> In n (map cat_name cs) \/ n = name.
Proof.
  unfold or_ignore. destruct (existsb _ cs) eqn:Hex.
  - apply existsb_name in Hex. split; [tauto|]. intros [Hin| ->]; assumption.
  - rewrite map_app, in_app_iff. simpl. split; [intros [?|[<-|[]]]; tauto | intros [?| ->]; tauto].
Qed.

Lemma or_ignore_unique (seq : Z) (name : string) (cs : list category) :
  NoDup (map cat_name cs) -> NoDup (map cat_name (or_ignore seq name cs)).
Proof.
  intros Hnd. unfold or_ignore. destruct (existsb _ cs) eqn:Hex; [exact Hnd|].
  apply names_after_insert; [exact Hnd|]. simpl. intros Hin.
  apply existsb_name in Hin. congruence.
Qed.

Lemma names_merged (temp : list category) :
  forall seq cs,
    (exists added, merge_categories seq temp cs = cs ++ added)
    /\ (forall n, In n (map cat_name (merge_categories seq temp cs))
                  <-> In n (map cat_name cs) \/ In n (map cat_name temp))
    /\ (NoDup (map cat_name cs) ->
        NoDup (map cat_name (merge_categories seq temp cs))).
Proof.
  induction temp as [|c temp IH]; intros seq cs; simpl.
  - split; [exists []; rewrite app_nil_r; reflexivity|]. split; [tauto | auto].
  - destruct (IH (seq + 1)%Z (or_ignore seq (cat_name c) cs))
      as ((added & Hadded) & Hnames & Hnd).
    destruct (or_ignore_prefix seq (cat_name c) cs) as (first & Hfirst).
    split; [|split].
    + exists (first ++ added). rewrite Hadded, Hfirst, app_assoc. reflexivity.
    + intros n. rewrite Hnames, or_ignore_names. split.
      * intros [[?| ->]|?]; tauto.
      * intros [?|[<-|?]]; tauto.
    + intros Huniq. apply Hnd. apply or_ignore_unique. exact Huniq.
Qed.

Lemma max_rowid_le (ids : list Z) (seq : Z) :
  (0 <= seq)%Z -> Forall (fun i => (i <= seq)%Z) ids -> (fold_right Z.max 0 ids <= seq)%Z.
Proof.
  intros Hseq Hle. induction Hle as [|i ids Hi _ IH]; simpl; lia.
Qed.

(** With the counter at least every id, a row written by the loop takes
    the id one past the counter. *)
Lemma or_ignore_ids (seq : Z) (name : string) (cs : list category) :
  (0 <= seq)%Z ->
  Forall (fun c => (cat_id c <= seq)%Z) cs ->
  NoDup (map cat_id cs) ->
  Forall (fun c => (cat_id c <= seq + 1)%Z) (or_ignore seq name cs)
  /\ NoDup (map cat_id (or_ignore seq name cs))
  /\ (forall c, In c (or_ignore seq name cs) -> In c cs \/ cat_id c = (seq + 1)%Z).
Proof.
  intros Hseq Hle Hnd.
  assert (Hup : Forall (fun c => (cat_id c <= seq + 1)%Z) cs).
  { apply (Forall_impl _ (P := fun c => (cat_id c <= seq)%Z)); [intros c Hc; lia | exact Hle]. }
  unfold or_ignore. destruct (existsb _ cs).
  - split; [exact Hup|]. split; [exact Hnd | tauto].
  - assert (Hnext : next_rowid (map cat_id cs) seq = (seq + 1)%Z).
    { unfold next_rowid.
      assert (Hmax : (fold_right Z.max 0 (map cat_id cs) <= seq)%Z).
      { apply max_rowid_le; [exact Hseq|]. apply Forall_map. exact Hle. }
      lia. }
    rewrite Hnext. split; [|split].
    + apply Forall_app. split; [exact Hup|]. constructor; [simpl; lia | constructor].
    + rewrite map_app. apply NoDup_app. repeat split.
      * exact Hnd.
      * simpl. constructor; [simpl; tauto | constructor].
      * intros i Hi [<-|[]]. apply in_map_iff in Hi. destruct Hi as (c & Hc & Hin).
        rewrite Forall_forall in Hle. specialize (Hle c Hin). simpl in Hc. lia.
    + intros c Hin. apply in_app_iff in Hin. destruct Hin as [Hin|[<-|[]]]; [tauto|].
      right. reflexivity.
Qed.

Lemma ids_merged (temp : list category) :
  forall seq cs,
    (0 <= seq)%Z ->
    Forall (fun c => (cat_id c <= seq)%Z) cs ->
    NoDup (map cat_id cs) ->
    NoDup (map cat_id (merge_categories seq temp cs))
    /\ (forall c, In c (merge_categories seq temp cs) ->
          In c cs \/ (seq < cat_id c <= seq + Z.of_nat (List.length temp))%Z).
Proof.
  induction temp as [|cat temp IH]; intros seq cs Hseq Hle Hnd.
  - simpl. split; [exact Hnd | tauto].
  - cbn [merge_categories].
    destruct (or_ignore_ids seq (cat_name cat) cs Hseq Hle Hnd) as (Hle' & Hnd' & Hfrom).
    destruct (IH (seq + 1)%Z (or_ignore seq (cat_name cat) cs)) as [Hnodup Hin];
      [lia | exact Hle' | exact Hnd' |].
    split; [exact Hnodup|].
    intros c Hc. destruct (Hin c Hc) as [Hold|Hnew].
    + destruct (Hfrom c Hold) as [?|Hid]; [tauto|].
      right. cbn [List.length]. lia.
    + right. cbn [List.length]. lia.
Qed.

Lemma upsert_budget_months {A} (b : budget A) (bs : list (budget A)) :
  NoDup (map month_year bs) -> NoDup (map month_year (upsert_budget b bs)).
Proof.
  intros Hnd. unfold upsert_budget.
  set (kept := filter _ bs).
  apply (Permutation_NoDup (l := month_year b :: map month_year kept)).
  - apply Permutation_sym. apply (Permutation_map month_year (place_perm bud_id b kept)).
  - constructor.
    + intros Hin. apply in_map_iff in Hin. destruct Hin as (x & Hx & Hin).
      apply filter_In in Hin. destruct Hin as [_ Hne].
      apply andb_true_iff in Hne. destruct Hne as [_ Hne].
      apply negb_true_iff in Hne. apply String.eqb_neq in Hne. contradiction.
    + apply filter_key_nodup. exact Hnd.
Qed.

Lemma months_merged {A} (temp : list (budget A)) :
  forall bs,
    NoDup (map month_year bs) ->
    NoDup (map month_year (fold_left (fun acc b => upsert_budget b acc) temp bs)).
Proof.
  induction temp as [|b temp IH]; intros bs Hnd; simpl; [exact Hnd|].
  apply IH. apply upsert_budget_months. exact Hnd.
Qed.

Section Loops.
Context {A : Type} `{Amount A}.

Lemma apply_all_app (first rest : list (tables A -> sqlite_error + tables A)) (t : tables A) :
  apply_all (first ++ rest) t
  = match apply_all first t with
    | inr t' => apply_all rest t'
    | inl e => inl e
    end.
Proof.
  revert t. induction first as [|w first IH]; intros t; simpl; [reflexivity|].
  destruct (w t); [reflexivity | apply IH].
Qed.

Lemma apply_expenses (temp : list (expense A)) :
  forall t,
    Forall (fun e => amt_is_nan (exp_amount e) = false) temp ->
    apply_all (map replace_expense temp) t
    = inr {| expenses := fold_left (fun acc e => upsert exp_id e acc) temp (expenses t);
             expenses_seq := fold_left (fun s e => Z.max s (exp_id e)) temp (expenses_seq t);
             income := income t;
             budgets := budgets t;
             categories := categories t |}.
Proof.
  induction temp as [|e temp IH]; intros t Hnum.
  - destruct t; reflexivity.
  - inversion Hnum as [|? ? He Hrest]; subst. cbn [map apply_all].
    unfold replace_expense at 1. rewrite He. rewrite (IH _ Hrest). reflexivity.
Qed.

Lemma apply_income (temp : list (income_row A)) :
  forall t,
    Forall (fun e => amt_is_nan (inc_amount e) = false) temp ->
    apply_all (map replace_income temp) t
    = inr (with_income t (fold_left (fun acc e => upsert inc_id e acc) temp (income t))).
Proof.
  induction temp as [|e temp IH]; intros t Hnum.
  - destruct t; reflexivity.
  - inversion Hnum as [|? ? He Hrest]; subst. cbn [map apply_all].
    unfold replace_income at 1. rewrite He. rewrite (IH _ Hrest). reflexivity.
Qed.

Lemma apply_categories (temp : list category) :
  forall (seq : Z) (t : tables A),
    apply_all (category_statements seq temp) t
    = inr (with_categories t (merge_categories seq temp (categories t))).
Proof.
  induction temp as [|c temp IH]; intros seq t.
  - destruct t; reflexivity.
  - cbn [category_statements apply_all merge_categories].
    unfold insert_or_ignore_category at 1. rewrite IH. reflexivity.
Qed.

Lemma apply_budgets (temp : list (budget A)) :
  forall t,
    Forall (fun b => amt_is_nan (budget_amount b) = false) temp ->
    apply_all (map replace_budget_row temp) t
    = inr (with_budgets t (fold_left (fun acc b => upsert_budget b acc) temp (budgets t))).
Proof.
  induction temp as [|b temp IH]; intros t Hnum.
  - destruct t; reflexivity.
  - inversion Hnum as [|? ? Hb Hrest]; subst. cbn [map apply_all].
    unfold replace_budget_row at 1. rewrite Hb. rewrite (IH _ Hrest). reflexivity.
Qed.

Lemma import_result (t : tables A) (seq : Z) (temp_expenses : list (expense A))
    (temp_income : list (income_row A)) (temp_categories : list category)
    (temp_budgets : list (budget A)) :
  Forall (fun e => amt_is_nan (exp_amount e) = false) temp_expenses ->
  Forall (fun e => amt_is_nan (inc_amount e) = false) temp_income ->
  Forall (fun b => amt_is_nan (budget_amount b) = false) temp_budgets ->
  apply_all (import_statements seq temp_expenses temp_income temp_categories temp_budgets) t
  = inr {| expenses := fold_left (fun acc e => upsert exp_id e acc) temp_expenses (expenses t);
           expenses_seq := fold_left (fun s e => Z.max s (exp_id e)) temp_expenses
                             (expenses_seq t);
           income := fold_left (fun acc e => upsert inc_id e acc) temp_income (income t);
           budgets := fold_left (fun acc b => upsert_budget b acc) temp_budgets (budgets t);
           categories := merge_categories seq temp_categories (categories t) |}.
Proof.
  intros He Hi Hb. unfold import_statements.
  rewrite apply_all_app, (apply_expenses _ _ He).
  rewrite apply_all_app, (apply_income _ _ Hi).
  rewrite apply_all_app, apply_categories.
  rewrite (apply_budgets _ _ Hb). reflexivity.
Qed.

End Loops.

(** X21: what an import merges.  When every imported amount is a number
    the import succeeds and: an expense of the file replaces the local
    expense of the same id; local expenses of other ids stay; every
    expense afterwards is one of the two; if the file's ids are distinct
    all its expenses are present afterwards; ids stay unique and below
    the counter.  Categories are merged by name: the local rows stay as
    they are, the names afterwards are the local and the imported ones,
    each once; a row written for a new name takes an id past the
    counter, and since a skipped name uses up an id as well, the ids of
    the table stay distinct (with gaps).  Budget months stay unique. *)
Theorem import_database_merges {A} `{Amount A} (t : tables A) (seq : Z)
    (temp_expenses : list (expense A)) (temp_income : list (income_row A))
    (temp_categories : list category) (temp_budgets : list (budget A)) :
  Forall (fun e => amt_is_nan (exp_amount e) = false) temp_expenses ->
  Forall (fun e => amt_is_nan (inc_amount e) = false) temp_income ->
  Forall (fun b => amt_is_nan (budget_amount b) = false) temp_budgets ->
  let r := import_database (connect t []) seq temp_expenses temp_income temp_categories
             temp_budgets in
  let after := disk (self_after r) in
  returned r = true
  /\ (forall e, In e (expenses after) ->
                In e temp_expenses
                \/ (In e (expenses t) /\ ~ In (exp_id e) (map exp_id temp_expenses)))
  /\ (forall e, In e (expenses t) -> ~ In (exp_id e) (map exp_id temp_expenses) ->
                In e (expenses after))
  /\ (NoDup (map exp_id temp_expenses) ->
      forall e, In e temp_expenses -> In e (expenses after))
  /\ (primary_key t -> primary_key after)
  /\ (exists added, categories after = categories t ++ added)
  /\ (forall n, In n (map cat_name (categories after))
                <-> In n (map cat_name (categories t))
                    \/ In n (map cat_name temp_categories))
  /\ (unique_names t -> unique_names after)
  /\ (unique_months t -> unique_months after)
  /\ ((0 <= seq)%Z ->
      Forall (fun c => (cat_id c <= seq)%Z) (categories t) ->
      NoDup (map cat_id (categories t)) ->
      NoDup (map cat_id (categories after))
      /\ (forall c, In c (categories after) ->
            In c (categories t)
            \/ (seq < cat_id c <= seq + Z.of_nat (List.length temp_categories))%Z)).
Proof.
  intros He Hi Hb r after.
  pose proof (import_result t seq temp_expenses temp_income temp_categories temp_budgets
                He Hi Hb) as Hresult.
  destruct (import_core
              (import_statements seq temp_expenses temp_income temp_categories temp_budgets)
              t []) as [Hcore Hclean].
  cbv zeta in Hcore, Hclean. specialize (Hclean eq_refl).
  assert (Hrun : returned r = true
                 /\ apply_all (import_statements seq temp_expenses temp_income
                                 temp_categories temp_budgets) t = inr after).
  { subst after r. unfold import_database. cbn [connect cursor negb].
    fold (connect t []). rewrite begin_on_connect.
    destruct ((execute_all _ ;;; commit)%stmt
                {| cursor := true; disk := t; txn := Some t; faults := [] |})
      as [[e|u] s]; cbn [fst snd returned shown self_after] in *.
    - exfalso. assert (Hok : exists u, @inl sqlite_error unit e = inr u).
      { apply Hclean. eexists. exact Hresult. }
      destruct Hok as (u & [=]).
    - split; [reflexivity | apply Hcore]. }
  destruct Hrun as [Hreturned Hafter]. rewrite Hresult in Hafter.
  injection Hafter as Hafter. clearbody after. subst after. cbn [expenses categories budgets].
  destruct (names_merged temp_categories seq (categories t)) as (Hprefix & Hnames & Hunique).
  split; [exact Hreturned|].
  split; [intros e; apply merge_In|].
  split; [intros e; apply merge_keeps|].
  split; [intros Hnd e; apply merge_new; exact Hnd|].
  split.
  { intros [Hnd Hle]. split; cbn [expenses expenses_seq].
    - apply merge_nodup. exact Hnd.
    - apply Forall_forall. intros i Hi'. apply in_map_iff in Hi'.
      destruct Hi' as (x & <- & Hx).
      assert (Hrows : Forall (fun x => (exp_id x <= expenses_seq t)%Z) (expenses t)).
      { apply Forall_forall. intros y Hy. rewrite Forall_forall in Hle. apply Hle.
        apply in_map. exact Hy. }
      pose proof (merge_bound exp_id temp_expenses (expenses t) (expenses_seq t) Hrows) as K.
      rewrite Forall_forall in K. exact (K x Hx). }
  split; [exact Hprefix|]. split; [exact Hnames|].
  split; [exact Hunique|].
  split; [unfold unique_months; cbn [budgets]; apply months_merged|].
  intros Hseq Hle Hnd. apply ids_merged; assumption.
Qed.

Lemma import_database_merges_witness :
  let r := import_database (connect sample []) 2
             [Build_expense 2 "2025-01-15" "Rent" 900%Z None;
              Build_expense 7 "2025-03-01" "Fuel" 40%Z None]
             []
             [{| cat_id := 1; cat_name := "Rent" |}; {| cat_id := 2; cat_name := "Fuel" |}]
             [] in
  returned r = true
  /\ expenses (disk (self_after r))
     = [Build_expense 1 "2025-01-10" "Food" 250%Z (Some "Lunch");
        Build_expense 2 "2025-01-15" "Rent" 900%Z None;
        Build_expense 7 "2025-03-01" "Fuel" 40%Z None]
  /\ categories (disk (self_after r))
     = [{| cat_id := 1; cat_name := "Food" |}; {| cat_id := 2; cat_name := "Rent" |};
        {| cat_id := 4; cat_name := "Fuel" |}].
Proof.
  assert (He : Forall (fun e : expense Z => amt_is_nan (exp_amount e) = false)
                 [Build_expense 2 "2025-01-15" "Rent" 900%Z None;
                  Build_expense 7 "2025-03-01" "Fuel" 40%Z None])
    by (repeat constructor).
  pose proof (import_database_merges sample 2 _ []
                [{| cat_id := 1; cat_name := "Rent" |}; {| cat_id := 2; cat_name := "Fuel" |}]
                [] He (Forall_nil _) (Forall_nil _)) as K.
  cbv zeta in K. destruct K as (Kreturned & _).
  split; [exact Kreturned|]. split; reflexivity.
Defined.

(** ** Opening the database *)

Section Seeding.
Context {A : Type} `{Amount A}.

Local Open Scope stmt_scope.

Lemma execute_all_clean (statements : list (tables A -> sqlite_error + tables A))
    (t p' : tables A) :
  statements <> [] ->
  apply_all statements t = inr p' ->
  execute_all statements (connect t [])
  = (inr tt, {| cursor := true; disk := t; txn := Some p'; faults := [] |}).
Proof.
  destruct statements as [|w rest]; [contradiction|]. intros _ Hall.
  cbn [apply_all] in Hall. destruct (w t) as [e|p1] eqn:Hw; [discriminate|].
  cbn [execute_all].
  assert (Hfirst : execute_write w (connect t [])
                   = (inr tt, {| cursor := true; disk := t; txn := Some p1; faults := [] |})).
  { unfold execute_write, bind, implicit_begin, engine_step, apply_write, visible, connect.
    cbn [txn faults cursor disk]. rewrite Hw. reflexivity. }
  rewrite (bind_done _ _ _ _ _ Hfirst).
  destruct (execute_all_pending rest
              {| cursor := true; disk := t; txn := Some p1; faults := [] |} p1 eq_refl)
    as (_ & _ & Hclean).
  exact (Hclean eq_refl p' Hall).
Qed.

Lemma seed_names (seq : Z) (names : list string) :
  NoDup names ->
  forall t : tables A,
    (forall n, In n names -> ~ In n (map cat_name (categories t))) ->
    exists cs,
      apply_all (map (insert_category seq) names) t
      = inr (with_categories t (categories t ++ cs))
      /\ map cat_name cs = names.
Proof.
  induction 1 as [|n names Hnew Hnd IH]; intros t Hfree.
  - exists []. rewrite app_nil_r, with_categories_same. split; reflexivity.
  - cbn [map apply_all]. unfold insert_category at 1.
    assert (Hex : existsb (fun c => (cat_name c =? n)%string) (categories t) = false).
    { apply not_true_is_false. intros Hex. apply existsb_name in Hex.
      exact (Hfree n (or_introl eq_refl) Hex). }
    rewrite Hex.
    set (row := {| cat_id := next_rowid (map cat_id (categories t)) seq; cat_name := n |}).
    destruct (IH (with_categories t (categories t ++ [row]))) as (cs & Hrun & Hcs).
    { intros m Hm. cbn [categories with_categories]. rewrite map_app, in_app_iff.
      intros [Hin|[Heq|[]]].
      - exact (Hfree m (or_intror Hm) Hin).
      - simpl in Heq. subst m. exact (Hnew Hm). }
    exists (row :: cs). split.
    + rewrite Hrun. cbn [categories with_categories]. rewrite <- app_assoc. reflexivity.
    + simpl. rewrite Hcs. reflexivity.
Qed.

Lemma default_categories_distinct : NoDup default_categories.
Proof.
  replace default_categories with (nodup string_dec default_categories) by reflexivity.
  apply NoDup_nodup.
Qed.

Lemma seed_categories_run (t : tables A) (seq : Z) :
  exists t1,
    bind (execute_read (fun t => List.length (categories t)))
      (fun count =>
         if count =? 0
         then execute_all (map (insert_category seq) default_categories) ;;; commit
         else done) (connect t [])
    = (inr tt, connect t1 [])
    /\ expenses t1 = expenses t /\ expenses_seq t1 = expenses_seq t
    /\ income t1 = income t /\ budgets t1 = budgets t
    /\ (categories t <> [] -> t1 = t)
    /\ (categories t = [] -> map cat_name (categories t1) = default_categories)
    /\ categories t1 <> [].
Proof.
  assert (Hread : execute_read (fun t : tables A => List.length (categories t)) (connect t [])
                  = (inr (List.length (categories t)), connect t [])) by reflexivity.
  rewrite (bind_done _ _ _ _ _ Hread).
  destruct (categories t) as [|c cs0] eqn:Hcats.
  - cbn [List.length Nat.eqb].
    destruct (seed_names seq default_categories default_categories_distinct t) as (cs & Hrun & Hcs).
    { intros n _. rewrite Hcats. simpl. tauto. }
    rewrite Hcats in Hrun. cbn [app] in Hrun.
    exists (with_categories t cs).
    assert (Hsome : map (insert_category (A := A) seq) default_categories <> [])
      by discriminate.
    rewrite (bind_done _ _ _ _ _ (execute_all_clean _ t _ Hsome Hrun)).
    split; [reflexivity|]. cbn [expenses expenses_seq income budgets categories with_categories].
    repeat split; try reflexivity.
    + intros Habs. contradiction.
    + intros _. exact Hcs.
    + intros ->. discriminate.
  - exists t. cbn [List.length Nat.eqb]. split; [reflexivity|].
    repeat split; try reflexivity.
    + intros Habs. discriminate.
    + rewrite Hcats. discriminate.
Qed.

Lemma seed_budget_run (t : tables A) (seq : Z) (m : string) :
  amt_is_nan (amt_zero (A := A)) = false ->
  exists t2,
    bind (execute_read (fun t => List.length (budgets t)))
      (fun count =>
         if count =? 0
         then execute_write (insert_budget seq m amt_zero) ;;; commit
         else done) (connect t [])
    = (inr tt, connect t2 [])
    /\ expenses t2 = expenses t /\ expenses_seq t2 = expenses_seq t
    /\ income t2 = income t /\ categories t2 = categories t
    /\ (budgets t <> [] -> t2 = t)
    /\ (budgets t = [] ->
        map (fun b => (month_year b, budget_amount b)) (budgets t2) = [(m, amt_zero)])
    /\ budgets t2 <> [].
Proof.
  intros Hzero.
  assert (Hread : execute_read (fun t : tables A => List.length (budgets t)) (connect t [])
                  = (inr (List.length (budgets t)), connect t [])) by reflexivity.
  rewrite (bind_done _ _ _ _ _ Hread).
  destruct (budgets t) as [|b bs0] eqn:Hbuds.
  - cbn [List.length Nat.eqb].
    exists (with_budgets t [Build_budget (next_rowid [] seq) m amt_zero]).
    assert (Hrun : (execute_write (insert_budget seq m amt_zero) ;;; commit) (connect t [])
                   = (inr tt, connect (with_budgets t
                                         [Build_budget (next_rowid [] seq) m amt_zero]) [])).
    { unfold insert_budget. run_stmts. rewrite Hzero, Hbuds. reflexivity. }
    split; [exact Hrun|]. cbn [expenses expenses_seq income budgets categories with_budgets].
    repeat split; try reflexivity.
    + intros Habs. contradiction.
    + discriminate.
  - exists t. cbn [List.length Nat.eqb]. split; [reflexivity|].
    repeat split; try reflexivity.
    + intros Habs. discriminate.
    + rewrite Hbuds. discriminate.
Qed.

Lemma create_tables_run (t : tables A) (categories_seq budgets_seq : Z)
    (current_month_year : string) :
  amt_is_nan (amt_zero (A := A)) = false ->
  exists after,
    _create_tables (connect t []) categories_seq budgets_seq current_month_year
    = Build_reply tt None (connect after [])
    /\ expenses after = expenses t /\ expenses_seq after = expenses_seq t
    /\ income after = income t
    /\ (categories t <> [] -> categories after = categories t)
    /\ (categories t = [] -> map cat_name (categories after) = default_categories)
    /\ (budgets t <> [] -> budgets after = budgets t)
    /\ (budgets t = [] ->
        map (fun b => (month_year b, budget_amount b)) (budgets after)
        = [(current_month_year, amt_zero)])
    /\ categories after <> [] /\ budgets after <> []
    /\ (categories t <> [] -> budgets t <> [] -> after = t).
Proof.
  intros Hzero.
  destruct (seed_categories_run t categories_seq)
    as (t1 & Hrun1 & He1 & Hs1 & Hi1 & Hb1 & Hsame1 & Hnames1 & Hsome1).
  destruct (seed_budget_run t1 budgets_seq current_month_year Hzero)
    as (t2 & Hrun2 & He2 & Hs2 & Hi2 & Hc2 & Hsame2 & Hmonth2 & Hsome2).
  exists t2.
  assert (Hstep : engine_step (connect t []) = (inr tt, connect t [])) by reflexivity.
  assert (Hcommit : commit (connect t []) = (inr tt, connect t [])) by reflexivity.
  split.
  { unfold _create_tables. cbn [connect cursor negb]. fold (connect t []).
    rewrite (bind_done _ _ _ _ _ Hstep), (bind_done _ _ _ _ _ Hstep).
    rewrite (bind_done _ _ _ _ _ Hstep), (bind_done _ _ _ _ _ Hstep).
    rewrite (bind_done _ _ _ _ _ Hcommit).
    rewrite (bind_done _ _ _ _ _ Hrun1). rewrite Hrun2. reflexivity. }
  split; [congruence|]. split; [congruence|]. split; [congruence|].
  split; [intros Hc; rewrite Hc2, (Hsame1 Hc); reflexivity|].
  split; [intros Hc; rewrite Hc2; exact (Hnames1 Hc)|].
  split.
  { intros Hb. rewrite <- Hb1 in Hb. rewrite (Hsame2 Hb). exact Hb1. }
  split.
  { intros Hb. rewrite <- Hb1 in Hb. exact (Hmonth2 Hb). }
  split; [rewrite Hc2; exact Hsome1|]. split; [exact Hsome2|].
  intros Hc Hb. rewrite <- Hb1 in Hb. rewrite (Hsame2 Hb). exact (Hsame1 Hc).
Qed.

End Seeding.

(** X22: opening a database writes defaults into empty tables only.  On
    a live connection without engine failures [_create_tables] leaves
    expenses and income alone, leaves a categories table that has rows
    and a budgets table that has rows as they are, fills an empty
    categories table with the sixteen default names and an empty
    budgets table with a budget of 0.0 for the current month; running it
    again changes nothing more. *)
Theorem create_tables_fills_empty_tables {A} `{Amount A} (t : tables A)
    (categories_seq budgets_seq : Z) (current_month_year : string) :
  amt_is_nan (amt_zero (A := A)) = false ->
  let r := _create_tables (connect t []) categories_seq budgets_seq current_month_year in
  let after := disk (self_after r) in
  shown r = None
  /\ self_after r = connect after []
  /\ expenses after = expenses t /\ expenses_seq after = expenses_seq t
  /\ income after = income t
  /\ (categories t <> [] -> categories after = categories t)
  /\ (categories t = [] -> map cat_name (categories after) = default_categories)
  /\ (budgets t <> [] -> budgets after = budgets t)
  /\ (budgets t = [] ->
      map (fun b => (month_year b, budget_amount b)) (budgets after)
      = [(current_month_year, amt_zero)])
  /\ (forall categories_seq' budgets_seq' current_month_year',
        self_after (_create_tables (self_after r) categories_seq' budgets_seq'
                      current_month_year')
        = self_after r).
Proof.
  intros Hzero r after.
  destruct (create_tables_run t categories_seq budgets_seq current_month_year Hzero)
    as (t' & Hrun & He & Hs & Hi & Hc & Hnames & Hb & Hmonth & Hsomec & Hsomeb & _).
  assert (Hafter : after = t') by (subst after r; rewrite Hrun; reflexivity).
  assert (Hself : self_after r = connect t' []) by (subst r; rewrite Hrun; reflexivity).
  rewrite Hafter, Hself.
  split; [subst r; rewrite Hrun; reflexivity|].
  split; [reflexivity|]. split; [exact He|]. split; [exact Hs|]. split; [exact Hi|].
  split; [exact Hc|]. split; [exact Hnames|]. split; [exact Hb|]. split; [exact Hmonth|].
  intros cseq' bseq' m'.
  destruct (create_tables_run t' cseq' bseq' m' Hzero)
    as (t'' & Hrun' & _ & _ & _ & _ & _ & _ & _ & _ & _ & Hsame).
  rewrite Hrun'. cbn [self_after]. rewrite (Hsame Hsomec Hsomeb). reflexivity.
Qed.

Lemma create_tables_fills_empty_tables_witness :
  let fresh : tables Z :=
    {| expenses := []; expenses_seq := 0; income := []; budgets := []; categories := [] |} in
  let r := _create_tables (connect fresh []) 0 0 "2025-07" in
  map cat_name (categories (disk (self_after r))) = default_categories
  /\ categories (disk (self_after (_create_tables (connect sample []) 2 1 "2025-07")))
     = categories sample.
Proof.
  intros fresh r.
  pose proof (create_tables_fills_empty_tables fresh 0 0 "2025-07" eq_refl) as K.
  cbv zeta in K. destruct K as (_ & _ & _ & _ & _ & _ & Kc & _).
  split; [apply Kc; reflexivity|].
  pose proof (create_tables_fills_empty_tables sample 2 1 "2025-07" eq_refl) as K'.
  cbv zeta in K'. destruct K' as (_ & _ & _ & _ & _ & Kc' & _).
  apply Kc'. discriminate.
Defined.
